(** * Python client of the Web Crop Phenology Metrics Service (WCPMS)

    A shallow embedding of [wcpms_plugin/controller/wcpms_client.py]: the
    request/response adapter ([get_phenometrics], [get_collections],
    [get_description], [get_timeseries_region], [get_phenometrics_region]),
    the smoothing step ([smooth_timeseries]) and the chart builders
    ([plot_phenometrics] and its variants), followed by the properties the
    specification states about them.

    Python values are JSON-shaped data, exceptions are values of [exn], and a
    call either returns or raises ([result]).  The client reaches the network
    through [requests] only: a computation logs the calls it makes to
    [requests.get] and [requests.post] and takes the outcome of each call
    from a function of the call ([Net]).  A float is the rational it denotes;
    the one float64 computation of the client, the smoothing, is the exact
    filter plus a rounding error that is left to the library. *)

From Stdlib Require Import ZArith QArith Qcanon Ascii String List Lia.
From Stdlib Require Import Numbers.DecimalString.
From stdpp Require Import gmap strings list fin_maps.

Local Open Scope string_scope.
Local Open Scope list_scope.

(** ** Values *)

(** What [json.loads] produces, and what the client passes around: [None],
    booleans, [int], [float], [str], lists and dicts with text keys. *)
#[warnings="-register-all"]
Inductive json : Type :=
| JNull
| JBool (b : bool)
| JInt (z : Z)
| JFloat (q : Qc)
| JStr (s : string)
| JList (l : list json)
| JObj (m : gmap string json).

(** ** Exceptions and results *)

Inductive exn : Type :=
| ConnectionError
| HTTPError (status : Z)
| JSONDecodeError
| KeyError (key : string)
| IndexError
| TypeError
| ValueError
| AttributeError
| OverflowError
| NameError (name : string)
| UnboundLocalError (name : string)
| MissingSchema
| InvalidSchema
| InvalidURL
| TooManyRedirects.

Inductive result (A : Type) : Type :=
| Return (a : A)
| Raise (e : exn).

Arguments Return {A} a.
Arguments Raise {A} e.

#[global] Instance result_ret : MRet result := @Return.
#[global] Instance result_bind : MBind result := fun A B k r =>
  match r with
  | Return a => k a
  | Raise e => Raise e
  end.

(** [for x in xs: body], stopping at the first exception. *)
Fixpoint for_each {A S : Type} (xs : list A) (body : S -> A -> result S) (s : S)
  : result S :=
  match xs with
  | [] => Return s
  | x :: xs' => s' ← body s x; for_each xs' body s'
  end.

(** ** Built-in operations on values *)

(** [v[key]] with a text key. *)
Definition getitem (v : json) (key : string) : result json :=
  match v with
  | JObj m =>
      match m !! key with
      | Some x => Return x
      | None => Raise (KeyError key)
      end
  | _ => Raise TypeError
  end.

(** Text is held as its UTF-8 bytes, and Python indexes and iterates it by
    character.  A byte [10xxxxxx] continues the character begun before it. *)
Definition is_continuation (c : ascii) : bool :=
  let n := nat_of_ascii c in (128 <=? n)%nat && (n <? 192)%nat.

(** The characters of a text, each with all its bytes. *)
Fixpoint code_points (s : string) : list string :=
  match s with
  | "" => []
  | String c s' =>
      match s' with
      | String d _ =>
          if is_continuation d then
            match code_points s' with
            | h :: t => String c h :: t
            | [] => [String c ""]
            end
          else String c "" :: code_points s'
      | "" => [String c ""]
      end
  end.

(** [v[i]] with a literal index [i >= 0].  A dict built from JSON has text
    keys only, so the integer is a missing key. *)
Definition getindex (v : json) (i : nat) : result json :=
  match v with
  | JList l =>
      match l !! i with
      | Some x => Return x
      | None => Raise IndexError
      end
  | JStr s =>
      match code_points s !! i with
      | Some c => Return (JStr c)
      | None => Raise IndexError
      end
  | JObj _ => Raise (KeyError (NilEmpty.string_of_uint (Nat.to_uint i)))
  | _ => Raise TypeError
  end.

Definition chars (s : string) : list json := JStr <$> code_points s.

(** [iter(v)]: the items a [for] loop visits.  A dict yields its keys; their
    order is not kept by [gmap] and no caller depends on it. *)
Definition iterate (v : json) : result (list json) :=
  match v with
  | JList l => Return l
  | JObj m => Return (JStr <$> (map_to_list m).*1)
  | JStr s => Return (chars s)
  | _ => Raise TypeError
  end.

(** [s.split(sep)] for a one-character separator: never empty. *)
Fixpoint split (sep : ascii) (s : string) : list string :=
  match s with
  | "" => [""]
  | String c s' =>
      if Ascii.eqb c sep then "" :: split sep s'
      else match split sep s' with
           | h :: t => String c h :: t
           | [] => [String c ""]
           end
  end.

(** [s.split('T')[0]]: the text before the first ['T'], the date of an ISO
    timestamp. *)
Definition date_part (s : string) : string := hd "" (split "T" s).

(** [v.split('T')[0]]: only text has a [split] method. *)
Definition split_T_0 (v : json) : result string :=
  match v with
  | JStr s => Return (date_part s)
  | _ => Raise AttributeError
  end.

(** [a + v] where [a] is text: concatenation, defined for text only. *)
Definition str_add (a : string) (v : json) : result string :=
  match v with
  | JStr s => Return (a +:+ s)
  | _ => Raise TypeError
  end.

(** ** Library behaviour left open

    The client calls into the Python runtime and third-party packages.  What
    the properties below do not depend on is a parameter of the model. *)

(** A geometry object of shapely, as geopandas holds them in a geometry
    column.  The client only passes them on: one is told from another, and
    no more. *)
Inductive Geometry : Type := shapely_geometry (id : nat).

Class PyLib : Type := {
  (** [str(v)] for a value that is not text (numbers, containers, [None]). *)
  repr : json -> string;
  (** [datetime.strptime(s, "%Y-%m-%d")], as a proleptic Gregorian day
      number (the time of day of the result is midnight). *)
  strptime_ymd : string -> result Z;
  (** [scipy.signal.savgol_filter] at parameters other than window 3,
      order 1. *)
  savgol_filter_other : list Qc -> Z -> Z -> result (list Qc);
  (** The rounding error of [savgol_filter(x, 3, 1)] on the value at index
      [i]: what scipy computes there in float64, minus the exact value of
      the filter. *)
  savgol_rounding : list Qc -> nat -> Qc;
  (** [geopandas.GeoSeries(data)] for data that is not a geometry column:
      [None], numbers, text, lists and dicts. *)
  GeoSeries_data : json -> result (list Geometry);
  (** What the drawing call of that name (of matplotlib or seaborn) makes of
      coordinates that are not all numbers: [None], text, containers. *)
  draw_other : string -> list json -> result unit;
  (** [plt.subplots(figsize=layout)] and [plt.figure(figsize=layout)]:
      whether a figure of that size, in inches, is made. *)
  plt_figure : Qc * Qc -> result unit;
  (** [df.plot()] on a series of geometries: whether geopandas draws it. *)
  geoseries_plot : list Geometry -> result unit
}.

Definition str `{PyLib} (v : json) : string :=
  match v with
  | JStr s => s
  | _ => repr v
  end.

(** ** HTTP through [requests]

    The client does not touch the network itself.  It calls [requests.get]
    and [requests.post] and takes what they hand back; what the library puts
    on the wire for one call (a redirect is followed, up to 30 times, with a
    request of the library's own making) is the library's business and is
    not part of this model. *)

Inductive method : Type := GET | POST.

(** The request a call hands to the library: [requests.get(url)] or
    [requests.post(url, json=body)].  [req_params] is the [params=]
    argument, [req_json] the [json=] argument. *)
Record Request : Type := {
  req_method : method;
  req_url : string;
  req_params : list (string * string);
  req_json : option json
}.

(** The response a call hands back, the last one when redirects were
    followed: its status code and what [Response.json()] decodes from the
    body, [None] when the body is not a JSON document. *)
Record Response : Type := {
  status_code : Z;
  json_doc : option json
}.

(** The outcome of a call: an exception raised by [requests]
    ([ConnectionError] when the host cannot be reached, [MissingSchema] for
    a URL without scheme, [TooManyRedirects], ...) or a response, whatever
    its status code. *)
Inductive Reply : Type :=
| Raised (e : exn)
| Responded (r : Response).

(** The service as the client sees it through [requests]: the outcome of
    each call. *)
Definition Server : Type := Request -> Reply.

(** A computation that calls [requests]: the requests handed to the
    library, in order, and the outcome. *)
Definition Net (A : Type) : Type := Server -> list Request * result A.

#[global] Instance net_ret : MRet Net := fun A a _ => ([], Return a).
#[global] Instance net_bind : MBind Net := fun A B k m srv =>
  match m srv with
  | (log, Return a) => let '(log', r) := k a srv in (log ++ log', r)
  | (log, Raise e) => (log, Raise e)
  end.

Definition lift {A : Type} (r : result A) : Net A := fun _ => ([], r).

(** One call: the request is logged, and the outcome is the library's. *)
Definition send (rq : Request) : Net Response := fun srv =>
  ([rq], match srv rq with
         | Raised e => Raise e
         | Responded r => Return r
         end).

(** [requests.get(url)]: any status code is handed back as a response. *)
Definition requests_get (url : string) : Net Response :=
  send {| req_method := GET; req_url := url; req_params := []; req_json := None |}.

(** [requests.post(url, json=body)]. *)
Definition requests_post (url : string) (body : json) : Net Response :=
  send {| req_method := POST; req_url := url; req_params := [];
          req_json := Some body |}.

(** [data.json()]. *)
Definition Response_json (data : Response) : result json :=
  match json_doc data with
  | Some j => Return j
  | None => Raise JSONDecodeError
  end.

(** ** [urllib.parse.urlencode] *)

Definition always_safe (c : ascii) : bool :=
  let n := nat_of_ascii c in
  ((65 <=? n)%nat && (n <=? 90)%nat) || ((97 <=? n)%nat && (n <=? 122)%nat)
  || ((48 <=? n)%nat && (n <=? 57)%nat)
  || Ascii.eqb c "_" || Ascii.eqb c "." || Ascii.eqb c "-" || Ascii.eqb c "~".

Definition hex_digit (n : nat) : ascii :=
  match String.get n "0123456789ABCDEF" with
  | Some c => c
  | None => "0"%char
  end.

(** One byte of the UTF-8 text under [quote_plus]. *)
Definition quote_byte (c : ascii) : string :=
  if always_safe c then String c ""
  else if Ascii.eqb c " " then "+"
  else String "%" (String (hex_digit (nat_of_ascii c / 16))
                     (String (hex_digit (nat_of_ascii c mod 16)) "")).

Fixpoint quote_plus (s : string) : string :=
  match s with
  | "" => ""
  | String c s' => quote_byte c +:+ quote_plus s'
  end.

Fixpoint join (sep : string) (l : list string) : string :=
  match l with
  | [] => ""
  | [x] => x
  | x :: l' => x +:+ sep +:+ join sep l'
  end.

(** [urlencode(query)] for a dict with text keys, in insertion order. *)
Definition urlencode `{PyLib} (query : list (string * json)) : string :=
  join "&" ((fun kv => quote_plus kv.1 +:+ "=" +:+ quote_plus (str kv.2)) <$> query).

(** ** The request/response adapter *)

Definition get_phenometrics `{PyLib} (url : string) (cube : json)
    (latitude longitude : json) : Net json :=
  collection ← lift (getitem cube "collection");
  band ← lift (getitem cube "band");
  start_date ← lift (getitem cube "start_date");
  end_date ← lift (getitem cube "end_date");
  freq ← lift (getitem cube "freq");
  let query := [("collection", collection); ("band", band);
                ("start_date", start_date); ("end_date", end_date);
                ("freq", freq); ("latitude", latitude);
                ("longitude", longitude)] in
  let url_suffix := "/phenometrics?" +:+ urlencode query in
  data ← requests_get (url +:+ url_suffix);
  data_json ← lift (Response_json data);
  lift (getitem data_json "result").

Definition cube_query (collection start_date end_date freq band : json) : json :=
  JObj (list_to_map [("collection", collection); ("band", band);
                     ("start_date", start_date); ("end_date", end_date);
                     ("freq", freq)]).

Definition get_collections (url : string) : Net json :=
  let url_suffix := "/list_collections" in
  data ← requests_get (url +:+ url_suffix);
  data_json ← lift (Response_json data);
  lift (getitem data_json "coverages").

Definition html_table_header : string :=
  "<tr>" +:+ "<td><b>Code</b></td>" +:+ "<td><b>Name</b></td>"
  +:+ "<td><b>Description</b></td>" +:+ "<td><b>Method</b></td>"
  +:+ "<td><b>Value</b></td>" +:+ "<td><b>Time</b></td>" +:+ "</tr>".

(** The body of the loop in [get_description]: one table row appended to
    [html_table].  The row is built left to right, so each key is looked up,
    and each text cell concatenated, in the order written. *)
Definition html_table_row `{PyLib} (html_table : string) (item : json)
  : result string :=
  code ← getitem item "Code";
  row ← str_add ("<tr>" +:+ "<td>") code;
  name ← getitem item "Name";
  row ← str_add (row +:+ "</td>" +:+ "<td>") name;
  description ← getitem item "Description";
  row ← str_add (row +:+ "</td>" +:+ "<td>") description;
  method ← getitem item "Method";
  row ← str_add (row +:+ "</td>" +:+ "<td>") method;
  value ← getitem item "Value";
  let row := row +:+ "</td>" +:+ "<td>" +:+ str value in
  time ← getitem item "Time";
  let row := row +:+ "</td>" +:+ "<td>" +:+ str time +:+ "</td>" +:+ "</tr>" in
  Return (html_table +:+ row).

Definition get_description `{PyLib} (url : string) : Net json :=
  let url_suffix := "/describe" in
  data ← requests_get (url +:+ url_suffix);
  data_json ← lift (Response_json data);
  let html_table := html_table_header in
  description ← lift (getitem data_json "description");
  items ← lift (iterate description);
  html_table ← lift (for_each items html_table_row html_table);
  lift (getitem data_json "description").

Definition get_timeseries_region (url : string) (cube geom : json) : Net json :=
  collection ← lift (getitem cube "collection");
  band ← lift (getitem cube "band");
  start_date ← lift (getitem cube "start_date");
  end_date ← lift (getitem cube "end_date");
  freq ← lift (getitem cube "freq");
  let body := JObj (list_to_map [("collection", collection); ("band", band);
                                 ("start_date", start_date);
                                 ("end_date", end_date); ("freq", freq);
                                 ("geom", geom)]) in
  let url_suffix := "/timeseries" in
  data ← requests_post (url +:+ url_suffix) body;
  data_json ← lift (Response_json data);
  lift (getitem data_json "result").

Definition get_phenometrics_region (url : string) (cube timeseries : json)
  : Net json :=
  collection ← lift (getitem cube "collection");
  band ← lift (getitem cube "band");
  start_date ← lift (getitem cube "start_date");
  end_date ← lift (getitem cube "end_date");
  freq ← lift (getitem cube "freq");
  let body := JObj (list_to_map [("collection", collection); ("band", band);
                                 ("start_date", start_date);
                                 ("end_date", end_date); ("freq", freq);
                                 ("timeseries", timeseries)]) in
  let url_suffix := "/phenometrics" in
  data ← requests_post (url +:+ url_suffix) body;
  data_json ← lift (Response_json data);
  lift (getitem data_json "result").

(** ** Smoothing *)

(** [scipy.signal.savgol_filter(x, 3, 1)] with the default [mode="interp"]:
    the series is convolved with the weights of the least-squares line at the
    centre of a 3-point window, and the first and last values are replaced by
    the line fitted to the first and last three points.  A series shorter
    than the window is rejected with [ValueError].  The series holds float64
    values, each written as the rational it denotes. *)
Module Savgol.

(** The filter in exact arithmetic, as scipy defines it.
    [savgol_coeffs(3, 1)]: *)
Definition coeffs : Qc * Qc * Qc :=
  (Q2Qc (1 # 3), Q2Qc (1 # 3), Q2Qc (1 # 3)).

(** [convolve1d(x, coeffs, mode="constant")]: zeros beyond both ends.
    [prev] is the value left of the head of [x]. *)
Fixpoint convolve1d (prev : Qc) (x : list Qc) : list Qc :=
  match x with
  | [] => []
  | a :: t =>
      let '(c0, c1, c2) := coeffs in
      (c0 * hd (Q2Qc 0) t + c1 * a + c2 * prev)%Qc :: convolve1d a t
  end.

(** [np.polyfit([0, 1, 2], [y0, y1, y2], 1)]: slope and intercept of the
    least-squares line. *)
Definition polyfit (y0 y1 y2 : Qc) : Qc * Qc :=
  let slope := ((y2 - y0) / Q2Qc 2)%Qc in
  let mean := ((y0 + y1 + y2) / Q2Qc 3)%Qc in
  (slope, (mean - slope)%Qc).

Definition polyval (p : Qc * Qc) (t : Qc) : Qc := (p.1 * t + p.2)%Qc.

(** [_fit_edge]: the line fitted to [x[window_start : window_start + 3]],
    evaluated at offset [i] of that window, stored at [y[window_start + i]]. *)
Definition fit_edge (x : list Qc) (window_start : nat) (i : nat)
    (y : list Qc) : list Qc :=
  match take 3 (drop window_start x) with
  | [y0; y1; y2] =>
      <[(window_start + i)%nat :=
          polyval (polyfit y0 y1 y2) (Q2Qc (inject_Z (Z.of_nat i)))]> y
  | _ => y
  end.

(** The exact values of the filter on a series of three values or more. *)
Definition exact_w3_p1 (x : list Qc) : list Qc :=
  let n := length x in
  let y := convolve1d (Q2Qc 0) x in
  let y := fit_edge x 0 0 y in
  let y := fit_edge x (n - 3) 2 y in
  y.

(** What scipy returns: it computes in float64, so each value comes with
    the rounding error of that computation. *)
Definition filter_w3_p1 `{PyLib} (x : list Qc) : result (list Qc) :=
  let n := length x in
  if (n <? 3)%nat then Raise ValueError
  else Return (imap (fun i v => (v + savgol_rounding x i)%Qc) (exact_w3_p1 x)).

End Savgol.

Definition savgol_filter `{PyLib} (x : list Qc) (window_length polyorder : Z)
  : result (list Qc) :=
  if ((window_length =? 3)%Z && (polyorder =? 1)%Z)%bool then Savgol.filter_w3_p1 x
  else savgol_filter_other x window_length polyorder.

(** Defaults of the signature: [method='savitsky', window_length=3,
    polyorder=1].  With another method [smooth_ts] is never assigned. *)
Definition smooth_timeseries `{PyLib} (ts : list Qc) (method : string)
    (window_length polyorder : Z) : result (list Qc) :=
  if String.eqb method "savitsky" then savgol_filter ts window_length polyorder
  else Raise (UnboundLocalError "smooth_ts").

(** ** Charts *)

(** A position on the time axis: plotly is given date text, matplotlib a
    [datetime] (a day number, at midnight). *)
Inductive xval : Type :=
| XText (s : string)
| XDate (d : Z).

(** What a builder draws, in drawing order. *)
Inductive Artist : Type :=
| go_Scatter (name : json) (mode : option string) (x : list xval)
    (y : list json) (fill : option string) (color : string)
| add_vrect (x0 x1 : Z) (fillcolor : string)
| ax_fill (x : list xval) (y : list json) (label : string)
| ax_plot (x : list xval) (y : list json) (label : json) (color : string)
| sns_lineplot (x : list xval) (y : list json) (label : json) (color : string)
| sns_scatterplot (x : list xval) (y : list json) (label : string)
    (color : string).

Definition Figure : Type := list Artist.

Record TimeSeries : Type := {
  timeline : list string;
  values : list Qc
}.

(** [ds_phenos] of the point-query builders. *)
Record PointPhenos : Type := {
  timeseries : TimeSeries;
  phenometrics : json
}.

(** [ds_phenos] of the region-query builder: one pixel of the region. *)
Record RegionPhenos : Type := {
  region_timeseries : list Qc;
  region_timeline : list string;
  region_phenometrics : json
}.

(** [datetime] arithmetic stays within years 1 to 9999. *)
Definition MINORDINAL : Z := 1.
Definition MAXORDINAL : Z := 3652059.

(** [d + timedelta(days=n)] (and [d - timedelta(days=n)] with [-n]). *)
Definition add_days (d n : Z) : result Z :=
  let r := (d + n)%Z in
  if ((MINORDINAL <=? r)%Z && (r <=? MAXORDINAL)%Z)%bool then Return r
  else Raise OverflowError.

(** [phenometrics[key].split('T')[0]]. *)
Definition day_text (phenometrics : json) (key : string) : result string :=
  v ← getitem phenometrics key; split_T_0 v.

(** [dt.strptime(phenometrics[key].split('T')[0], "%Y-%m-%d")]. *)
Definition day_date `{PyLib} (phenometrics : json) (key : string) : result Z :=
  s ← day_text phenometrics key; strptime_ymd s.

(** [dt.strptime(t.split('T')[0], "%Y-%m-%d")] for an entry of the timeline. *)
Definition timeline_date `{PyLib} (t : string) : result Z :=
  strptime_ymd (date_part t).

Fixpoint timeline_dates `{PyLib} (ts : list string) : result (list Z) :=
  match ts with
  | [] => Return []
  | t :: ts' => d ← timeline_date t; ds ← timeline_dates ts'; Return (d :: ds)
  end.

(** The title: [format] applied to the unpacked [attr], with two
    replacement fields. *)
Definition format2 `{PyLib} (attr : list json) : result string :=
  match attr with
  | a :: b :: _ =>
      Return ("Phenological Metrics for " +:+ str a +:+ " (" +:+ str b +:+ ")")
  | _ => Raise IndexError
  end.

(** matplotlib and pandas refuse columns of different lengths. *)
Definition same_length {A B : Type} (x : list A) (y : list B) : result unit :=
  if (length x =? length y)%nat then Return tt else Raise ValueError.

(** *** plotly traces shared by [plot_phenometrics] and
    [plot_advanced_phenometrics] (the source repeats them in both) *)

(** The trace named LIOS: [x] is evaluated before [y], left to right. *)
Definition lios_trace (phenometrics : json) : result Artist :=
  x0 ← day_text phenometrics "sos_t";
  x1 ← day_text phenometrics "sos_t";
  x2 ← day_text phenometrics "pos_t";
  x3 ← day_text phenometrics "eos_t";
  x4 ← day_text phenometrics "eos_t";
  sos_v ← getitem phenometrics "sos_v";
  pos_v ← getitem phenometrics "pos_v";
  eos_v ← getitem phenometrics "eos_v";
  Return (go_Scatter (JStr "LIOS") (Some "lines")
            (XText <$> [x0; x1; x2; x3; x4])
            [JInt 0; sos_v; pos_v; eos_v; JInt 0] (Some "toself")
            "rgba(153, 247, 254, 0.4)").

(** The raw series, then the smoothed one. *)
Definition series_traces (cube : json) (timeline : list string)
    (timeseries y_new : list Qc) : result (list Artist) :=
  band ← getitem cube "band";
  let raw := go_Scatter band None (XText <$> timeline) (JFloat <$> timeseries)
               None "#17BECF" in
  band ← getitem cube "band";
  name ← str_add "Smooth " band;
  let smooth := go_Scatter (JStr name) None (XText <$> timeline)
                  (JFloat <$> y_new) None "#ff0000" in
  Return [raw; smooth].

Definition los_trace (phenometrics : json) : result Artist :=
  x0 ← day_text phenometrics "sos_t";
  x1 ← day_text phenometrics "eos_t";
  sos_v ← getitem phenometrics "sos_v";
  eos_v ← getitem phenometrics "eos_v";
  Return (go_Scatter (JStr "LOS") (Some "lines") (XText <$> [x0; x1])
            [sos_v; eos_v] None "#000000").

Definition aos_trace (phenometrics : json) : result Artist :=
  x0 ← day_text phenometrics "pos_t";
  x1 ← day_text phenometrics "pos_t";
  pos_v ← getitem phenometrics "pos_v";
  Return (go_Scatter (JStr "AOS") (Some "lines") (XText <$> [x0; x1])
            [pos_v; JInt 0] None "#000000").

Definition marker_trace (phenometrics : json) (name t_key v_key color : string)
  : result Artist :=
  x ← day_text phenometrics t_key;
  v ← getitem phenometrics v_key;
  Return (go_Scatter (JStr name) (Some "markers") [XText x] [v] None color).

Definition plot_phenometrics `{PyLib} (cube : json) (ds_phenos : PointPhenos)
  : result Figure :=
  y_new ← smooth_timeseries (values (timeseries ds_phenos)) "savitsky" 3 1;
  let timeline := timeline (timeseries ds_phenos) in
  let timeseries := values (timeseries ds_phenos) in
  let phenometrics := phenometrics ds_phenos in
  pos_t_minus ← day_date phenometrics "pos_t";
  pos_t_plus ← day_date phenometrics "pos_t";
  pos_t_minus ← add_days pos_t_minus (-5);
  pos_t_plus ← add_days pos_t_plus 5;
  lios ← lios_trace phenometrics;
  series ← series_traces cube timeline timeseries y_new;
  los ← los_trace phenometrics;
  aos ← aos_trace phenometrics;
  sos ← marker_trace phenometrics "SOS" "sos_t" "sos_v" "#008c00";
  pos ← marker_trace phenometrics "POS" "pos_t" "pos_v" "#0009e3";
  eos ← marker_trace phenometrics "EOS" "eos_t" "eos_v" "#8a6100";
  vos ← marker_trace phenometrics "VOS" "vos_t" "vos_v" "#e35400";
  Return ([lios] ++ series ++ [los; aos; sos; pos; eos; vos]).

Definition plot_advanced_phenometrics `{PyLib} (cube : json)
    (ds_phenos : RegionPhenos) : result Figure :=
  y_new ← smooth_timeseries (region_timeseries ds_phenos) "savitsky" 3 1;
  let timeline := take 21 (region_timeline ds_phenos) in
  let timeseries := take 21 (region_timeseries ds_phenos) in
  let phenometrics := region_phenometrics ds_phenos in
  pos_t_minus ← day_date phenometrics "pos_t";
  pos_t_plus ← day_date phenometrics "pos_t";
  pos_t_minus ← add_days pos_t_minus (-5);
  pos_t_plus ← add_days pos_t_plus 5;
  lios ← lios_trace phenometrics;
  series ← series_traces cube timeline timeseries y_new;
  aos ← aos_trace phenometrics;
  sos ← marker_trace phenometrics "SOS" "sos_t" "sos_v" "#008c00";
  pos ← marker_trace phenometrics "POS" "pos_t" "pos_v" "#0009e3";
  vos ← marker_trace phenometrics "VOS" "vos_t" "vos_v" "#e35400";
  eos ← marker_trace phenometrics "EOS" "eos_t" "eos_v" "#8a6100";
  sos_time ← day_date phenometrics "sos_t";
  eos_time ← day_date phenometrics "eos_t";
  sos_x0 ← add_days sos_time (-16);
  sos_x1 ← add_days sos_time 16;
  eos_x0 ← add_days eos_time (-16);
  eos_x1 ← add_days eos_time 16;
  Return ([lios] ++ series ++ [aos; sos; pos; vos; eos]
          ++ [add_vrect sos_x0 sos_x1 "green"; add_vrect eos_x0 eos_x1 "green"]).

(** *** matplotlib and seaborn *)

(** The part the two builders share word for word: the smoothed series, the
    parsed timeline, the four dates and the four values. *)
Record Season : Type := {
  sos_t : Z; pos_t : Z; eos_t : Z; vos_t : Z;
  sos_v : json; pos_v : json; eos_v : json; vos_v : json
}.

Definition read_season `{PyLib} (phenometrics : json) : result Season :=
  sos_t ← day_date phenometrics "sos_t";
  pos_t ← day_date phenometrics "pos_t";
  eos_t ← day_date phenometrics "eos_t";
  vos_t ← day_date phenometrics "vos_t";
  sos_v ← getitem phenometrics "sos_v";
  pos_v ← getitem phenometrics "pos_v";
  eos_v ← getitem phenometrics "eos_v";
  vos_v ← getitem phenometrics "vos_v";
  Return {| sos_t := sos_t; pos_t := pos_t; eos_t := eos_t; vos_t := vos_t;
            sos_v := sos_v; pos_v := pos_v; eos_v := eos_v; vos_v := vos_v |}.

(** *** Coordinates handed to matplotlib and seaborn *)

(** A number matplotlib converts to float64 without loss of range: a float,
    or an integer of at most 53 bits. *)
Definition is_number (v : json) : bool :=
  match v with
  | JFloat _ => true
  | JInt z => (Z.abs z <=? 2 ^ 53)%Z
  | _ => false
  end.

(** The ordinates of one drawing call: numbers are drawn, and what becomes
    of anything else is the library's. *)
Definition ordinates `{PyLib} (call : string) (ys : list json) : result unit :=
  if forallb is_number ys then Return tt else draw_other call ys.

(** [ax.fill(x, y, label=...)]. *)
Definition ax_fill_call `{PyLib} (x : list Z) (y : list json) (label : string)
  : result Artist :=
  ordinates "ax.fill" y;; Return (ax_fill (XDate <$> x) y label).

(** [ax.plot(x, y, label=..., color=...)] with two lists. *)
Definition ax_plot_line `{PyLib} (x : list Z) (y : list json) (label : json)
    (color : string) : result Artist :=
  ordinates "ax.plot" y;; Return (ax_plot (XDate <$> x) y label color).

(** [ax.plot(x, y, 'o', label=..., color=...)] with one date and one value.
    matplotlib refuses an argument that is [None] ("x, y, and format string
    must not be None"). *)
Definition ax_plot_marker `{PyLib} (x : Z) (y : json) (label color : string)
  : result Artist :=
  match y with
  | JNull => Raise ValueError
  | _ => ordinates "ax.plot" [y];; Return (ax_plot [XDate x] [y] (JStr label) color)
  end.

(** [sns.scatterplot(x=[x], y=[y], label=..., color=...)]. *)
Definition sns_scatterplot_call `{PyLib} (x : Z) (y : json) (label color : string)
  : result Artist :=
  ordinates "sns.scatterplot" [y];;
  Return (sns_scatterplot [XDate x] [y] label color).

(** [lios_dates], [lios_values] and the [ax.fill] call. *)
Definition lios_fill `{PyLib} (s : Season) : result Artist :=
  let lios_dates := [sos_t s; sos_t s; pos_t s; eos_t s; eos_t s] in
  let lios_values := [JInt 0; sos_v s; pos_v s; eos_v s; JInt 0] in
  ax_fill_call lios_dates lios_values "LIOS".

Definition plot_phenometrics_matplotlib `{PyLib} (cube : json)
    (ds_phenos : PointPhenos) (layout : Qc * Qc) (attr : list json)
  : result Figure :=
  y_new ← smooth_timeseries (values (timeseries ds_phenos)) "savitsky" 3 1;
  let timeline_str := timeline (timeseries ds_phenos) in
  timeline ← timeline_dates timeline_str;
  let timeseries := values (timeseries ds_phenos) in
  let phenometrics := phenometrics ds_phenos in
  s ← read_season phenometrics;
  plt_figure layout;;
  lios ← lios_fill s;
  band ← getitem cube "band";
  same_length timeline timeseries;;
  let raw := ax_plot (XDate <$> timeline) (JFloat <$> timeseries) band "#17BECF" in
  band ← getitem cube "band";
  same_length timeline y_new;;
  let smooth := ax_plot (XDate <$> timeline) (JFloat <$> y_new)
                  (JStr ("Smooth " +:+ str band)) "#ff0000" in
  los ← ax_plot_line [sos_t s; eos_t s] [sos_v s; eos_v s] (JStr "LOS") "black";
  aos ← ax_plot_line [pos_t s; pos_t s] [pos_v s; JInt 0] (JStr "AOS") "black";
  sos ← ax_plot_marker (sos_t s) (sos_v s) "SOS" "#008c00";
  pos ← ax_plot_marker (pos_t s) (pos_v s) "POS" "#0009e3";
  eos ← ax_plot_marker (eos_t s) (eos_v s) "EOS" "#8a6100";
  vos ← ax_plot_marker (vos_t s) (vos_v s) "VOS" "#e35400";
  title ← format2 attr;
  Return [lios; raw; smooth; los; aos; sos; pos; eos; vos].

Definition plot_phenometrics_seaborn `{PyLib} (cube : json)
    (ds_phenos : PointPhenos) (layout : Qc * Qc) (attr : list json)
  : result Figure :=
  y_new ← smooth_timeseries (values (timeseries ds_phenos)) "savitsky" 3 1;
  let timeline_str := timeline (timeseries ds_phenos) in
  timeline ← timeline_dates timeline_str;
  let timeseries := values (timeseries ds_phenos) in
  let phenometrics := phenometrics ds_phenos in
  s ← read_season phenometrics;
  (* pd.DataFrame of Date, Raw and Smoothed *)
  same_length timeline timeseries;;
  same_length timeline y_new;;
  plt_figure layout;;
  lios ← lios_fill s;
  band ← getitem cube "band";
  let raw := sns_lineplot (XDate <$> timeline) (JFloat <$> timeseries) band
               "#17BECF" in
  band ← getitem cube "band";
  let smooth := sns_lineplot (XDate <$> timeline) (JFloat <$> y_new)
                  (JStr ("Smooth " +:+ str band)) "#ff0000" in
  los ← ax_plot_line [sos_t s; eos_t s] [sos_v s; eos_v s] (JStr "LOS") "black";
  aos ← ax_plot_line [pos_t s; pos_t s] [JInt 0; pos_v s] (JStr "AOS") "black";
  sos ← sns_scatterplot_call (sos_t s) (sos_v s) "SOS" "#008c00";
  pos ← sns_scatterplot_call (pos_t s) (pos_v s) "POS" "#0009e3";
  eos ← sns_scatterplot_call (eos_t s) (eos_v s) "EOS" "#8a6100";
  vos ← sns_scatterplot_call (vos_t s) (vos_v s) "VOS" "#e35400";
  title ← format2 attr;
  Return [lios; raw; smooth; los; aos; sos; pos; eos; vos].

(** *** Reading a figure *)

(** The vertices of a filled shape: a plotly trace with [fill='toself'], or
    an [ax.fill] call. *)
Definition fill_vertices (a : Artist) : option (list (xval * json)) :=
  match a with
  | go_Scatter _ _ x y (Some "toself") _ => Some (zip x y)
  | ax_fill x y _ => Some (zip x y)
  | _ => None
  end.

(** The filled shapes of a figure; the builders draw one, labelled LIOS. *)
Definition lios_polygon (fig : Figure) : list (list (xval * json)) :=
  omap fill_vertices fig.

Definition band_edges (a : Artist) : option (Z * Z) :=
  match a with
  | add_vrect x0 x1 _ => Some (x0, x1)
  | _ => None
  end.

(** The vertical bands of a figure, as (left edge, right edge). *)
Definition uncertainty_bands (fig : Figure) : list (Z * Z) :=
  omap band_edges fig.

(** An artist that is neither a filled shape nor a vertical band. *)
Definition plain (a : Artist) : Prop :=
  fill_vertices a = None /\ band_edges a = None.

(** The path the specification describes for the LIOS region. *)
Definition lios_path (sos pos eos : xval) (sos_v pos_v eos_v : json)
  : list (xval * json) :=
  [(sos, JInt 0); (sos, sos_v); (pos, pos_v); (eos, eos_v); (eos, JInt 0)].

(** ** The module's global names

    Loading the module runs its top-level statements in order; each [import],
    [class] and [def] binds a name, replacing what the name was bound to. *)

Inductive binding : Type :=
| Imported (what : string)
| ClassDef (line : nat)
| Def (line : nat).

(** The binding statements of [wcpms_client.py], with the line of each
    [class] and [def]. *)
Definition module_source : list (string * binding) :=
  [ ("json", Imported "json"); ("os", Imported "os");
    ("urllib", Imported "urllib"); ("warnings", Imported "warnings");
    ("dt", Imported "datetime.datetime");
    ("timedelta", Imported "datetime.timedelta");
    ("gpd", Imported "geopandas"); ("mdates", Imported "matplotlib.dates");
    ("plt", Imported "matplotlib.pyplot"); ("pd", Imported "pandas");
    ("go", Imported "plotly.graph_objects"); ("requests", Imported "requests");
    ("sns", Imported "seaborn");
    ("savgol_filter", Imported "scipy.signal.savgol_filter");
    ("WCPMS", ClassDef 39);
    ("get_phenometrics", Def 61); ("cube_query", Def 132);
    ("smooth_timeseries", Def 163); ("plot_phenometrics", Def 168);
    ("plot_phenometrics_matplotlib", Def 261);
    ("plot_phenometrics_seaborn", Def 326);
    ("plot_advanced_phenometrics", Def 399);
    ("get_collections", Def 493); ("get_description", Def 529);
    ("gpd_read_file", Def 556); ("gdf_to_geojson", Def 560);
    ("plot_points_region", Def 563);
    ("get_timeseries_region", Def 572); ("get_phenometrics_region", Def 608);
    ("plot_points_region", Def 643) ].

Definition exec_statement (globals : gmap string binding)
    (st : string * binding) : gmap string binding :=
  <[st.1 := st.2]> globals.

Definition exec_module : gmap string binding :=
  foldl exec_statement ∅ module_source.

(** A global name read inside a function body. *)
Definition global_name (globals : gmap string binding) (name : string)
  : result binding :=
  match globals !! name with
  | Some b => Return b
  | None => Raise (NameError name)
  end.

(** ** Plotting the pixels of a region *)

(** What [plot_points_region] is given as [polygon]: a frame as
    [gpd_read_file] returns it, of which only the geometry column matters
    here, or JSON-like data (a GeoJSON feature as a dict, say). *)
Inductive Polygon : Type :=
| GeoDataFrame (geometry : list Geometry)
| GeoJSON (doc : json).

(** What [gpd.GeoSeries] is given: a geometry column, or JSON-like data. *)
Inductive GeoData : Type :=
| GeometryColumn (gs : list Geometry)
| Data (v : json).

(** [polygon["geometry"]]. *)
Definition polygon_geometry (polygon : Polygon) : result GeoData :=
  match polygon with
  | GeoDataFrame geometry => Return (GeometryColumn geometry)
  | GeoJSON doc => v ← getitem doc "geometry"; Return (Data v)
  end.

(** [gpd.GeoSeries(data)]: a geometry column makes a series of its
    geometries. *)
Definition GeoSeries `{PyLib} (data : GeoData) : result (list Geometry) :=
  match data with
  | GeometryColumn gs => Return gs
  | Data v => GeoSeries_data v
  end.

(** What the region-point plots hand to the plotting libraries. *)
Inductive Drawing : Type :=
| px_scatter (df : list Geometry) (x y : list json)
| fig_show
| GeoSeries_plot (df : list Geometry)
| axes_scatter (x y : list json) (c : string)
| axes_plot.

(** A computation that calls the plotting libraries: the calls made, in
    order, and the outcome. *)
Definition Plot (A : Type) : Type := list Drawing * result A.

#[global] Instance plot_ret : MRet Plot := fun A a => ([], Return a).
#[global] Instance plot_bind : MBind Plot := fun A B k m =>
  match m with
  | (log, Return a) => let '(log', r) := k a in (log ++ log', r)
  | (log, Raise e) => (log, Raise e)
  end.

(** A step that draws nothing. *)
Definition quiet {A : Type} (r : result A) : Plot A := ([], r).

(** One call to a plotting library, and what comes of it. *)
Definition draw (d : Drawing) (outcome : result unit) : Plot unit :=
  ([d], outcome).

(** The loop both definitions start with. *)
Definition append_point (xy : list json * list json) (p : json)
  : result (list json * list json) :=
  point ← getitem p "point";
  px ← getindex point 0;
  point ← getitem p "point";
  py ← getindex point 1;
  Return (xy.1 ++ [px], xy.2 ++ [py]).

(** The definition at line 563. *)
Module Def563.
Definition plot_points_region `{PyLib} (globals : gmap string binding)
    (polygon : Polygon) (phenos : list json) : Plot unit :=
  xy ← quiet (for_each phenos append_point ([], []));
  quiet (global_name globals "gpd");;
  geometry ← quiet (polygon_geometry polygon);
  df ← quiet (GeoSeries geometry);
  quiet (global_name globals "px");;
  draw (px_scatter df xy.1 xy.2) (draw_other "px.scatter" (xy.1 ++ xy.2));;
  draw fig_show (Return tt).
End Def563.

(** The definition at line 643. *)
Module Def643.
Definition plot_points_region `{PyLib} (globals : gmap string binding)
    (polygon : Polygon) (phenos : list json) : Plot unit :=
  xy ← quiet (for_each phenos append_point ([], []));
  quiet (global_name globals "gpd");;
  geometry ← quiet (polygon_geometry polygon);
  df ← quiet (GeoSeries geometry);
  draw (GeoSeries_plot df) (geoseries_plot df);;
  draw (axes_scatter xy.1 xy.2 "red")
    (ordinates "geo_axes.scatter" (xy.1 ++ xy.2));;
  draw axes_plot (Return tt).
End Def643.

(** The statements the two definitions share: the loop over the pixels and
    the series made of the polygon's geometry. *)
Definition points_and_series `{PyLib} (polygon : Polygon) (phenos : list json)
  : result ((list json * list json) * list Geometry) :=
  xy ← for_each phenos append_point ([], []);
  geometry ← polygon_geometry polygon;
  df ← GeoSeries geometry;
  Return (xy, df).

(** The function objects that take [(polygon, phenos)], by line. *)
Definition function_at `{PyLib} (line : nat)
  : option (gmap string binding -> Polygon -> list json -> Plot unit) :=
  if (line =? 563)%nat then Some Def563.plot_points_region
  else if (line =? 643)%nat then Some Def643.plot_points_region
  else None.

(** The call [plot_points_region(polygon, phenos)] made with the given
    globals. *)
Definition call_plot_points_region `{PyLib} (globals : gmap string binding)
    (polygon : Polygon) (phenos : list json) : Plot unit :=
  b ← quiet (global_name globals "plot_points_region");
  match b with
  | Def line =>
      match function_at line with
      | Some f => f globals polygon phenos
      | None => quiet (Raise TypeError)
      end
  | _ => quiet (Raise TypeError)
  end.

(** ** Reading a query string *)

(** [s.partition('=')] without the separator: the text before the first
    ['='] and the text after it. *)
Fixpoint partition_eq (s : string) : string * string :=
  match s with
  | "" => ("", "")
  | String c s' =>
      if Ascii.eqb c "=" then ("", s')
      else let '(k, v) := partition_eq s' in (String c k, v)
  end.

(** The [name=value] fields of a query string as sent. *)
Definition query_fields (qs : string) : list (string * string) :=
  partition_eq <$> split "&" qs.

(** The query component of a URL: what follows the first ['?'], if any. *)
Definition url_query (url : string) : option string :=
  match split "?" url with
  | _ :: q :: rest => Some (join "?" (q :: rest))
  | _ => None
  end.

(** ** Reading the outcome of [urlencode] *)

(** [c] does not occur in [s]. *)
Fixpoint free_of (c : ascii) (s : string) : bool :=
  match s with
  | "" => true
  | String a s' => negb (Ascii.eqb a c) && free_of c s'
  end.

(** The field [urlencode] writes for one entry of the dict. *)
Definition encoded_field `{PyLib} (kv : string * json) : string * string :=
  (quote_plus kv.1, quote_plus (str kv.2)).

(** ** Servers to run the adapter against *)

(** Answers every request with the given status and a body that is not a
    JSON document (an HTML error page, say). *)
Definition error_page_server (status : Z) : Server :=
  fun _ => Responded {| status_code := status; json_doc := None |}.

(** Answers every request with the given status and JSON document. *)
Definition json_server (status : Z) (body : json) : Server :=
  fun _ => Responded {| status_code := status; json_doc := Some body |}.

(** ** Items of the metric description *)

(** The keys a table row reads, in the order it reads them. *)
Definition metric_keys : list string :=
  ["Code"; "Name"; "Description"; "Method"; "Value"; "Time"].

(** The item is a JSON object and lacks one of the six keys. *)
Definition lacks_key (item : json) : bool :=
  match item with
  | JObj o => existsb (fun k => bool_decide (o !! k = None)) metric_keys
  | _ => false
  end.

(** The item is a JSON object whose Code, Name, Description and Method, when
    present, are text (the cells the row concatenates without [str]). *)
Definition text_cells (item : json) : bool :=
  match item with
  | JObj o =>
      forallb (fun k => match o !! k with
                        | Some (JStr _) | None => true
                        | Some _ => false
                        end) ["Code"; "Name"; "Description"; "Method"]
  | _ => false
  end.

(** The requests of the two operations without arguments. *)
Definition list_collections_request (url : string) : Request :=
  {| req_method := GET; req_url := url +:+ "/list_collections";
     req_params := []; req_json := None |}.

Definition describe_request (url : string) : Request :=
  {| req_method := GET; req_url := url +:+ "/describe";
     req_params := []; req_json := None |}.

(** ** Linear series *)

Definition Qc_of_nat (i : nat) : Qc := Q2Qc (inject_Z (Z.of_nat i)).

(** The series [values[i] = a * i + b] for [i = 0 .. n - 1]. *)
Definition linear_series (a b : Qc) (n : nat) : list Qc :=
  (fun i => (a * Qc_of_nat i + b)%Qc) <$> seq 0 n.

(** ** One library, to run the model on sample data *)

Module Sample.

Definition digits (z : Z) : string := NilEmpty.string_of_int (Z.to_int z).

(** Decimal digits of [n / d] after the point, at most [k] of them. *)
Fixpoint fraction (k : nat) (n d : Z) : string :=
  match k with
  | O => ""
  | S k' =>
      if (n =? 0)%Z then ""
      else digits (10 * n / d) +:+ fraction k' ((10 * n) mod d) d
  end.

Definition float_repr (q : Qc) : string :=
  let n := Qnum (this q) in
  let d := Z.pos (Qden (this q)) in
  let a := Z.abs n in
  let frac := fraction 17 (a mod d) d in
  (if (n <? 0)%Z then "-" else "") +:+ digits (a / d) +:+ "."
  +:+ (if String.eqb frac "" then "0" else frac).

Definition sample_repr (v : json) : string :=
  match v with
  | JNull => "None"
  | JBool true => "True"
  | JBool false => "False"
  | JInt z => digits z
  | JFloat q => float_repr q
  | JStr s => s
  | JList _ => "[...]"
  | JObj _ => "{...}"
  end.

Definition digit_value (c : ascii) : option Z :=
  let n := nat_of_ascii c in
  if ((48 <=? n)%nat && (n <=? 57)%nat)%bool then Some (Z.of_nat (n - 48))
  else None.

Fixpoint number (s : string) (acc : Z) : option Z :=
  match s with
  | "" => Some acc
  | String c s' =>
      match digit_value c with
      | Some v => number s' (10 * acc + v)%Z
      | None => None
      end
  end.

Definition is_leap (y : Z) : bool :=
  ((y mod 4 =? 0)%Z && negb (y mod 100 =? 0)%Z || (y mod 400 =? 0)%Z)%bool.

Definition days_in_month (y m : Z) : Z :=
  if (m =? 2)%Z then (if is_leap y then 29 else 28)%Z
  else if ((m =? 4) || (m =? 6) || (m =? 9) || (m =? 11))%Z%bool then 30%Z
  else 31%Z.

(** Days of the months 1 to [m] of year [y]. *)
Fixpoint days_of_months (y : Z) (m : nat) : Z :=
  match m with
  | O => 0
  | S m' => (days_of_months y m' + days_in_month y (Z.of_nat m))%Z
  end.

Definition ordinal (y m d : Z) : Z :=
  let y1 := (y - 1)%Z in
  (365 * y1 + y1 / 4 - y1 / 100 + y1 / 400
   + days_of_months y (Z.to_nat (m - 1)) + d)%Z.

(** Zero-padded [YYYY-MM-DD] only. *)
Definition sample_strptime (s : string) : result Z :=
  match split "-" s with
  | [ys; ms; ds] =>
      if ((String.length ys =? 4)%nat && (String.length ms =? 2)%nat
          && (String.length ds =? 2)%nat)%bool then
        match number ys 0, number ms 0, number ds 0 with
        | Some y, Some m, Some d =>
            if ((1 <=? y)%Z && (1 <=? m)%Z && (m <=? 12)%Z && (1 <=? d)%Z
                && (d <=? days_in_month y m)%Z)%bool
            then Return (ordinal y m d)
            else Raise ValueError
        | _, _, _ => Raise ValueError
        end
      else Raise ValueError
  | _ => Raise ValueError
  end.

(** [None] and the empty list make an empty series; other data that holds
    no geometry is refused. *)
Definition sample_GeoSeries_data (data : json) : result (list Geometry) :=
  match data with
  | JNull | JList [] => Return []
  | _ => Raise TypeError
  end.

(** [None] among numbers is a gap in the drawing; other values are
    refused. *)
Definition sample_draw_other (call : string) (ys : list json) : result unit :=
  if forallb (fun y => match y with JNull => true | _ => is_number y end) ys
  then Return tt else Raise TypeError.

(** A figure of up to 400 inches a side is made. *)
Definition sample_figure (layout : Qc * Qc) : result unit :=
  let inches (q : Qc) : bool :=
    match (0 ?= q)%Qc, (q ?= Q2Qc 400)%Qc with
    | Lt, (Lt | Eq) => true
    | _, _ => false
    end in
  if inches layout.1 && inches layout.2 then Return tt else Raise ValueError.

(** The smoothing is taken to be exact. *)
#[local] Instance lib : PyLib := {|
  repr := sample_repr;
  strptime_ymd := sample_strptime;
  savgol_filter_other := fun _ _ _ => Raise ValueError;
  savgol_rounding := fun _ _ => Q2Qc 0;
  GeoSeries_data := sample_GeoSeries_data;
  draw_other := sample_draw_other;
  plt_figure := sample_figure;
  geoseries_plot := fun _ => Return tt
|}.

End Sample.

(** ** Sample data: the example of the [get_phenometrics] docstring *)

Module Example.

Definition wcpms_url : string := "https://example.org/wcpms".

Definition datacube : json :=
  cube_query (JStr "S2-16D-2") (JStr "2021-01-01") (JStr "2021-12-31")
    (JStr "16D") (JStr "NDVI").

Definition latitude : json := JFloat (Q2Qc (-2920 # 100)).
Definition longitude : json := JFloat (Q2Qc (-5595 # 100)).

Definition pm : gmap string json :=
  list_to_map
    [ ("aos_v", JFloat (Q2Qc (297567 # 100)));
      ("eos_t", JStr "2021-07-13T00:00:00"); ("eos_v", JFloat (Q2Qc 5489));
      ("pos_t", JStr "2021-04-01T00:00:00"); ("pos_v", JFloat (Q2Qc 9000));
      ("sos_t", JStr "2021-01-02T00:00:00"); ("sos_v", JFloat (Q2Qc 7649));
      ("vos_t", JStr "2021-12-20T00:00:00");
      ("vos_v", JFloat (Q2Qc (481733 # 100))) ].

(** The service answering every request with that record. *)
Definition service : Server :=
  json_server 200 (JObj {[ "result" := JObj pm ]}).

Definition query_string : string :=
  "collection=S2-16D-2&band=NDVI&start_date=2021-01-01&end_date=2021-12-31"
  +:+ "&freq=16D&latitude=-29.2&longitude=-55.95".

End Example.

(** ** Sample data: the record of the specification's chart example *)

Module ChartExample.

Definition record : json :=
  JObj (list_to_map
    [ ("sos_t", JStr "2021-01-02"); ("sos_v", JFloat (Q2Qc 7649));
      ("pos_t", JStr "2021-04-01"); ("pos_v", JFloat (Q2Qc 9000));
      ("eos_t", JStr "2021-07-13"); ("eos_v", JFloat (Q2Qc 5489));
      ("vos_t", JStr "2021-12-20"); ("vos_v", JFloat (Q2Qc (481733 # 100))) ]).

Definition series : TimeSeries :=
  {| timeline := ["2021-01-01T00:00:00"; "2021-01-17T00:00:00";
                  "2021-02-02T00:00:00"; "2021-02-18T00:00:00"];
     values := Q2Qc <$> [7649 # 1; 8100 # 1; 8500 # 1; 9000 # 1] |}.

Definition point : PointPhenos :=
  {| timeseries := series; phenometrics := record |}.

(** The same point with no value at the start of the season. *)
Definition gap : PointPhenos :=
  {| timeseries := series;
     phenometrics :=
       JObj (list_to_map
         [ ("sos_t", JStr "2021-01-02"); ("sos_v", JNull);
           ("pos_t", JStr "2021-04-01"); ("pos_v", JFloat (Q2Qc 9000));
           ("eos_t", JStr "2021-07-13"); ("eos_v", JFloat (Q2Qc 5489));
           ("vos_t", JStr "2021-12-20");
           ("vos_v", JFloat (Q2Qc (481733 # 100))) ]) |}.

Definition pixel : RegionPhenos :=
  {| region_timeseries := values series; region_timeline := timeline series;
     region_phenometrics := record |}.

Definition layout : Qc * Qc := (Q2Qc 12, Q2Qc 6).

Definition attr : list json := [JStr "S2-16D-2"; JStr "NDVI"].

End ChartExample.

(** ** Sample data: a metric description *)

Module DescribeExample.

Definition sos : json :=
  JObj (list_to_map
    [ ("Code", JStr "SOS"); ("Name", JStr "Start of Season");
      ("Description", JStr "Date of the start of the season");
      ("Method", JStr "seasonal amplitude"); ("Value", JBool true);
      ("Time", JBool true) ]).

(** An item without its [Time] key. *)
Definition broken : json :=
  JObj (list_to_map
    [ ("Code", JStr "AOS"); ("Name", JStr "Amplitude of Season");
      ("Description", JStr "Difference between peak and base");
      ("Method", JStr "pos - bse"); ("Value", JBool true) ]).

(** An item with a number for its code, and nothing else. *)
Definition numbered : json := JObj {[ "Code" := JInt 5 ]}.

Definition service (items : list json) : Server :=
  json_server 200 (JObj {[ "description" := JList items ]}).

Definition collections : json :=
  JList [JStr "CBERS4-MUX-2M-1"; JStr "LANDSAT-16D-1"; JStr "S2-16D-2"].

Definition catalogue : Server :=
  json_server 200 (JObj {[ "coverages" := collections ]}).

End DescribeExample.

(** ** Sample data: a region and one of its pixels *)

Module RegionExample.

(** The triangle (-56 -30, -55 -30, -55 -29). *)
Definition triangle : Geometry := shapely_geometry 0.

(** A frame with one polygon, as read from a shapefile. *)
Definition polygon : Polygon := GeoDataFrame [triangle].

(** The same region as a GeoJSON feature. *)
Definition feature : Polygon :=
  GeoJSON (JObj {[ "type" := JStr "Feature";
    "geometry" :=
      JObj {[ "type" := JStr "Polygon";
              "coordinates" :=
                JList [JList [JList [JFloat (Q2Qc (-56)); JFloat (Q2Qc (-30))];
                              JList [JFloat (Q2Qc (-55)); JFloat (Q2Qc (-30))];
                              JList [JFloat (Q2Qc (-55)); JFloat (Q2Qc (-29))];
                              JList [JFloat (Q2Qc (-56)); JFloat (Q2Qc (-30))]]] ]} ]}).

Definition phenos : list json :=
  [JObj {[ "point" := JList [JFloat (Q2Qc (-5595 # 100));
                             JFloat (Q2Qc (-2920 # 100))] ]}].

End RegionExample.

(** ** The adapter, request by request *)

(** The keys every operation reads from the cube, in the order it reads
    them. *)
Definition cube_keys : list string :=
  ["collection"; "band"; "start_date"; "end_date"; "freq"].

(** The five lookups that open [get_phenometrics], [get_timeseries_region]
    and [get_phenometrics_region]. *)
Definition read_cube (cube : json) : result (json * json * json * json * json) :=
  collection ← getitem cube "collection";
  band ← getitem cube "band";
  start_date ← getitem cube "start_date";
  end_date ← getitem cube "end_date";
  freq ← getitem cube "freq";
  Return (collection, band, start_date, end_date, freq).

(** The request of [get_phenometrics]. *)
Definition phenometrics_request `{PyLib} (url : string)
    (fields : json * json * json * json * json) (latitude longitude : json)
  : Request :=
  let '(collection, band, start_date, end_date, freq) := fields in
  {| req_method := GET;
     req_url := url +:+ "/phenometrics?" +:+
       urlencode [("collection", collection); ("band", band);
                  ("start_date", start_date); ("end_date", end_date);
                  ("freq", freq); ("latitude", latitude);
                  ("longitude", longitude)];
     req_params := []; req_json := None |}.

(** The request of the two region operations: a POST of the cube's five
    entries and one more. *)
Definition region_request (url route : string)
    (fields : json * json * json * json * json) (key : string) (payload : json)
  : Request :=
  let '(collection, band, start_date, end_date, freq) := fields in
  {| req_method := POST; req_url := url +:+ route; req_params := [];
     req_json := Some (JObj (list_to_map
       [("collection", collection); ("band", band);
        ("start_date", start_date); ("end_date", end_date); ("freq", freq);
        (key, payload)])) |}.

(** What an operation makes of the reply to its request: the field of the
    decoded body. *)
Definition answer (field : string) (reply : Reply) : result json :=
  match reply with
  | Raised e => Raise e
  | Responded data =>
      data_json ← Response_json data; getitem data_json field
  end.


(** ** Sample data: a cube without its band *)

Module BrokenCube.

Definition cube_entries : gmap string json :=
  list_to_map
    [ ("collection", JStr "S2-16D-2"); ("start_date", JStr "2021-01-01");
      ("end_date", JStr "2021-12-31"); ("freq", JStr "16D") ].

Definition cube : json := JObj cube_entries.

Definition geom : json :=
  JObj {[ "type" := JStr "Polygon"; "coordinates" := JList [] ]}.

(** A reply whose JSON body has no [result] and no [coverages]. *)
Definition empty_reply : Server := json_server 200 (JObj ∅).


End BrokenCube.

(** ** Comparing outcomes *)

(** Both calls return, or both raise the same exception. *)
Definition same_outcome {A B : Type} (r1 : result A) (r2 : result B) : Prop :=
  match r1, r2 with
  | Return _, Return _ => True
  | Raise e1, Raise e2 => e1 = e2
  | _, _ => False
  end.

(** The item has the six keys, with text under Code, Name, Description and
    Method. *)
Definition complete_item (item : json) : bool :=
  text_cells item && negb (lacks_key item).

(** ** The charts, layer by layer *)

(** A plotly marker trace. *)
Definition marker (name : string) (x : string) (v : json) (color : string)
  : Artist :=
  go_Scatter (JStr name) (Some "markers") [XText x] [v] None color.

(** The layers the two plotly builders share: the filled shape, the raw and
    the smoothed series.  [sos], [pos] and [eos] are dates as text. *)
Definition plotly_base (band : string) (timeline : list string)
    (timeseries y_new : list Qc) (sos pos eos : string) (sos_v pos_v eos_v : json)
  : Figure :=
  [ go_Scatter (JStr "LIOS") (Some "lines")
      (XText <$> [sos; sos; pos; eos; eos])
      [JInt 0; sos_v; pos_v; eos_v; JInt 0] (Some "toself")
      "rgba(153, 247, 254, 0.4)";
    go_Scatter (JStr band) None (XText <$> timeline) (JFloat <$> timeseries)
      None "#17BECF";
    go_Scatter (JStr ("Smooth " +:+ band)) None (XText <$> timeline)
      (JFloat <$> y_new) None "#ff0000" ].

(** The segment from the peak down to the axis. *)
Definition plotly_aos (pos : string) (pos_v : json) : Artist :=
  go_Scatter (JStr "AOS") (Some "lines") [XText pos; XText pos]
    [pos_v; JInt 0] None "#000000".

(** The segment from the start to the end of the season. *)
Definition plotly_los (sos eos : string) (sos_v eos_v : json) : Artist :=
  go_Scatter (JStr "LOS") (Some "lines") [XText sos; XText eos]
    [sos_v; eos_v] None "#000000".

(** The figure of [plot_phenometrics]. *)
Definition point_chart (band : string) (timeline : list string)
    (timeseries y_new : list Qc) (sos pos eos vos : string)
    (sos_v pos_v eos_v vos_v : json) : Figure :=
  plotly_base band timeline timeseries y_new sos pos eos sos_v pos_v eos_v
  ++ [ plotly_los sos eos sos_v eos_v; plotly_aos pos pos_v;
       marker "SOS" sos sos_v "#008c00"; marker "POS" pos pos_v "#0009e3";
       marker "EOS" eos eos_v "#8a6100"; marker "VOS" vos vos_v "#e35400" ].

(** The figure of [plot_advanced_phenometrics]; [sos_time] and [eos_time]
    are the parsed dates of [sos_t] and [eos_t]. *)
Definition region_chart (band : string) (timeline : list string)
    (timeseries y_new : list Qc) (sos pos eos vos : string)
    (sos_v pos_v eos_v vos_v : json) (sos_time eos_time : Z) : Figure :=
  plotly_base band (take 21 timeline) (take 21 timeseries) y_new sos pos eos
    sos_v pos_v eos_v
  ++ [ plotly_aos pos pos_v;
       marker "SOS" sos sos_v "#008c00"; marker "POS" pos pos_v "#0009e3";
       marker "VOS" vos vos_v "#e35400"; marker "EOS" eos eos_v "#8a6100";
       add_vrect (sos_time - 16) (sos_time + 16) "green";
       add_vrect (eos_time - 16) (eos_time + 16) "green" ].

(** A date from which [days] can be subtracted and added within the range
    of [datetime]. *)
Definition within_range (d days : Z) : Prop :=
  (MINORDINAL <= d - days)%Z /\ (d + days <= MAXORDINAL)%Z.

(** ** Sample data: series of other lengths *)

Module SeriesExample.

Definition two_points : PointPhenos :=
  {| timeseries := {| timeline := ["2021-01-01"; "2021-01-17"];
                      values := Q2Qc <$> [7649 # 1; 8100 # 1] |};
     phenometrics := ChartExample.record |}.

Definition two_pixels : RegionPhenos :=
  {| region_timeseries := Q2Qc <$> [7649 # 1; 8100 # 1];
     region_timeline := ["2021-01-01"; "2021-01-17"];
     region_phenometrics := ChartExample.record |}.

End SeriesExample.

(** The filled shape of the matplotlib and seaborn builders. *)
Definition lios_shape (s : Season) : Artist :=
  ax_fill (XDate <$> [sos_t s; sos_t s; pos_t s; eos_t s; eos_t s])
    [JInt 0; sos_v s; pos_v s; eos_v s; JInt 0] "LIOS".

(** The four values of a season, in the order the builders use them. *)
Definition season_values (s : Season) : list json :=
  [sos_v s; pos_v s; eos_v s; vos_v s].

(** The figure of [plot_phenometrics_matplotlib]; [dates] is the parsed
    timeline and [s] the season read from the record. *)
Definition matplotlib_chart `{PyLib} (band : json) (dates : list Z)
    (timeseries y_new : list Qc) (s : Season) : Figure :=
  [ lios_shape s;
    ax_plot (XDate <$> dates) (JFloat <$> timeseries) band "#17BECF";
    ax_plot (XDate <$> dates) (JFloat <$> y_new)
      (JStr ("Smooth " +:+ str band)) "#ff0000";
    ax_plot [XDate (sos_t s); XDate (eos_t s)] [sos_v s; eos_v s]
      (JStr "LOS") "black";
    ax_plot [XDate (pos_t s); XDate (pos_t s)] [pos_v s; JInt 0]
      (JStr "AOS") "black";
    ax_plot [XDate (sos_t s)] [sos_v s] (JStr "SOS") "#008c00";
    ax_plot [XDate (pos_t s)] [pos_v s] (JStr "POS") "#0009e3";
    ax_plot [XDate (eos_t s)] [eos_v s] (JStr "EOS") "#8a6100";
    ax_plot [XDate (vos_t s)] [vos_v s] (JStr "VOS") "#e35400" ].

(** The figure of [plot_phenometrics_seaborn]: the same layers through
    seaborn, with the AOS segment drawn from the axis up. *)
Definition seaborn_chart `{PyLib} (band : json) (dates : list Z)
    (timeseries y_new : list Qc) (s : Season) : Figure :=
  [ lios_shape s;
    sns_lineplot (XDate <$> dates) (JFloat <$> timeseries) band "#17BECF";
    sns_lineplot (XDate <$> dates) (JFloat <$> y_new)
      (JStr ("Smooth " +:+ str band)) "#ff0000";
    ax_plot [XDate (sos_t s); XDate (eos_t s)] [sos_v s; eos_v s]
      (JStr "LOS") "black";
    ax_plot [XDate (pos_t s); XDate (pos_t s)] [JInt 0; pos_v s]
      (JStr "AOS") "black";
    sns_scatterplot [XDate (sos_t s)] [sos_v s] "SOS" "#008c00";
    sns_scatterplot [XDate (pos_t s)] [pos_v s] "POS" "#0009e3";
    sns_scatterplot [XDate (eos_t s)] [eos_v s] "EOS" "#8a6100";
    sns_scatterplot [XDate (vos_t s)] [vos_v s] "VOS" "#e35400" ].

(** ** Pixels of a region *)

(** [p["point"][i]]: a coordinate of a pixel. *)
Definition coordinate (i : nat) (p : json) : result json :=
  point ← getitem p "point"; getindex point i.

(** ** Characters of a query string *)

(** Unreserved characters, and the four that [urlencode] writes itself. *)
Definition url_safe (c : ascii) : bool :=
  always_safe c || Ascii.eqb c "+" || Ascii.eqb c "%" || Ascii.eqb c "&"
  || Ascii.eqb c "=".

Fixpoint all_chars (P : ascii -> bool) (s : string) : bool :=
  match s with
  | "" => true
  | String c s' => P c && all_chars P s'
  end.

(** * Properties *)

(** ** Running a network computation *)

Lemma lift_return_bind {A B : Type} (a : A) (k : A -> Net B) (srv : Server) :
  (lift (Return a) ≫= k) srv = k a srv.
Proof.
  unfold mbind, net_bind, lift. by destruct (k a srv).
Qed.

Lemma send_bind {B : Type} (rq : Request) (k : Response -> Net B) (srv : Server) :
  (send rq ≫= k) srv =
  match srv rq with
  | Raised e => ([rq], Raise e)
  | Responded r => (rq :: (k r srv).1, (k r srv).2)
  end.
Proof.
  unfold mbind, net_bind, send. destruct (srv rq); [done|].
  by destruct (k r srv).
Qed.

(** Unwrapping one field of the JSON body, the tail of every operation. *)
Lemma unwrap_field (field : string) (data : Response) (m : gmap string json)
    (v : json) (srv : Server) :
  json_doc data = Some (JObj m) -> m !! field = Some v ->
  (lift (Response_json data) ≫= λ data_json, lift (getitem data_json field)) srv
  = ([], Return v).
Proof.
  intros Hd Hv. unfold Response_json. rewrite Hd, lift_return_bind.
  unfold lift, getitem. by rewrite Hv.
Qed.

(** A cube built by [cube_query] has its five keys. *)
Lemma getitem_cube_query (c s e f b : json) :
  getitem (cube_query c s e f b) "collection" = Return c /\
  getitem (cube_query c s e f b) "band" = Return b /\
  getitem (cube_query c s e f b) "start_date" = Return s /\
  getitem (cube_query c s e f b) "end_date" = Return e /\
  getitem (cube_query c s e f b) "freq" = Return f.
Proof. repeat split; reflexivity. Qed.

Ltac cube_fields c s e f b :=
  destruct (getitem_cube_query c s e f b) as (-> & -> & -> & -> & ->);
  rewrite !lift_return_bind.

Section Adapter.
Context `{PyLib}.

Lemma get_phenometrics_run url cube latitude longitude srv c b s e f :
  getitem cube "collection" = Return c -> getitem cube "band" = Return b ->
  getitem cube "start_date" = Return s -> getitem cube "end_date" = Return e ->
  getitem cube "freq" = Return f ->
  get_phenometrics url cube latitude longitude srv =
  (requests_get (url +:+ "/phenometrics?" +:+
      urlencode [("collection", c); ("band", b); ("start_date", s);
                 ("end_date", e); ("freq", f); ("latitude", latitude);
                 ("longitude", longitude)])
   ≫= λ data, lift (Response_json data)
   ≫= λ data_json, lift (getitem data_json "result")) srv.
Proof.
  intros Hc Hb Hs He Hf. unfold get_phenometrics.
  rewrite Hc, lift_return_bind, Hb, lift_return_bind, Hs, lift_return_bind,
    He, lift_return_bind, Hf, lift_return_bind. reflexivity.
Qed.

(** C1, as the code has it.  The adapter never looks at the status code:
    whatever the status (500, 404, ...), a body that is not JSON makes each
    of the five operations raise [JSONDecodeError], and a JSON body with
    the expected field is returned as if the request had succeeded.  No
    [HTTPError] is raised in either case. *)
Theorem error_status_is_not_surfaced (url : string) (status : Z)
    (c s e f b latitude longitude geom timeseries v : json) :
  let cube := cube_query c s e f b in
  ((get_phenometrics url cube latitude longitude (error_page_server status)).2
     = Raise JSONDecodeError
   /\ (get_collections url (error_page_server status)).2 = Raise JSONDecodeError
   /\ (get_description url (error_page_server status)).2 = Raise JSONDecodeError
   /\ (get_timeseries_region url cube geom (error_page_server status)).2
      = Raise JSONDecodeError
   /\ (get_phenometrics_region url cube timeseries (error_page_server status)).2
      = Raise JSONDecodeError)
  /\ ((get_phenometrics url cube latitude longitude
         (json_server status (JObj {[ "result" := v ]}))).2 = Return v
      /\ (get_collections url
            (json_server status (JObj {[ "coverages" := v ]}))).2 = Return v
      /\ (get_timeseries_region url cube geom
            (json_server status (JObj {[ "result" := v ]}))).2 = Return v
      /\ (get_phenometrics_region url cube timeseries
            (json_server status (JObj {[ "result" := v ]}))).2 = Return v).
Proof.
  intros cube. subst cube.
  unfold get_phenometrics, get_collections, get_description,
    get_timeseries_region, get_phenometrics_region.
  cube_fields c s e f b. cbn zeta. unfold requests_get, requests_post.
  rewrite !send_bind. unfold error_page_server, json_server.
  repeat split; reflexivity.
Qed.

End Adapter.

(** ** Query strings *)

Lemma free_of_app c a b : free_of c (a +:+ b) = free_of c a && free_of c b.
Proof.
  induction a as [|x a IH]; simpl; [done|]. rewrite IH. by rewrite andb_assoc.
Qed.

Lemma quote_byte_free (a : ascii) :
  free_of "&" (quote_byte a) = true /\ free_of "=" (quote_byte a) = true.
Proof.
  destruct a as [[] [] [] [] [] [] [] []]; split; vm_compute; reflexivity.
Qed.

Lemma quote_plus_free (s : string) :
  free_of "&" (quote_plus s) = true /\ free_of "=" (quote_plus s) = true.
Proof.
  induction s as [|a s [IH1 IH2]]; simpl; [done|].
  rewrite !free_of_app, IH1, IH2.
  destruct (quote_byte_free a) as [-> ->]. done.
Qed.

Lemma split_free sep s : free_of sep s = true -> split sep s = [s].
Proof.
  induction s as [|a s IH]; simpl; [done|].
  destruct (Ascii.eqb a sep); simpl; [done|]. intros Hs. by rewrite IH.
Qed.

Lemma split_app_sep sep a b :
  free_of sep a = true -> split sep (a +:+ String sep b) = a :: split sep b.
Proof.
  induction a as [|x a IH]; simpl.
  - intros _. by rewrite Ascii.eqb_refl.
  - destruct (Ascii.eqb x sep); simpl; [done|]. intros Ha. by rewrite IH.
Qed.

Lemma partition_eq_app k v :
  free_of "=" k = true -> partition_eq (k +:+ String "=" v) = (k, v).
Proof.
  induction k as [|x k IH]; simpl; [done|].
  destruct (Ascii.eqb x "="); simpl; [done|]. intros Hk. by rewrite IH.
Qed.

Section Urlencode.
Context `{PyLib}.

Lemma field_free (kv : string * json) :
  free_of "&" (quote_plus kv.1 +:+ "=" +:+ quote_plus (str kv.2)) = true.
Proof.
  rewrite !free_of_app.
  destruct (quote_plus_free kv.1) as [-> _].
  by destruct (quote_plus_free (str kv.2)) as [-> _].
Qed.

Lemma field_partition (kv : string * json) :
  partition_eq (quote_plus kv.1 +:+ "=" +:+ quote_plus (str kv.2))
  = encoded_field kv.
Proof. apply partition_eq_app, quote_plus_free. Qed.

(** Reading back what [urlencode] wrote: one field per entry of the dict,
    in order. *)
Lemma query_fields_urlencode (query : list (string * json)) :
  query <> [] -> query_fields (urlencode query) = encoded_field <$> query.
Proof.
  unfold query_fields, urlencode.
  induction query as [|kv [|kv' query] IH]; intros Hne; [done| |].
  - simpl. by rewrite split_free, <- field_partition by apply field_free.
  - change (join "&" ((λ kv, quote_plus kv.1 +:+ "=" +:+ quote_plus (str kv.2))
              <$> kv :: kv' :: query))
      with ((quote_plus kv.1 +:+ "=" +:+ quote_plus (str kv.2)) +:+
            String "&" (join "&" ((λ kv, quote_plus kv.1 +:+ "=" +:+ quote_plus (str kv.2))
              <$> kv' :: query))).
    rewrite split_app_sep by apply field_free.
    rewrite fmap_cons, field_partition, IH by done. reflexivity.
Qed.

End Urlencode.

Section AdapterRequests.
Context `{PyLib}.

Lemma unwrap_log (field : string) (data : Response) (srv : Server) :
  ((lift (Response_json data) ≫= λ data_json, lift (getitem data_json field))
     srv).1 = [].
Proof.
  destruct (Response_json data) as [j|e]; [|done].
  by rewrite lift_return_bind.
Qed.

(** C2, amended: seven parameters, not six.  For every cube holding the
    five keys and every latitude and longitude, [get_phenometrics] issues
    one GET request whose URL is the base URL, [/phenometrics?] and a query
    string with exactly the seven fields collection, band, start_date,
    end_date, freq, latitude, longitude, in this order and with the quoted
    text of their values. *)
Theorem get_phenometrics_query_parameters (url : string)
    (cube latitude longitude : json) (srv : Server) (c b s e f : json) :
  getitem cube "collection" = Return c -> getitem cube "band" = Return b ->
  getitem cube "start_date" = Return s -> getitem cube "end_date" = Return e ->
  getitem cube "freq" = Return f ->
  exists qs : string,
    (get_phenometrics url cube latitude longitude srv).1
    = [{| req_method := GET; req_url := url +:+ "/phenometrics?" +:+ qs;
          req_params := []; req_json := None |}]
    /\ query_fields qs
       = [("collection", quote_plus (str c)); ("band", quote_plus (str b));
          ("start_date", quote_plus (str s)); ("end_date", quote_plus (str e));
          ("freq", quote_plus (str f));
          ("latitude", quote_plus (str latitude));
          ("longitude", quote_plus (str longitude))]
    /\ (query_fields qs).*1
       = ["collection"; "band"; "start_date"; "end_date"; "freq"; "latitude";
          "longitude"]
    /\ length (query_fields qs) = 7%nat.
Proof.
  intros Hc Hb Hs He Hf.
  eexists. rewrite (get_phenometrics_run _ _ _ _ _ _ _ _ _ _ Hc Hb Hs He Hf).
  unfold requests_get. rewrite send_bind. split.
  - destruct (srv _); [done|]. cbn [fst]. by rewrite unwrap_log.
  - rewrite query_fields_urlencode by done. done.
Qed.

(** C3.  Whenever the server answers the request of [get_phenometrics] with
    a JSON object that has a [result] field, the operation returns exactly
    the value of that field. *)
Theorem get_phenometrics_returns_result (url : string)
    (cube latitude longitude : json) (srv : Server) (rq : Request)
    (data : Response) (m : gmap string json) (v : json) :
  (get_phenometrics url cube latitude longitude srv).1 = [rq] ->
  srv rq = Responded data ->
  json_doc data = Some (JObj m) ->
  m !! "result" = Some v ->
  (get_phenometrics url cube latitude longitude srv).2 = Return v.
Proof.
  intros Hlog Hsrv Hdoc Hres.
  destruct (getitem cube "collection") as [c|?] eqn:Hc;
    [|by unfold get_phenometrics in Hlog; rewrite Hc in Hlog].
  destruct (getitem cube "band") as [b|?] eqn:Hb;
    [|by unfold get_phenometrics in Hlog;
         rewrite Hc, lift_return_bind, Hb in Hlog].
  destruct (getitem cube "start_date") as [s|?] eqn:Hs;
    [|by unfold get_phenometrics in Hlog;
         rewrite Hc, lift_return_bind, Hb, lift_return_bind, Hs in Hlog].
  destruct (getitem cube "end_date") as [e|?] eqn:He;
    [|by unfold get_phenometrics in Hlog;
         rewrite Hc, lift_return_bind, Hb, lift_return_bind, Hs,
           lift_return_bind, He in Hlog].
  destruct (getitem cube "freq") as [f|?] eqn:Hf;
    [|by unfold get_phenometrics in Hlog;
         rewrite Hc, lift_return_bind, Hb, lift_return_bind, Hs,
           lift_return_bind, He, lift_return_bind, Hf in Hlog].
  rewrite (get_phenometrics_run _ _ _ _ _ _ _ _ _ _ Hc Hb Hs He Hf) in Hlog |- *.
  unfold requests_get in *. rewrite send_bind in Hlog |- *.
  destruct (srv {| req_method := GET; req_url := _; req_params := [];
                   req_json := None |}) as [|data'] eqn:Hsrv'.
  - injection Hlog as <-. congruence.
  - cbn [fst snd] in *. rewrite unwrap_log in Hlog. injection Hlog as <-.
    rewrite Hsrv in Hsrv'. injection Hsrv' as <-.
    by rewrite (unwrap_field _ _ _ _ _ Hdoc Hres).
Qed.

End AdapterRequests.

(** The claim of C2 as worded fails on the docstring's example: the query
    string sent has seven fields, not six. *)
Lemma get_phenometrics_query_not_six :
  (@get_phenometrics Sample.lib Example.wcpms_url Example.datacube
     Example.latitude Example.longitude Example.service).1
  = [{| req_method := GET;
        req_url := Example.wcpms_url +:+ "/phenometrics?" +:+ Example.query_string;
        req_params := []; req_json := None |}]
  /\ length (query_fields Example.query_string) <> 6%nat.
Proof. split; [vm_compute; reflexivity | vm_compute; discriminate]. Qed.

Lemma get_phenometrics_query_parameters_witness :
  exists qs : string,
    (@get_phenometrics Sample.lib Example.wcpms_url Example.datacube
       Example.latitude Example.longitude Example.service).1
    = [{| req_method := GET;
          req_url := Example.wcpms_url +:+ "/phenometrics?" +:+ qs;
          req_params := []; req_json := None |}]
    /\ (query_fields qs).*1
       = ["collection"; "band"; "start_date"; "end_date"; "freq"; "latitude";
          "longitude"].
Proof.
  destruct (@get_phenometrics_query_parameters Sample.lib Example.wcpms_url
              Example.datacube Example.latitude Example.longitude
              Example.service (JStr "S2-16D-2") (JStr "NDVI")
              (JStr "2021-01-01") (JStr "2021-12-31") (JStr "16D"))
    as (qs & Hlog & _ & Hnames & _); try reflexivity.
  exists qs. split; assumption.
Defined.

Lemma get_phenometrics_returns_result_witness :
  exists record : json,
    (@get_phenometrics Sample.lib Example.wcpms_url Example.datacube
       Example.latitude Example.longitude Example.service).2 = Return record
    /\ getitem record "sos_v" = Return (JFloat (Q2Qc 7649)).
Proof.
  exists (JObj Example.pm). split; [|reflexivity].
  eapply (@get_phenometrics_returns_result Sample.lib).
  - vm_compute. reflexivity.
  - reflexivity.
  - reflexivity.
  - reflexivity.
Defined.

(** ** Smoothing *)

Lemma length_convolve1d (prev : Qc) (x : list Qc) :
  length (Savgol.convolve1d prev x) = length x.
Proof.
  revert prev. induction x as [|a x IH]; intros prev; simpl; [done|].
  by rewrite IH.
Qed.

Lemma length_fit_edge (x : list Qc) (window_start i : nat) (y : list Qc) :
  length (Savgol.fit_edge x window_start i y) = length y.
Proof.
  unfold Savgol.fit_edge.
  destruct (take 3 (drop window_start x)) as [|? [|? [|? [|? ?]]]]; try done.
  apply length_insert.
Qed.

Lemma length_exact_w3_p1 (x : list Qc) :
  length (Savgol.exact_w3_p1 x) = length x.
Proof.
  unfold Savgol.exact_w3_p1. by rewrite !length_fit_edge, length_convolve1d.
Qed.

Lemma filter_w3_p1_length `{PyLib} (x : list Qc) :
  (3 <= length x)%nat ->
  exists y, Savgol.filter_w3_p1 x = Return y /\ length y = length x.
Proof.
  intros Hn. unfold Savgol.filter_w3_p1.
  destruct (Nat.ltb_spec (length x) 3) as [?|_]; [lia|].
  eexists. split; [reflexivity|].
  by rewrite length_imap, length_exact_w3_p1.
Qed.

Lemma filter_w3_p1_short `{PyLib} (x : list Qc) :
  (length x < 3)%nat -> Savgol.filter_w3_p1 x = Raise ValueError.
Proof.
  intros Hn. unfold Savgol.filter_w3_p1.
  by destruct (Nat.ltb_spec (length x) 3) as [_|?]; [|lia].
Qed.

(** C4.  With method 'savitsky', window 3 and order 1, a series of at least
    three values is smoothed into a series of the same length, and a shorter
    series makes the call fail (with [ValueError]). *)
Theorem smooth_timeseries_length `{PyLib} (ts : list Qc) :
  ((3 <= length ts)%nat ->
   exists smooth_ts, smooth_timeseries ts "savitsky" 3 1 = Return smooth_ts
                     /\ length smooth_ts = length ts)
  /\ ((length ts < 3)%nat ->
      smooth_timeseries ts "savitsky" 3 1 = Raise ValueError).
Proof.
  unfold smooth_timeseries, savgol_filter. simpl. split.
  - apply filter_w3_p1_length.
  - apply filter_w3_p1_short.
Qed.

Lemma smooth_timeseries_length_witness :
  let ts := Q2Qc <$> [7649 # 1; 9000 # 1; 5489 # 1] in
  let short := Q2Qc <$> [7649 # 1; 9000 # 1] in
  (exists smooth_ts, @smooth_timeseries Sample.lib ts "savitsky" 3 1 = Return smooth_ts
                     /\ length smooth_ts = 3%nat)
  /\ @smooth_timeseries Sample.lib short "savitsky" 3 1 = Raise ValueError.
Proof.
  intros ts short. split.
  - apply (@smooth_timeseries_length Sample.lib ts). simpl. lia.
  - apply (@smooth_timeseries_length Sample.lib short). simpl. lia.
Defined.

Lemma Qc_of_nat_S (i : nat) : Qc_of_nat (S i) = (Qc_of_nat i + 1)%Qc.
Proof.
  apply Qc_is_canon. unfold Qc_of_nat. simpl. rewrite !Qred_correct.
  unfold Qeq, inject_Z. simpl. lia.
Qed.

Lemma Qc_of_nat_0 : Qc_of_nat 0 = 0%Qc.
Proof. reflexivity. Qed.

Lemma coeffs_third : Savgol.coeffs = ((1 / (1 + 1 + 1))%Qc, (1 / (1 + 1 + 1))%Qc, (1 / (1 + 1 + 1))%Qc).
Proof. unfold Savgol.coeffs. repeat f_equal; apply Qc_is_canon; reflexivity. Qed.

Lemma Qc_two : Q2Qc 2 = (1 + 1)%Qc.
Proof. apply Qc_is_canon; reflexivity. Qed.

Lemma Qc_three : Q2Qc 3 = (1 + 1 + 1)%Qc.
Proof. apply Qc_is_canon; reflexivity. Qed.

Lemma convolve1d_lookup (x : list Qc) (prev : Qc) (i : nat) (xi : Qc) :
  x !! i = Some xi ->
  Savgol.convolve1d prev x !! i
  = Some (let '(c0, c1, c2) := Savgol.coeffs in
          c0 * default 0%Qc (x !! S i) + c1 * xi
          + c2 * match i with O => prev | S j => default 0%Qc (x !! j) end)%Qc.
Proof.
  revert prev i. induction x as [|a x IH]; intros prev i Hi; [done|].
  destruct i as [|i]; simpl in *.
  - injection Hi as ->. by destruct x.
  - rewrite (IH a i Hi). by destruct i.
Qed.

Lemma linear_series_lookup (a b : Qc) (n i : nat) :
  (i < n)%nat -> linear_series a b n !! i = Some (a * Qc_of_nat i + b)%Qc.
Proof.
  intros Hi. unfold linear_series.
  by rewrite list_lookup_fmap, lookup_seq_lt.
Qed.

Lemma length_linear_series (a b : Qc) (n : nat) : length (linear_series a b n) = n.
Proof. unfold linear_series. by rewrite length_fmap, length_seq. Qed.

Lemma linear_series_window (a b : Qc) (n k : nat) :
  (k + 3 <= n)%nat ->
  take 3 (drop k (linear_series a b n))
  = [(a * Qc_of_nat k + b)%Qc; (a * Qc_of_nat (S k) + b)%Qc;
     (a * Qc_of_nat (S (S k)) + b)%Qc].
Proof.
  intros Hk. unfold linear_series.
  rewrite <- fmap_drop, <- fmap_take, drop_seq, take_seq.
  replace (3 `min` (n - k))%nat with 3%nat by lia. simpl.
  reflexivity.
Qed.

Ltac Qc_nonzero :=
  repeat split; intros Hz; apply (f_equal this) in Hz; vm_compute in Hz;
  discriminate Hz.

(** The line fitted to three points of a line is that line. *)
Lemma polyfit_line (a c : Qc) :
  Savgol.polyfit c (a + c)%Qc (a + (a + c))%Qc = (a, c).
Proof.
  unfold Savgol.polyfit. rewrite Qc_two, Qc_three. f_equal; field; Qc_nonzero.
Qed.

Lemma fit_edge_linear (a b : Qc) (n k i : nat) (y : list Qc) :
  (k + 3 <= n)%nat -> (i <= 2)%nat ->
  Savgol.fit_edge (linear_series a b n) k i y
  = <[(k + i)%nat := (a * Qc_of_nat (k + i) + b)%Qc]> y.
Proof.
  intros Hk Hi. unfold Savgol.fit_edge. rewrite linear_series_window by done.
  replace (a * Qc_of_nat (S k) + b)%Qc with (a + (a * Qc_of_nat k + b))%Qc
    by (rewrite Qc_of_nat_S; ring).
  replace (a * Qc_of_nat (S (S k)) + b)%Qc
    with (a + (a + (a * Qc_of_nat k + b)))%Qc
    by (rewrite !Qc_of_nat_S; ring).
  rewrite polyfit_line. unfold Savgol.polyval. cbn [fst snd]. f_equal.
  fold (Qc_of_nat i).
  destruct i as [|[|[|i]]]; [| | |lia].
  - replace (k + 0)%nat with k by lia. rewrite Qc_of_nat_0. ring.
  - replace (k + 1)%nat with (S k) by lia. rewrite !Qc_of_nat_S, Qc_of_nat_0. ring.
  - replace (k + 2)%nat with (S (S k)) by lia.
    rewrite !Qc_of_nat_S, Qc_of_nat_0. ring.
Qed.

(** Between the two ends, the weighted sum of three neighbours on a line is
    the middle one. *)
Lemma convolve1d_linear (a b : Qc) (n i : nat) :
  (S (S i) < n)%nat ->
  Savgol.convolve1d 0%Qc (linear_series a b n) !! S i
  = Some (a * Qc_of_nat (S i) + b)%Qc.
Proof.
  intros Hi.
  rewrite (convolve1d_lookup _ _ _ _ (linear_series_lookup a b n (S i) ltac:(lia))).
  rewrite !linear_series_lookup by lia. rewrite coeffs_third. cbn [default].
  rewrite !Qc_of_nat_S. unfold id. f_equal. field. Qc_nonzero.
Qed.

(** In exact arithmetic the filter returns a series that lies on a line,
    [values[i] = a * i + b], unchanged.  What scipy returns differs from it
    by the rounding error of its float64 computation. *)
Lemma exact_w3_p1_linear (a b : Qc) (n : nat) :
  (3 <= n)%nat ->
  Savgol.exact_w3_p1 (linear_series a b n) = linear_series a b n.
Proof.
  intros Hn. unfold Savgol.exact_w3_p1. rewrite length_linear_series.
  rewrite !fit_edge_linear by lia.
  replace (n - 3 + 2)%nat with (n - 1)%nat by lia. rewrite Nat.add_0_r.
  apply list_eq. intros i.
  destruct (decide (i = n - 1)%nat) as [->|Hlast].
  { rewrite list_lookup_insert_eq, linear_series_lookup by
      (rewrite ?length_insert, ?length_convolve1d, ?length_linear_series; lia).
    done. }
  rewrite list_lookup_insert_ne by done.
  destruct i as [|i].
  { rewrite list_lookup_insert_eq, linear_series_lookup by
      (rewrite ?length_convolve1d, ?length_linear_series; lia).
    done. }
  rewrite list_lookup_insert_ne by done.
  destruct (decide (S i < n)%nat) as [Hi|Hi].
  - rewrite convolve1d_linear, linear_series_lookup by lia. done.
  - rewrite !lookup_ge_None_2
      by (rewrite ?length_convolve1d, ?length_linear_series; lia).
    done.
Qed.

(** ** Charts *)

Lemma bind_Return {A B : Type} (r : result A) (k : A -> result B) (b : B) :
  r ≫= k = Return b -> exists a, r = Return a /\ k a = Return b.
Proof. destruct r as [a|e]; [by exists a | done]. Qed.

(** Peel the successful steps off a computation known to return. *)
Ltac returned H :=
  repeat (apply bind_Return in H;
          let a := fresh "a" in
          let Ha := fresh "Ha" in
          destruct H as (a & Ha & H); cbn beta zeta in H).

Lemma los_trace_plain (phen : json) (a : Artist) :
  los_trace phen = Return a -> plain a.
Proof. unfold los_trace. intros Hr. returned Hr. by injection Hr as <-. Qed.

Lemma aos_trace_plain (phen : json) (a : Artist) :
  aos_trace phen = Return a -> plain a.
Proof. unfold aos_trace. intros Hr. returned Hr. by injection Hr as <-. Qed.

Lemma marker_trace_plain (phen : json) (name t_key v_key color : string)
    (a : Artist) :
  marker_trace phen name t_key v_key color = Return a -> plain a.
Proof. unfold marker_trace. intros Hr. returned Hr. by injection Hr as <-. Qed.

Lemma series_traces_plain (cube : json) (timeline : list string)
    (timeseries y_new : list Qc) (l : list Artist) :
  series_traces cube timeline timeseries y_new = Return l ->
  exists raw smooth, l = [raw; smooth] /\ plain raw /\ plain smooth.
Proof.
  unfold series_traces. intros Hr. returned Hr. injection Hr as <-.
  by eexists _, _.
Qed.

(** The date of a timestamp: a date without time of day is kept as it is,
    and [date "T" time] is cut down to [date]. *)
Lemma date_part_of_timestamp (date time : string) :
  free_of "T" date = true ->
  date_part date = date /\ date_part (date +:+ "T" +:+ time) = date.
Proof.
  intros Hdate. unfold date_part. split.
  - by rewrite split_free.
  - change (date +:+ "T" +:+ time) with (date +:+ String "T" time).
    by rewrite split_app_sep.
Qed.

Lemma day_text_str (phen : json) (key s : string) :
  getitem phen key = Return (JStr s) -> day_text phen key = Return (date_part s).
Proof. intros Hk. unfold day_text. by rewrite Hk. Qed.

Lemma lios_trace_returns (phen : json) (st pt et : string) (sv pv ev : json) :
  getitem phen "sos_t" = Return (JStr st) -> getitem phen "sos_v" = Return sv ->
  getitem phen "pos_t" = Return (JStr pt) -> getitem phen "pos_v" = Return pv ->
  getitem phen "eos_t" = Return (JStr et) -> getitem phen "eos_v" = Return ev ->
  exists a, lios_trace phen = Return a
    /\ fill_vertices a
       = Some (lios_path (XText (date_part st)) (XText (date_part pt))
                 (XText (date_part et)) sv pv ev)
    /\ band_edges a = None.
Proof.
  intros Hst Hsv Hpt Hpv Het Hev. unfold lios_trace.
  rewrite !(day_text_str _ _ _ Hst), !(day_text_str _ _ _ Hpt),
    !(day_text_str _ _ _ Het), Hsv, Hpv, Hev.
  eexists. split; [reflexivity|]. split; reflexivity.
Qed.

Ltac plain_artists :=
  repeat match goal with
    | H : los_trace _ = Return _ |- _ => apply los_trace_plain in H as [? ?]
    | H : aos_trace _ = Return _ |- _ => apply aos_trace_plain in H as [? ?]
    | H : marker_trace _ _ _ _ _ = Return _ |- _ =>
        apply marker_trace_plain in H as [? ?]
    | H : series_traces _ _ _ _ = Return _ |- _ =>
        apply series_traces_plain in H as (? & ? & -> & [? ?] & [? ?])
    end.

Ltac read_figure f :=
  unfold f; cbn [app omap list_omap];
  repeat match goal with
    | H : fill_vertices ?a = _ |- context [fill_vertices ?a] => rewrite H
    | H : band_edges ?a = _ |- context [band_edges ?a] => rewrite H
    end.

Section Charts.
Context `{PyLib}.

Lemma day_date_str (phen : json) (key s : string) :
  getitem phen key = Return (JStr s) ->
  day_date phen key = strptime_ymd (date_part s).
Proof. intros Hk. unfold day_date. by rewrite (day_text_str _ _ _ Hk). Qed.

(** What the two plotly builders draw when they return. *)
Lemma plot_phenometrics_figure (cube : json) (ds_phenos : PointPhenos)
    (fig : Figure) (st pt et : string) (sv pv ev : json) :
  let phen := phenometrics ds_phenos in
  getitem phen "sos_t" = Return (JStr st) -> getitem phen "sos_v" = Return sv ->
  getitem phen "pos_t" = Return (JStr pt) -> getitem phen "pos_v" = Return pv ->
  getitem phen "eos_t" = Return (JStr et) -> getitem phen "eos_v" = Return ev ->
  plot_phenometrics cube ds_phenos = Return fig ->
  lios_polygon fig
  = [lios_path (XText (date_part st)) (XText (date_part pt))
       (XText (date_part et)) sv pv ev]
  /\ uncertainty_bands fig = [].
Proof.
  intros phen Hst Hsv Hpt Hpv Het Hev Hfig. subst phen.
  destruct (lios_trace_returns _ _ _ _ _ _ _ Hst Hsv Hpt Hpv Het Hev)
    as (lios & Hlios & Hfill & Hband).
  unfold plot_phenometrics in Hfig. returned Hfig. injection Hfig as <-.
  match goal with
  | H : lios_trace _ = Return ?a |- _ =>
      rewrite Hlios in H; injection H as <-
  end.
  plain_artists. split; [read_figure lios_polygon | read_figure uncertainty_bands];
    reflexivity.
Qed.

End Charts.



Section ChartFigures.
Context `{PyLib}.



Lemma plot_advanced_phenometrics_figure (cube : json)
    (ds_phenos : RegionPhenos) (fig : Figure) (st pt et : string)
    (sv pv ev : json) :
  let phen := region_phenometrics ds_phenos in
  getitem phen "sos_t" = Return (JStr st) -> getitem phen "sos_v" = Return sv ->
  getitem phen "pos_t" = Return (JStr pt) -> getitem phen "pos_v" = Return pv ->
  getitem phen "eos_t" = Return (JStr et) -> getitem phen "eos_v" = Return ev ->
  plot_advanced_phenometrics cube ds_phenos = Return fig ->
  lios_polygon fig
  = [lios_path (XText (date_part st)) (XText (date_part pt))
       (XText (date_part et)) sv pv ev].
Proof.
  intros phen Hst Hsv Hpt Hpv Het Hev Hfig. subst phen.
  destruct (lios_trace_returns _ _ _ _ _ _ _ Hst Hsv Hpt Hpv Het Hev)
    as (lios & Hlios & Hfill & Hband).
  unfold plot_advanced_phenometrics in Hfig. returned Hfig.
  injection Hfig as <-.
  match goal with
  | H : lios_trace _ = Return ?a |- _ =>
      rewrite Hlios in H; injection H as <-
  end.
  plain_artists. read_figure lios_polygon. reflexivity.
Qed.

Lemma read_season_Return (phen : json) (s : Season) :
  read_season phen = Return s ->
  (day_date phen "sos_t" = Return (sos_t s)
   /\ day_date phen "pos_t" = Return (pos_t s)
   /\ day_date phen "eos_t" = Return (eos_t s))
  /\ (getitem phen "sos_v" = Return (sos_v s)
      /\ getitem phen "pos_v" = Return (pos_v s)
      /\ getitem phen "eos_v" = Return (eos_v s)).
Proof.
  intros Hs. unfold read_season in Hs. returned Hs. injection Hs as <-.
  simpl. done.
Qed.

(** The dates and values of a season read from a record whose entries are
    known. *)
Lemma read_season_fields (phen : json) (s : Season) (st pt et : string)
    (sv pv ev : json) :
  getitem phen "sos_t" = Return (JStr st) -> getitem phen "sos_v" = Return sv ->
  getitem phen "pos_t" = Return (JStr pt) -> getitem phen "pos_v" = Return pv ->
  getitem phen "eos_t" = Return (JStr et) -> getitem phen "eos_v" = Return ev ->
  read_season phen = Return s ->
  (strptime_ymd (date_part st) = Return (sos_t s)
   /\ strptime_ymd (date_part pt) = Return (pos_t s)
   /\ strptime_ymd (date_part et) = Return (eos_t s))
  /\ sos_v s = sv /\ pos_v s = pv /\ eos_v s = ev.
Proof.
  intros Hst Hsv Hpt Hpv Het Hev Hs.
  apply read_season_Return in Hs as [(Hs1 & Hs2 & Hs3) (Hv1 & Hv2 & Hv3)].
  rewrite (day_date_str _ _ _ Hst) in Hs1. rewrite (day_date_str _ _ _ Hpt) in Hs2.
  rewrite (day_date_str _ _ _ Het) in Hs3.
  repeat split; congruence.
Qed.

End ChartFigures.

Section SmoothingOutcome.
Context `{PyLib}.

Lemma smooth_timeseries_short (ts : list Qc) :
  (length ts < 3)%nat -> smooth_timeseries ts "savitsky" 3 1 = Raise ValueError.
Proof.
  intros Hts. unfold smooth_timeseries, savgol_filter. simpl.
  by apply filter_w3_p1_short.
Qed.

Lemma smooth_timeseries_Return (ts y_new : list Qc) :
  smooth_timeseries ts "savitsky" 3 1 = Return y_new ->
  (3 <= length ts)%nat /\ length y_new = length ts.
Proof.
  unfold smooth_timeseries, savgol_filter. simpl. intros Hy.
  destruct (decide (length ts < 3)%nat) as [Hshort|Hlong].
  - by rewrite filter_w3_p1_short in Hy.
  - destruct (filter_w3_p1_length ts) as (y & Hy' & Hlen); [lia|].
    rewrite Hy' in Hy. injection Hy as <-. split; [lia|done].
Qed.

Lemma smooth_timeseries_long (ts : list Qc) :
  (3 <= length ts)%nat ->
  exists y_new, smooth_timeseries ts "savitsky" 3 1 = Return y_new.
Proof.
  intros Hts. unfold smooth_timeseries, savgol_filter. simpl.
  destruct (filter_w3_p1_length ts Hts) as (y & -> & _). by exists y.
Qed.

End SmoothingOutcome.

Lemma add_days_within (d n : Z) :
  (0 <= n)%Z -> within_range d n ->
  add_days d (- n) = Return (d - n)%Z /\ add_days d n = Return (d + n)%Z.
Proof.
  unfold within_range, add_days, MINORDINAL, MAXORDINAL. intros Hn [Hlo Hhi].
  split.
  - replace (d + - n)%Z with (d - n)%Z by lia.
    destruct (Z.leb_spec 1 (d - n)), (Z.leb_spec (d - n) 3652059); simpl;
      try lia; done.
  - destruct (Z.leb_spec 1 (d + n)), (Z.leb_spec (d + n) 3652059); simpl;
      try lia; done.
Qed.

Lemma add_days_Return_within (d n r1 r2 : Z) :
  (0 <= n)%Z -> add_days d (- n) = Return r1 -> add_days d n = Return r2 ->
  within_range d n.
Proof.
  unfold within_range, add_days, MINORDINAL, MAXORDINAL. intros Hn H1 H2.
  destruct (Z.leb_spec 1 (d + - n)), (Z.leb_spec (d + - n) 3652059);
    simpl in H1; try done.
  destruct (Z.leb_spec 1 (d + n)), (Z.leb_spec (d + n) 3652059);
    simpl in H2; first [done | lia].
Qed.

Lemma day_text_Return (phen : json) (key x : string) :
  day_text phen key = Return x ->
  exists s, getitem phen key = Return (JStr s) /\ x = date_part s.
Proof.
  unfold day_text. intros Hx. apply bind_Return in Hx as (v & Hv & Hx).
  destruct v; try done. injection Hx as <-. by eexists.
Qed.

Lemma marker_trace_fields (phen : json) (name t_key v_key color : string)
    (a : Artist) :
  marker_trace phen name t_key v_key color = Return a ->
  exists s v, getitem phen t_key = Return (JStr s)
              /\ getitem phen v_key = Return v.
Proof.
  unfold marker_trace. intros Ha. apply bind_Return in Ha as (x & Hx & Ha).
  apply bind_Return in Ha as (v & Hv & _).
  apply day_text_Return in Hx as (s & Hs & _). by exists s, v.
Qed.

Lemma series_traces_band (cube : json) (timeline : list string)
    (timeseries y_new : list Qc) (l : list Artist) :
  series_traces cube timeline timeseries y_new = Return l ->
  exists band, getitem cube "band" = Return (JStr band).
Proof.
  unfold series_traces. intros Hl. apply bind_Return in Hl as (b & Hb & Hl).
  apply bind_Return in Hl as (b' & Hb' & Hl).
  apply bind_Return in Hl as (name & Hname & _).
  assert (b' = b) as -> by congruence.
  destruct b; try done. by eexists.
Qed.

Lemma same_length_Return {A B : Type} (x : list A) (y : list B) (u : unit) :
  same_length x y = Return u <-> length x = length y.
Proof.
  unfold same_length. destruct (Nat.eqb_spec (length x) (length y)); split;
    try done. by destruct u.
Qed.

Section ChartComputes.
Context `{PyLib}.

Lemma day_date_Return (phen : json) (key : string) (d : Z) :
  day_date phen key = Return d ->
  exists s, getitem phen key = Return (JStr s)
            /\ strptime_ymd (date_part s) = Return d.
Proof.
  unfold day_date. intros Hd. apply bind_Return in Hd as (x & Hx & Hd).
  apply day_text_Return in Hx as (s & Hs & ->). by exists s.
Qed.

(** The point chart, computed: what [plot_phenometrics] returns when its
    inputs are in order. *)
Lemma plot_phenometrics_computes (cube : json) (ds_phenos : PointPhenos)
    (band st pt et vt : string) (sv pv ev vv : json) (y_new : list Qc) (d : Z) :
  let phen := phenometrics ds_phenos in
  let ts := timeseries ds_phenos in
  smooth_timeseries (values ts) "savitsky" 3 1 = Return y_new ->
  getitem cube "band" = Return (JStr band) ->
  getitem phen "sos_t" = Return (JStr st) ->
  getitem phen "pos_t" = Return (JStr pt) ->
  getitem phen "eos_t" = Return (JStr et) ->
  getitem phen "vos_t" = Return (JStr vt) ->
  getitem phen "sos_v" = Return sv -> getitem phen "pos_v" = Return pv ->
  getitem phen "eos_v" = Return ev -> getitem phen "vos_v" = Return vv ->
  strptime_ymd (date_part pt) = Return d -> within_range d 5 ->
  plot_phenometrics cube ds_phenos
  = Return (point_chart band (timeline ts) (values ts) y_new (date_part st)
              (date_part pt) (date_part et) (date_part vt) sv pv ev vv).
Proof.
  intros phen ts Hy Hband Hst Hpt Het Hvt Hsv Hpv Hev Hvv Hd Hrange.
  subst phen ts. unfold plot_phenometrics. rewrite Hy.
  cbn [mbind result_bind].
  rewrite (day_date_str _ _ _ Hpt), Hd. cbn [mbind result_bind].
  destruct (add_days_within d 5 ltac:(lia) Hrange) as [Hminus Hplus].
  change (- (5))%Z with (-5)%Z in Hminus. rewrite Hminus, Hplus.
  cbn [mbind result_bind].
  unfold lios_trace, series_traces, los_trace, aos_trace, marker_trace.
  rewrite !(day_text_str _ _ _ Hst), !(day_text_str _ _ _ Hpt),
    !(day_text_str _ _ _ Het), !(day_text_str _ _ _ Hvt).
  rewrite Hsv, Hpv, Hev, Hvv, Hband. reflexivity.
Qed.

Lemma plot_advanced_phenometrics_computes (cube : json)
    (ds_phenos : RegionPhenos) (band st pt et vt : string)
    (sv pv ev vv : json) (y_new : list Qc) (d sos_time eos_time : Z) :
  let phen := region_phenometrics ds_phenos in
  smooth_timeseries (region_timeseries ds_phenos) "savitsky" 3 1 = Return y_new ->
  getitem cube "band" = Return (JStr band) ->
  getitem phen "sos_t" = Return (JStr st) ->
  getitem phen "pos_t" = Return (JStr pt) ->
  getitem phen "eos_t" = Return (JStr et) ->
  getitem phen "vos_t" = Return (JStr vt) ->
  getitem phen "sos_v" = Return sv -> getitem phen "pos_v" = Return pv ->
  getitem phen "eos_v" = Return ev -> getitem phen "vos_v" = Return vv ->
  strptime_ymd (date_part pt) = Return d -> within_range d 5 ->
  strptime_ymd (date_part st) = Return sos_time -> within_range sos_time 16 ->
  strptime_ymd (date_part et) = Return eos_time -> within_range eos_time 16 ->
  plot_advanced_phenometrics cube ds_phenos
  = Return (region_chart band (region_timeline ds_phenos)
              (region_timeseries ds_phenos) y_new (date_part st) (date_part pt)
              (date_part et) (date_part vt) sv pv ev vv sos_time eos_time).
Proof.
  intros phen Hy Hband Hst Hpt Het Hvt Hsv Hpv Hev Hvv Hd Hrange Hs Hsr He Her.
  subst phen. unfold plot_advanced_phenometrics. rewrite Hy.
  cbn [mbind result_bind].
  rewrite (day_date_str _ _ _ Hpt), Hd. cbn [mbind result_bind].
  destruct (add_days_within d 5 ltac:(lia) Hrange) as [Hminus Hplus].
  change (- (5))%Z with (-5)%Z in Hminus. rewrite Hminus, Hplus.
  cbn [mbind result_bind].
  unfold lios_trace, series_traces, aos_trace, marker_trace.
  rewrite !(day_text_str _ _ _ Hst), !(day_text_str _ _ _ Hpt),
    !(day_text_str _ _ _ Het), !(day_text_str _ _ _ Hvt).
  rewrite Hsv, Hpv, Hev, Hvv, Hband. cbn [mbind result_bind str_add].
  rewrite (day_date_str _ _ _ Hst), (day_date_str _ _ _ Het), Hs, He.
  cbn [mbind result_bind].
  destruct (add_days_within sos_time 16 ltac:(lia) Hsr) as [Hs0 Hs1].
  destruct (add_days_within eos_time 16 ltac:(lia) Her) as [He0 He1].
  change (- (16))%Z with (-16)%Z in Hs0, He0. rewrite Hs0, Hs1, He0, He1.
  reflexivity.
Qed.

Lemma timeline_dates_length (tl : list string) (dates : list Z) :
  timeline_dates tl = Return dates -> length dates = length tl.
Proof.
  revert dates. induction tl as [|t tl IH]; intros dates; simpl.
  - by intros [= <-].
  - intros Hd. apply bind_Return in Hd as (d & _ & Hd).
    apply bind_Return in Hd as (ds & Hds & Hd). injection Hd as <-.
    simpl. by rewrite (IH ds).
Qed.

Lemma format2_Return (attr : list json) :
  (exists title, format2 attr = Return title) <-> (2 <= length attr)%nat.
Proof.
  destruct attr as [|a [|b attr]]; simpl; split; try lia;
    try (by intros [? ?]); by eexists.
Qed.

(** The unit value a call returned is [tt]. *)
Ltac destruct_figure :=
  match goal with
  | Hf : plt_figure _ = Return ?u |- _ => destruct u; exact Hf
  end.

Lemma ordinates_numbers (call : string) (ys : list json) :
  forallb is_number ys = true -> ordinates call ys = Return tt.
Proof. intros Hys. unfold ordinates. by rewrite Hys. Qed.

Lemma ax_fill_call_Return (x : list Z) (y : list json) (label : string)
    (a : Artist) :
  ax_fill_call x y label = Return a -> a = ax_fill (XDate <$> x) y label.
Proof.
  unfold ax_fill_call. intros Ha. apply bind_Return in Ha as (_ & _ & Ha).
  by injection Ha.
Qed.

Lemma ax_plot_line_Return (x : list Z) (y : list json) (label : json)
    (color : string) (a : Artist) :
  ax_plot_line x y label color = Return a ->
  a = ax_plot (XDate <$> x) y label color.
Proof.
  unfold ax_plot_line. intros Ha. apply bind_Return in Ha as (_ & _ & Ha).
  by injection Ha.
Qed.

(** A marker that was drawn is not at [None]. *)
Lemma ax_plot_marker_Return (x : Z) (y : json) (label color : string)
    (a : Artist) :
  ax_plot_marker x y label color = Return a ->
  y <> JNull /\ a = ax_plot [XDate x] [y] (JStr label) color.
Proof.
  unfold ax_plot_marker. intros Ha.
  destruct y; try done; apply bind_Return in Ha as (_ & _ & Ha);
    by injection Ha.
Qed.

Lemma ax_plot_marker_number (x : Z) (y : json) (label color : string) :
  is_number y = true ->
  ax_plot_marker x y label color
  = Return (ax_plot [XDate x] [y] (JStr label) color).
Proof.
  intros Hy. unfold ax_plot_marker.
  destruct y; try done; rewrite ordinates_numbers; try done;
    cbn [forallb]; by rewrite Hy.
Qed.

Lemma sns_scatterplot_call_Return (x : Z) (y : json) (label color : string)
    (a : Artist) :
  sns_scatterplot_call x y label color = Return a ->
  a = sns_scatterplot [XDate x] [y] label color.
Proof.
  unfold sns_scatterplot_call. intros Ha.
  apply bind_Return in Ha as (_ & _ & Ha). by injection Ha.
Qed.

Lemma lios_fill_Return (s : Season) (a : Artist) :
  lios_fill s = Return a -> a = lios_shape s.
Proof. apply ax_fill_call_Return. Qed.

Lemma season_numbers (s : Season) :
  forallb is_number (season_values s) = true ->
  is_number (sos_v s) = true /\ is_number (pos_v s) = true
  /\ is_number (eos_v s) = true /\ is_number (vos_v s) = true.
Proof.
  unfold season_values. cbn [forallb]. rewrite !andb_true_iff. tauto.
Qed.

(** What [plot_phenometrics_matplotlib] has gone through when it returns,
    and the figure it has drawn: no marker lies at [None]. *)
Lemma plot_phenometrics_matplotlib_Return (cube : json)
    (ds_phenos : PointPhenos) (layout : Qc * Qc) (attr : list json)
    (fig : Figure) :
  let ts := timeseries ds_phenos in
  plot_phenometrics_matplotlib cube ds_phenos layout attr = Return fig ->
  exists band dates s y_new,
    (smooth_timeseries (values ts) "savitsky" 3 1 = Return y_new
     /\ timeline_dates (timeline ts) = Return dates
     /\ read_season (phenometrics ds_phenos) = Return s
     /\ getitem cube "band" = Return band)
    /\ (length (timeline ts) = length (values ts)
        /\ plt_figure layout = Return tt
        /\ (2 <= length attr)%nat)
    /\ Forall (fun v => v <> JNull) (season_values s)
    /\ fig = matplotlib_chart band dates (values ts) y_new s.
Proof.
  intros ts Hfig. subst ts. unfold plot_phenometrics_matplotlib in Hfig.
  returned Hfig. injection Hfig as <-.
  repeat match goal with
    | Hs : same_length _ _ = Return _ |- _ => apply same_length_Return in Hs
    | Hl : lios_fill _ = Return _ |- _ => apply lios_fill_Return in Hl as ->
    | Hl : ax_plot_line _ _ _ _ = Return _ |- _ =>
        apply ax_plot_line_Return in Hl as ->
    | Hm : ax_plot_marker _ _ _ _ = Return _ |- _ =>
        apply ax_plot_marker_Return in Hm as [? ->]
    end.
  match goal with
  | Hy : smooth_timeseries _ _ _ _ = Return ?y,
    Hd : timeline_dates _ = Return ?dates,
    Hs : read_season _ = Return ?s,
    Hb : getitem cube "band" = Return ?band,
    Hb' : getitem cube "band" = Return ?band',
    Hl : length ?dates = length (values _),
    Ht : format2 attr = Return _ |- _ =>
      exists band, dates, s, y;
      pose proof (timeline_dates_length _ _ Hd) as Hdlen;
      assert (2 <= length attr)%nat as Hattr by (apply format2_Return; eauto);
      assert (band' = band) as -> by congruence
  end.
  split; [done|].
  split; [split; [congruence | split; [by destruct_figure | done]]|].
  split; [by repeat constructor | reflexivity].
Qed.

(** The same for [plot_phenometrics_seaborn]. *)
Lemma plot_phenometrics_seaborn_Return (cube : json)
    (ds_phenos : PointPhenos) (layout : Qc * Qc) (attr : list json)
    (fig : Figure) :
  let ts := timeseries ds_phenos in
  plot_phenometrics_seaborn cube ds_phenos layout attr = Return fig ->
  exists band dates s y_new,
    (smooth_timeseries (values ts) "savitsky" 3 1 = Return y_new
     /\ timeline_dates (timeline ts) = Return dates
     /\ read_season (phenometrics ds_phenos) = Return s
     /\ getitem cube "band" = Return band)
    /\ (length (timeline ts) = length (values ts)
        /\ plt_figure layout = Return tt
        /\ (2 <= length attr)%nat)
    /\ fig = seaborn_chart band dates (values ts) y_new s.
Proof.
  intros ts Hfig. subst ts. unfold plot_phenometrics_seaborn in Hfig.
  returned Hfig. injection Hfig as <-.
  repeat match goal with
    | Hs : same_length _ _ = Return _ |- _ => apply same_length_Return in Hs
    | Hl : lios_fill _ = Return _ |- _ => apply lios_fill_Return in Hl as ->
    | Hl : ax_plot_line _ _ _ _ = Return _ |- _ =>
        apply ax_plot_line_Return in Hl as ->
    | Hm : sns_scatterplot_call _ _ _ _ = Return _ |- _ =>
        apply sns_scatterplot_call_Return in Hm as ->
    end.
  match goal with
  | Hy : smooth_timeseries _ _ _ _ = Return ?y,
    Hd : timeline_dates _ = Return ?dates,
    Hs : read_season _ = Return ?s,
    Hb : getitem cube "band" = Return ?band,
    Hb' : getitem cube "band" = Return ?band',
    Hl : length ?dates = length (values _),
    Ht : format2 attr = Return _ |- _ =>
      exists band, dates, s, y;
      pose proof (timeline_dates_length _ _ Hd) as Hdlen;
      assert (2 <= length attr)%nat as Hattr by (apply format2_Return; eauto);
      assert (band' = band) as -> by congruence
  end.
  split; [done|].
  split; [split; [congruence | split; [by destruct_figure | done]]|].
  reflexivity.
Qed.

(** With numbers for the four values, both builders return once the series,
    the timeline, the record, the band and [attr] are in order. *)
Lemma matplotlib_and_seaborn_compute (cube : json) (ds_phenos : PointPhenos)
    (layout : Qc * Qc) (attr : list json) (band : json) (dates : list Z)
    (s : Season) (y_new : list Qc) :
  let ts := timeseries ds_phenos in
  smooth_timeseries (values ts) "savitsky" 3 1 = Return y_new ->
  timeline_dates (timeline ts) = Return dates ->
  read_season (phenometrics ds_phenos) = Return s ->
  getitem cube "band" = Return band ->
  length (timeline ts) = length (values ts) ->
  plt_figure layout = Return tt ->
  (2 <= length attr)%nat ->
  forallb is_number (season_values s) = true ->
  plot_phenometrics_matplotlib cube ds_phenos layout attr
  = Return (matplotlib_chart band dates (values ts) y_new s)
  /\ plot_phenometrics_seaborn cube ds_phenos layout attr
     = Return (seaborn_chart band dates (values ts) y_new s).
Proof.
  intros ts Hy Hdates Hs Hband Hlen Hfigure Hattr Hnum. subst ts.
  apply season_numbers in Hnum as (Hsv & Hpv & Hev & Hvv).
  pose proof (smooth_timeseries_Return _ _ Hy) as [_ Hylen].
  pose proof (timeline_dates_length _ _ Hdates) as Hdlen.
  apply format2_Return in Hattr as [title Htitle].
  assert (same_length dates (values (timeseries ds_phenos)) = Return tt)
    as Hsame1 by (apply same_length_Return; congruence).
  assert (same_length dates y_new = Return tt)
    as Hsame2 by (apply same_length_Return; congruence).
  assert (forall call, ordinates call [JInt 0; sos_v s; pos_v s; eos_v s; JInt 0]
                       = Return tt) as Hfill
    by (intros call; apply ordinates_numbers; cbn [forallb];
        by rewrite Hsv, Hpv, Hev).
  assert (forall call, ordinates call [sos_v s; eos_v s] = Return tt) as Hlos
    by (intros call; apply ordinates_numbers; cbn [forallb];
        by rewrite Hsv, Hev).
  assert (forall call, ordinates call [pos_v s; JInt 0] = Return tt) as Haos
    by (intros call; apply ordinates_numbers; cbn [forallb]; by rewrite Hpv).
  assert (forall call, ordinates call [JInt 0; pos_v s] = Return tt) as Haos'
    by (intros call; apply ordinates_numbers; cbn [forallb]; by rewrite Hpv).
  assert (forall call v, is_number v = true -> ordinates call [v] = Return tt)
    as Hone
    by (intros call v Hv; apply ordinates_numbers; cbn [forallb];
        by rewrite Hv).
  unfold plot_phenometrics_matplotlib, plot_phenometrics_seaborn.
  rewrite Hy. cbn [mbind result_bind]. rewrite Hdates.
  cbn [mbind result_bind]. rewrite Hs. cbn [mbind result_bind].
  unfold lios_fill, ax_fill_call, ax_plot_line, sns_scatterplot_call.
  rewrite !ax_plot_marker_number by done.
  rewrite Hsame1, Hsame2, Hfigure, !Hfill, !Hlos, !Haos, !Haos', !Hone by done.
  cbn [mbind result_bind]. rewrite Hband. cbn [mbind result_bind].
  rewrite ?Hsame1, ?Hsame2. cbn [mbind result_bind].
  rewrite ?Hband, Htitle. done.
Qed.

(** What the matplotlib and seaborn builders draw when they return. *)
Lemma plot_phenometrics_matplotlib_figure (cube : json)
    (ds_phenos : PointPhenos) (layout : Qc * Qc) (attr : list json)
    (fig : Figure) :
  plot_phenometrics_matplotlib cube ds_phenos layout attr = Return fig ->
  exists s : Season,
    read_season (phenometrics ds_phenos) = Return s
    /\ lios_polygon fig
       = [lios_path (XDate (sos_t s)) (XDate (pos_t s)) (XDate (eos_t s))
            (sos_v s) (pos_v s) (eos_v s)]
    /\ uncertainty_bands fig = [].
Proof.
  intros Hfig.
  apply plot_phenometrics_matplotlib_Return in Hfig
    as (band & dates & s & y_new & (_ & _ & Hs & _) & _ & _ & ->).
  by exists s.
Qed.

Lemma plot_phenometrics_seaborn_figure (cube : json)
    (ds_phenos : PointPhenos) (layout : Qc * Qc) (attr : list json)
    (fig : Figure) :
  plot_phenometrics_seaborn cube ds_phenos layout attr = Return fig ->
  exists s : Season,
    read_season (phenometrics ds_phenos) = Return s
    /\ lios_polygon fig
       = [lios_path (XDate (sos_t s)) (XDate (pos_t s)) (XDate (eos_t s))
            (sos_v s) (pos_v s) (eos_v s)]
    /\ uncertainty_bands fig = [].
Proof.
  intros Hfig.
  apply plot_phenometrics_seaborn_Return in Hfig
    as (band & dates & s & y_new & (_ & _ & Hs & _) & _ & ->).
  by exists s.
Qed.

End ChartComputes.

Section ChartClaims.
Context `{PyLib}.

(** C6.  For every record holding [sos_t]/[sos_v], [pos_t]/[pos_v] and
    [eos_t]/[eos_v], the filled shape drawn by each of the four chart
    builders is the one path (sos, 0), (sos, sos_v), (pos, pos_v),
    (eos, eos_v), (eos, 0), where sos, pos and eos are the dates of the
    three timestamps (their text before 'T'; parsed to a [datetime] by the
    matplotlib and seaborn builders).  The path has five vertices, and the
    first and the last lie at [y = 0].  Whatever figure a builder returns
    holds that path and no other filled shape; and each builder does return
    such a figure on a series of three values or more, once the rest of its
    input is in order: a band that is text, [vos_t] and [vos_v] in the
    record, dates that parse and leave room for the days added to them, and
    for the matplotlib and seaborn builders a timeline as long as the
    series, a [layout] the library makes a figure of, two entries in
    [attr] and numbers for the four values. *)
Theorem lios_polygon_is_five_vertex_path (phen : json) (st pt et : string)
    (sv pv ev : json) :
  getitem phen "sos_t" = Return (JStr st) -> getitem phen "sos_v" = Return sv ->
  getitem phen "pos_t" = Return (JStr pt) -> getitem phen "pos_v" = Return pv ->
  getitem phen "eos_t" = Return (JStr et) -> getitem phen "eos_v" = Return ev ->
  let text_path :=
    lios_path (XText (date_part st)) (XText (date_part pt))
      (XText (date_part et)) sv pv ev in
  let date_path (sos pos eos : Z) :=
    lios_path (XDate sos) (XDate pos) (XDate eos) sv pv ev in
  ((forall cube ts fig,
       plot_phenometrics cube {| timeseries := ts; phenometrics := phen |}
       = Return fig ->
       lios_polygon fig = [text_path])
   /\ (forall cube ts tl fig,
          plot_advanced_phenometrics cube
            {| region_timeseries := ts; region_timeline := tl;
               region_phenometrics := phen |} = Return fig ->
          lios_polygon fig = [text_path])
   /\ (forall cube ts layout attr fig,
          plot_phenometrics_matplotlib cube
            {| timeseries := ts; phenometrics := phen |} layout attr
          = Return fig ->
          exists sos pos eos : Z,
            strptime_ymd (date_part st) = Return sos
            /\ strptime_ymd (date_part pt) = Return pos
            /\ strptime_ymd (date_part et) = Return eos
            /\ lios_polygon fig = [date_path sos pos eos])
   /\ (forall cube ts layout attr fig,
          plot_phenometrics_seaborn cube
            {| timeseries := ts; phenometrics := phen |} layout attr
          = Return fig ->
          exists sos pos eos : Z,
            strptime_ymd (date_part st) = Return sos
            /\ strptime_ymd (date_part pt) = Return pos
            /\ strptime_ymd (date_part et) = Return eos
            /\ lios_polygon fig = [date_path sos pos eos]))
  /\ (forall sos pos eos : xval,
         let path := lios_path sos pos eos sv pv ev in
         length path = 5%nat
         /\ snd <$> head path = Some (JInt 0)
         /\ snd <$> last path = Some (JInt 0))
  /\ (forall (cube : json) (band : string) (ts : TimeSeries) (vt : string)
             (vv : json) (pos : Z),
         getitem cube "band" = Return (JStr band) ->
         (3 <= length (values ts))%nat ->
         getitem phen "vos_t" = Return (JStr vt) ->
         getitem phen "vos_v" = Return vv ->
         strptime_ymd (date_part pt) = Return pos -> within_range pos 5 ->
         (exists fig,
             plot_phenometrics cube {| timeseries := ts; phenometrics := phen |}
             = Return fig
             /\ lios_polygon fig = [text_path])
         /\ (forall sos eos : Z,
                strptime_ymd (date_part st) = Return sos ->
                within_range sos 16 ->
                strptime_ymd (date_part et) = Return eos ->
                within_range eos 16 ->
                exists fig,
                  plot_advanced_phenometrics cube
                    {| region_timeseries := values ts;
                       region_timeline := timeline ts;
                       region_phenometrics := phen |} = Return fig
                  /\ lios_polygon fig = [text_path])
         /\ (forall (sos eos vos : Z) (dates : list Z) (layout : Qc * Qc)
                    (attr : list json),
                strptime_ymd (date_part st) = Return sos ->
                strptime_ymd (date_part et) = Return eos ->
                strptime_ymd (date_part vt) = Return vos ->
                timeline_dates (timeline ts) = Return dates ->
                length (timeline ts) = length (values ts) ->
                plt_figure layout = Return tt ->
                (2 <= length attr)%nat ->
                forallb is_number [sv; pv; ev; vv] = true ->
                (exists fig,
                    plot_phenometrics_matplotlib cube
                      {| timeseries := ts; phenometrics := phen |} layout attr
                    = Return fig
                    /\ lios_polygon fig = [date_path sos pos eos])
                /\ (exists fig,
                       plot_phenometrics_seaborn cube
                         {| timeseries := ts; phenometrics := phen |} layout attr
                       = Return fig
                       /\ lios_polygon fig = [date_path sos pos eos]))).
Proof.
  intros Hst Hsv Hpt Hpv Het Hev text_path date_path.
  split; [split; [|split; [|split]] | split].
  - intros cube ts fig Hfig.
    by apply (plot_phenometrics_figure cube {| timeseries := ts; phenometrics := phen |}
                fig st pt et sv pv ev).
  - intros cube ts tl fig Hfig.
    by apply (plot_advanced_phenometrics_figure cube
                {| region_timeseries := ts; region_timeline := tl;
                   region_phenometrics := phen |} fig st pt et sv pv ev).
  - intros cube ts layout attr fig Hfig.
    apply plot_phenometrics_matplotlib_figure in Hfig as (s & Hs & Hpoly & _).
    destruct (read_season_fields _ _ _ _ _ _ _ _ Hst Hsv Hpt Hpv Het Hev Hs)
      as [(? & ? & ?) (<- & <- & <-)].
    by exists (sos_t s), (pos_t s), (eos_t s).
  - intros cube ts layout attr fig Hfig.
    apply plot_phenometrics_seaborn_figure in Hfig as (s & Hs & Hpoly & _).
    destruct (read_season_fields _ _ _ _ _ _ _ _ Hst Hsv Hpt Hpv Het Hev Hs)
      as [(? & ? & ?) (<- & <- & <-)].
    by exists (sos_t s), (pos_t s), (eos_t s).
  - done.
  - intros cube band ts vt vv pos Hband Hlong Hvt Hvv Hpos Hrange.
    destruct (smooth_timeseries_long (values ts) Hlong) as [y_new Hy].
    split; [|split].
    + eexists. split.
      * by apply (plot_phenometrics_computes cube
                    {| timeseries := ts; phenometrics := phen |} band st pt et
                    vt sv pv ev vv y_new pos).
      * reflexivity.
    + intros sos eos Hsos Hsr Heos Her. eexists. split.
      * by apply (plot_advanced_phenometrics_computes cube
                    {| region_timeseries := values ts;
                       region_timeline := timeline ts;
                       region_phenometrics := phen |} band st pt et vt sv pv ev
                    vv y_new pos sos eos).
      * reflexivity.
    + intros sos eos vos dates layout attr Hsos Heos Hvos Hdates Hlen Hfigure
        Hattr Hnum.
      assert (read_season phen
              = Return {| sos_t := sos; pos_t := pos; eos_t := eos; vos_t := vos;
                          sos_v := sv; pos_v := pv; eos_v := ev; vos_v := vv |})
        as Hs.
      { unfold read_season.
        rewrite (day_date_str _ _ _ Hst), (day_date_str _ _ _ Hpt),
          (day_date_str _ _ _ Het), (day_date_str _ _ _ Hvt), Hsos, Hpos, Heos,
          Hvos, Hsv, Hpv, Hev, Hvv. reflexivity. }
      destruct (matplotlib_and_seaborn_compute cube
                  {| timeseries := ts; phenometrics := phen |} layout attr
                  (JStr band) dates _ y_new Hy Hdates Hs Hband Hlen Hfigure
                  Hattr Hnum)
        as [Hm Hsns].
      split; eexists; (split; [eassumption | reflexivity]).
Qed.


End ChartClaims.

Lemma lios_polygon_is_five_vertex_path_witness :
  let path (sos pos eos : xval) :=
    lios_path sos pos eos (JFloat (Q2Qc 7649)) (JFloat (Q2Qc 9000))
      (JFloat (Q2Qc 5489)) in
  let text_path :=
    path (XText "2021-01-02") (XText "2021-04-01") (XText "2021-07-13") in
  let date_path := path (XDate 737792) (XDate 737881) (XDate 737984) in
  (exists fig,
      @plot_phenometrics Sample.lib Example.datacube ChartExample.point
      = Return fig
      /\ lios_polygon fig = [text_path])
  /\ (exists fig,
         @plot_advanced_phenometrics Sample.lib Example.datacube
           ChartExample.pixel = Return fig
         /\ lios_polygon fig = [text_path])
  /\ (exists fig,
         @plot_phenometrics_matplotlib Sample.lib Example.datacube
           ChartExample.point ChartExample.layout ChartExample.attr = Return fig
         /\ lios_polygon fig = [date_path])
  /\ (exists fig,
         @plot_phenometrics_seaborn Sample.lib Example.datacube
           ChartExample.point ChartExample.layout ChartExample.attr = Return fig
         /\ lios_polygon fig = [date_path]).
Proof.
  intros path text_path date_path.
  destruct (@lios_polygon_is_five_vertex_path Sample.lib ChartExample.record
              "2021-01-02" "2021-04-01" "2021-07-13" (JFloat (Q2Qc 7649))
              (JFloat (Q2Qc 9000)) (JFloat (Q2Qc 5489))
              eq_refl eq_refl eq_refl eq_refl eq_refl eq_refl)
    as (_ & _ & Hreturn).
  destruct (Hreturn Example.datacube "NDVI" ChartExample.series "2021-12-20"
              (JFloat (Q2Qc (481733 # 100))) 737881%Z)
    as (Hplotly & Hregion & Hmatplotlib);
    [reflexivity | simpl; lia | reflexivity | reflexivity | reflexivity
    | split; vm_compute; discriminate |].
  split; [exact Hplotly|]. split.
  - apply (Hregion 737792%Z 737984%Z);
      first [reflexivity | split; vm_compute; discriminate].
  - apply (Hmatplotlib 737792%Z 737984%Z 738144%Z
             [737791; 737807; 737823; 737839]%Z ChartExample.layout
             ChartExample.attr); first [reflexivity | simpl; lia].
Defined.


(** ** Listing collections and describing metrics *)

Lemma for_each_raises {A S : Type} (body : S -> A -> result S) (xs : list A)
    (x : A) :
  x ∈ xs -> (forall s, exists e, body s x = Raise e) ->
  forall s, exists e, for_each xs body s = Raise e.
Proof.
  intros Hx Hbody. induction xs as [|y xs IH]; intros s; [by inversion Hx|].
  simpl. destruct (body s y) as [s'|e] eqn:Hy; [|by exists e].
  apply elem_of_cons in Hx as [->|Hx].
  - destruct (Hbody s) as [e He]. congruence.
  - by apply IH.
Qed.

Lemma for_each_returns {A S : Type} (body : S -> A -> result S) (xs : list A) :
  Forall (fun x => forall s, exists s', body s x = Return s') xs ->
  forall s, exists s', for_each xs body s = Return s'.
Proof.
  induction 1 as [|x xs Hx _ IH]; intros s; [by exists s|].
  simpl. destruct (Hx s) as [s' ->]. apply IH.
Qed.

Lemma lift_bind {A B : Type} (r : result A) (k : A -> Net B)
    (f : A -> result B) (srv : Server) :
  (forall a, k a srv = ([], f a)) -> (lift r ≫= k) srv = ([], r ≫= f).
Proof.
  intros Hk. destruct r as [a|e]; [|done]. rewrite lift_return_bind. apply Hk.
Qed.

Section Describe.
Context `{PyLib}.

Lemma get_collections_run (url : string) (srv : Server) :
  get_collections url srv
  = ([list_collections_request url],
     match srv (list_collections_request url) with
     | Raised e => Raise e
     | Responded data =>
         data_json ← Response_json data; getitem data_json "coverages"
     end).
Proof.
  unfold get_collections, requests_get. rewrite send_bind.
  fold (list_collections_request url).
  destruct (srv _) as [|data]; [done|].
  rewrite (lift_bind _ _ (fun data_json => getitem data_json "coverages")); done.
Qed.

Lemma get_description_run (url : string) (srv : Server) :
  get_description url srv
  = ([describe_request url],
     match srv (describe_request url) with
     | Raised e => Raise e
     | Responded data =>
         data_json ← Response_json data;
         description ← getitem data_json "description";
         items ← iterate description;
         html_table ← for_each items html_table_row html_table_header;
         getitem data_json "description"
     end).
Proof.
  unfold get_description, requests_get. rewrite send_bind.
  fold (describe_request url).
  destruct (srv _) as [|data]; [done|].
  match goal with
  | |- (_ :: (?c srv).1, _) = (_, ?p) => assert (c srv = ([], p)) as ->; [|done]
  end.
  apply lift_bind. intros data_json. cbn zeta.
  apply lift_bind. intros description.
  apply lift_bind. intros items.
  apply lift_bind. intros html_table. reflexivity.
Qed.

(** A row of the table is built when the item has the six keys and text in
    the four concatenated cells. *)
Lemma html_table_row_returns (item : json) :
  text_cells item = true -> lacks_key item = false ->
  forall html_table, exists t, html_table_row html_table item = Return t.
Proof.
  destruct item as [| | | | |?|o]; try done. unfold text_cells, lacks_key.
  cbn [forallb existsb metric_keys]. intros Htext Hkeys html_table.
  unfold html_table_row, getitem.
  destruct (o !! "Code") as [[]|]; try done.
  destruct (o !! "Name") as [[]|]; try done.
  destruct (o !! "Description") as [[]|]; try done.
  destruct (o !! "Method") as [[]|]; try done.
  destruct (o !! "Value"); try done.
  destruct (o !! "Time"); try done.
  by eexists.
Qed.

(** An item that lacks a key never yields a row. *)
Lemma html_table_row_raises (item : json) :
  lacks_key item = true ->
  forall html_table, exists e, html_table_row html_table item = Raise e.
Proof.
  destruct item as [| | | | |?|o]; try done. unfold lacks_key.
  cbn [existsb metric_keys]. intros Hkeys html_table.
  unfold html_table_row, getitem.
  destruct (o !! "Code") as [[]|]; try by eexists.
  destruct (o !! "Name") as [[]|]; try by eexists.
  destruct (o !! "Description") as [[]|]; try by eexists.
  destruct (o !! "Method") as [[]|]; try by eexists.
  destruct (o !! "Value"); try by eexists.
  destruct (o !! "Time"); [done | by eexists].
Qed.

(** With text in its cells, an item yields a row or a key error. *)
Lemma html_table_row_text_cells (item : json) (html_table : string) :
  text_cells item = true ->
  match html_table_row html_table item with
  | Return _ => lacks_key item = false
  | Raise e =>
      lacks_key item = true /\ exists key, key ∈ metric_keys /\ e = KeyError key
  end.
Proof.
  assert (forall key, key ∈ metric_keys ->
            exists key', key' ∈ metric_keys /\ KeyError key = KeyError key')
    as Hkey by (intros key ?; by exists key).
  destruct item as [| | | | |?|o]; try done. unfold text_cells, lacks_key.
  cbn [forallb existsb metric_keys]. intros Htext.
  unfold html_table_row, getitem.
  destruct (o !! "Code") as [[]|]; try done;
    try (split; [done | apply Hkey; repeat constructor]).
  destruct (o !! "Name") as [[]|]; try done;
    try (split; [done | apply Hkey; repeat constructor]).
  destruct (o !! "Description") as [[]|]; try done;
    try (split; [done | apply Hkey; repeat constructor]).
  destruct (o !! "Method") as [[]|]; try done;
    try (split; [done | apply Hkey; repeat constructor]).
  destruct (o !! "Value"); try done;
    try (split; [done | apply Hkey; repeat constructor]).
  destruct (o !! "Time"); try done;
    try (split; [done | apply Hkey; repeat constructor]).
Qed.

Lemma for_each_row_key_error (items : list json) (item : json) :
  Forall (fun i => text_cells i = true) items ->
  item ∈ items -> lacks_key item = true ->
  forall html_table, exists key,
    key ∈ metric_keys
    /\ for_each items html_table_row html_table = Raise (KeyError key).
Proof.
  intros Htext Hin Hlacks.
  induction Htext as [|x xs Hx _ IH]; intros html_table; [by inversion Hin|].
  simpl. pose proof (html_table_row_text_cells x html_table Hx) as Hrow.
  destruct (html_table_row html_table x) as [t|e].
  - apply elem_of_cons in Hin as [->|Hin]; [congruence|]. by apply IH.
  - destruct Hrow as (_ & key & Hkey & ->). by exists key.
Qed.

Lemma html_table_row_Return (html_table : string) (item : json) (t : string) :
  html_table_row html_table item = Return t -> complete_item item = true.
Proof.
  unfold complete_item.
  destruct item as [| | | | |?|o]; try done. unfold text_cells, lacks_key.
  cbn [forallb existsb metric_keys]. unfold html_table_row, getitem.
  destruct (o !! "Code") as [[]|]; try done.
  destruct (o !! "Name") as [[]|]; try done.
  destruct (o !! "Description") as [[]|]; try done.
  destruct (o !! "Method") as [[]|]; try done.
  destruct (o !! "Value"); try done.
  destruct (o !! "Time"); done.
Qed.

Lemma for_each_row_Return (items : list json) (html_table t : string) :
  for_each items html_table_row html_table = Return t ->
  Forall (fun item => complete_item item = true) items.
Proof.
  revert html_table. induction items as [|item items IH]; intros html_table;
    [by constructor|].
  simpl. intros Hrow. apply bind_Return in Hrow as (t' & Hitem & Hrest).
  constructor; [by eapply html_table_row_Return | by eapply IH].
Qed.

(** A row that fails does so on a missing key or on a cell that cannot be
    concatenated. *)
Lemma html_table_row_Raise (html_table : string) (item : json) (e : exn) :
  html_table_row html_table item = Raise e ->
  e = TypeError \/ exists key, key ∈ metric_keys /\ e = KeyError key.
Proof.
  assert (forall key, key ∈ metric_keys ->
            KeyError key = TypeError
            \/ exists key', key' ∈ metric_keys /\ KeyError key = KeyError key')
    as Hkey by (intros key ?; right; by exists key).
  unfold html_table_row, getitem.
  destruct item as [| | | | |?|o]; try (intros [= <-]; by left).
  destruct (o !! "Code") as [[]|]; simpl;
    try (intros [= <-]; first [by left | apply Hkey; repeat constructor]).
  destruct (o !! "Name") as [[]|]; simpl;
    try (intros [= <-]; first [by left | apply Hkey; repeat constructor]).
  destruct (o !! "Description") as [[]|]; simpl;
    try (intros [= <-]; first [by left | apply Hkey; repeat constructor]).
  destruct (o !! "Method") as [[]|]; simpl;
    try (intros [= <-]; first [by left | apply Hkey; repeat constructor]).
  destruct (o !! "Value"); simpl;
    try (intros [= <-]; first [by left | apply Hkey; repeat constructor]).
  destruct (o !! "Time"); simpl;
    intros [= <-]; apply Hkey; repeat constructor.
Qed.

Lemma for_each_row_Raise (items : list json) (html_table : string) (e : exn) :
  for_each items html_table_row html_table = Raise e ->
  e = TypeError \/ exists key, key ∈ metric_keys /\ e = KeyError key.
Proof.
  revert html_table. induction items as [|item items IH]; intros t; [done|].
  simpl. destruct (html_table_row t item) as [t'|e'] eqn:Hrow; simpl.
  - apply IH.
  - intros [= <-]. by eapply html_table_row_Raise.
Qed.

End Describe.

Lemma url_query_free (url : string) :
  free_of "?" url = true -> url_query url = None.
Proof. intros Hq. unfold url_query. by rewrite split_free. Qed.

Section DescribeClaims.
Context `{PyLib}.

(** C8, amended.  [get_collections] and [get_description] each make
    exactly one call, [requests.get] without parameters and without body, on
    the base URL followed by [/list_collections] and [/describe]; nothing is
    appended, so a base URL without query component gives a URL without one.
    [get_collections] returns the [coverages] field of the JSON body.
    [get_description] returns the [description] field exactly when that
    field can be iterated and every item it yields is an object with the
    six keys the table reads and text under Code, Name, Description and
    Method; otherwise it raises, and it never returns anything else. *)
Theorem get_collections_and_get_description (url : string) (srv : Server) :
  ((get_collections url srv).1
   = [{| req_method := GET; req_url := url +:+ "/list_collections";
         req_params := []; req_json := None |}]
   /\ (get_description url srv).1
      = [{| req_method := GET; req_url := url +:+ "/describe";
            req_params := []; req_json := None |}])
  /\ (free_of "?" url = true ->
      url_query (url +:+ "/list_collections") = None
      /\ url_query (url +:+ "/describe") = None)
  /\ (forall data m v,
         srv (list_collections_request url) = Responded data ->
         json_doc data = Some (JObj m) -> m !! "coverages" = Some v ->
         (get_collections url srv).2 = Return v)
  /\ (forall data m d,
         srv (describe_request url) = Responded data ->
         json_doc data = Some (JObj m) ->
         m !! "description" = Some d ->
         ((get_description url srv).2 = Return d
          <-> exists items,
                iterate d = Return items
                /\ Forall (fun item => complete_item item = true) items)
         /\ (forall v, (get_description url srv).2 = Return v -> v = d)).
Proof.
  rewrite get_collections_run, get_description_run.
  split; [done|]. split; [|split].
  - intros Hurl. split; apply url_query_free; rewrite free_of_app, Hurl; done.
  - intros data m v -> Hdoc Hv. cbn [snd]. unfold Response_json.
    rewrite Hdoc. simpl. by rewrite Hv.
  - intros data m d -> Hdoc Hd. cbn [snd]. unfold Response_json.
    rewrite Hdoc. simpl. rewrite Hd. simpl. split; [split|].
    + intros Hret. destruct (iterate d) as [items|] eqn:Hit; [|done].
      simpl in Hret.
      destruct (for_each items html_table_row html_table_header) as [t|] eqn:Ht;
        [|done].
      exists items. split; [done|]. by eapply for_each_row_Return.
    + intros (items & -> & Hitems). simpl.
      destruct (for_each_returns html_table_row items) with (s := html_table_header)
        as [t ->]; [|done].
      eapply Forall_impl; [exact Hitems|]. intros item Hitem.
      apply andb_prop in Hitem as [Htext Hkeys]. apply negb_true_iff in Hkeys.
      by apply html_table_row_returns.
    + intros v Hv. destruct (iterate d) as [items|]; [|done]. simpl in Hv.
      destruct (for_each items html_table_row html_table_header); [|done].
      simpl in Hv. congruence.
Qed.

(** C10, amended.  Whatever [get_description] returns is the [description]
    field of the JSON body: the table it builds plays no part in the result.
    But when an item of the list lacks one of the keys Code, Name,
    Description, Method, Value, Time, the operation fails, because every
    item is indexed by the six keys to build the table.  The failure is a
    [KeyError] for one of the six keys, or a [TypeError] when an item that
    is not an object, or a Code, Name, Description or Method that is not
    text, is met first; it is the [KeyError] whenever those cells hold text
    in every item. *)
Theorem get_description_needs_six_keys (url : string) (srv : Server)
    (data : Response) (m : gmap string json) :
  srv (describe_request url) = Responded data ->
  json_doc data = Some (JObj m) ->
  (forall v, (get_description url srv).2 = Return v ->
             m !! "description" = Some v)
  /\ (forall items item,
         m !! "description" = Some (JList items) ->
         item ∈ items -> lacks_key item = true ->
         exists e,
           (get_description url srv).2 = Raise e
           /\ (e = TypeError
               \/ exists key, key ∈ metric_keys /\ e = KeyError key)
           /\ (Forall (fun i => text_cells i = true) items ->
               exists key, key ∈ metric_keys /\ e = KeyError key)).
Proof.
  intros Hsrv Hdoc. rewrite get_description_run, Hsrv. cbn [snd].
  unfold Response_json. rewrite Hdoc. simpl. split.
  - intros v Hv. destruct (m !! "description") as [d|]; [|done]. simpl in Hv.
    destruct (iterate d) as [items|]; [|done]. simpl in Hv.
    destruct (for_each items html_table_row html_table_header); [|done].
    simpl in Hv. congruence.
  - intros items item Hd Hin Hlacks. rewrite Hd. simpl.
    destruct (for_each_raises html_table_row items item Hin
                (html_table_row_raises item Hlacks) html_table_header)
      as [e He].
    exists e. rewrite He. split; [done|]. split.
    + by eapply for_each_row_Raise.
    + intros Htext.
      destruct (for_each_row_key_error items item Htext Hin Hlacks
                  html_table_header) as (key & Hkey & He').
      exists key. split; [done|]. congruence.
Qed.

End DescribeClaims.

(** The claim of C8 as worded fails on a description with an item that has
    no [Time]: the body carries the [description] field, and
    [get_description] raises instead of returning it. *)
Lemma get_description_stops_at_incomplete_item :
  DescribeExample.service [DescribeExample.broken]
    (describe_request Example.wcpms_url)
  = Responded
      {| status_code := 200;
         json_doc :=
           Some (JObj {[ "description" := JList [DescribeExample.broken] ]}) |}
  /\ (@get_description Sample.lib Example.wcpms_url
        (DescribeExample.service [DescribeExample.broken])).2
     = Raise (KeyError "Time").
Proof. split; [reflexivity | vm_compute; reflexivity]. Qed.

(** The claim of C10 as worded fails on an item that lacks five of the six
    keys and holds a number under Code: the failure is a [TypeError], not a
    key error. *)
Lemma get_description_type_error_before_key_error :
  lacks_key DescribeExample.numbered = true
  /\ (@get_description Sample.lib Example.wcpms_url
        (DescribeExample.service [DescribeExample.numbered])).2
     = Raise TypeError.
Proof. split; vm_compute; reflexivity. Qed.

Lemma get_collections_and_get_description_witness :
  (@get_collections Example.wcpms_url DescribeExample.catalogue).2
  = Return DescribeExample.collections
  /\ (@get_description Sample.lib Example.wcpms_url
        (DescribeExample.service [DescribeExample.sos])).2
     = Return (JList [DescribeExample.sos])
  /\ url_query (Example.wcpms_url +:+ "/list_collections") = None.
Proof.
  destruct (@get_collections_and_get_description Sample.lib Example.wcpms_url
              DescribeExample.catalogue) as (_ & Hurl & Hcov & _).
  destruct (@get_collections_and_get_description Sample.lib Example.wcpms_url
              (DescribeExample.service [DescribeExample.sos]))
    as (_ & _ & _ & Hdesc).
  split; [|split].
  - eapply Hcov; reflexivity.
  - destruct (Hdesc _ _ (JList [DescribeExample.sos]) eq_refl eq_refl eq_refl)
      as [[_ Hret] _].
    apply Hret. exists [DescribeExample.sos]. split; [reflexivity|].
    repeat constructor.
  - apply Hurl. reflexivity.
Defined.

Lemma get_description_needs_six_keys_witness :
  exists key,
    key ∈ metric_keys
    /\ (@get_description Sample.lib Example.wcpms_url
          (DescribeExample.service [DescribeExample.sos; DescribeExample.broken])).2
       = Raise (KeyError key).
Proof.
  destruct (@get_description_needs_six_keys Sample.lib Example.wcpms_url
              (DescribeExample.service [DescribeExample.sos; DescribeExample.broken])
              _ _ eq_refl eq_refl) as [_ Hfail].
  destruct (Hfail [DescribeExample.sos; DescribeExample.broken]
              DescribeExample.broken eq_refl) as (e & He & _ & Hkey).
  - apply list_elem_of_further, list_elem_of_here.
  - reflexivity.
  - destruct Hkey as (key & Hin & ->); [repeat constructor|].
    exists key. split; [exact Hin | exact He].
Defined.

(** ** The two definitions of [plot_points_region] *)

Lemma exec_module_px : exec_module !! "px" = None.
Proof. vm_compute. reflexivity. Qed.

Lemma exec_module_gpd : exec_module !! "gpd" = Some (Imported "geopandas").
Proof. vm_compute. reflexivity. Qed.

Lemma quiet_bind {A B : Type} (r : result A) (k : A -> Plot B) :
  quiet r ≫= k = match r with
                 | Return a => k a
                 | Raise e => ([], Raise e)
                 end.
Proof.
  unfold mbind, plot_bind, quiet. destruct r as [a|e]; [|done].
  by destruct (k a).
Qed.

Lemma draw_bind {B : Type} (d : Drawing) (outcome : result unit)
    (k : unit -> Plot B) :
  draw d outcome ≫= k = match outcome with
                        | Return u => (d :: (k u).1, (k u).2)
                        | Raise e => ([d], Raise e)
                        end.
Proof.
  unfold mbind, plot_bind, draw. destruct outcome as [u|e]; [|done].
  by destruct (k u).
Qed.

Lemma Return_bind {A B : Type} (a : A) (k : A -> result B) :
  Return a ≫= k = k a.
Proof. reflexivity. Qed.

Lemma Raise_bind {A B : Type} (e : exn) (k : A -> result B) :
  Raise e ≫= k = Raise e.
Proof. reflexivity. Qed.

(** One quiet step of a plot, run. *)
Ltac quiet_step :=
  rewrite quiet_bind, ?Return_bind, ?Raise_bind; cbn beta iota.

Section TwoDefinitions.
Context `{PyLib}.

(** The definition at line 563 reads the global [px], which the module never
    binds: it draws nothing and cannot return. *)
Lemma Def563_run (polygon : Polygon) (phenos : list json) :
  Def563.plot_points_region exec_module polygon phenos
  = ([], match points_and_series polygon phenos with
         | Return _ => Raise (NameError "px")
         | Raise e => Raise e
         end).
Proof.
  unfold Def563.plot_points_region, points_and_series, global_name.
  rewrite exec_module_px, exec_module_gpd.
  destruct (for_each phenos append_point ([], [])) as [xy|e]; quiet_step;
    [|done].
  quiet_step.
  destruct (polygon_geometry polygon) as [g|e]; quiet_step; [|done].
  destruct (GeoSeries g) as [df|e]; quiet_step; [|done].
  by quiet_step.
Qed.

(** The definition at line 643 goes on to draw. *)
Lemma Def643_run (polygon : Polygon) (phenos : list json) :
  Def643.plot_points_region exec_module polygon phenos
  = match points_and_series polygon phenos with
    | Return (xy, df) =>
        match geoseries_plot df with
        | Return _ =>
            match ordinates "geo_axes.scatter" (xy.1 ++ xy.2) with
            | Return _ =>
                ([GeoSeries_plot df; axes_scatter xy.1 xy.2 "red"; axes_plot],
                 Return tt)
            | Raise e =>
                ([GeoSeries_plot df; axes_scatter xy.1 xy.2 "red"], Raise e)
            end
        | Raise e => ([GeoSeries_plot df], Raise e)
        end
    | Raise e => ([], Raise e)
    end.
Proof.
  unfold Def643.plot_points_region, points_and_series, global_name.
  rewrite exec_module_gpd.
  destruct (for_each phenos append_point ([], [])) as [xy|e]; quiet_step;
    [|done].
  quiet_step.
  destruct (polygon_geometry polygon) as [g|e]; quiet_step; [|done].
  destruct (GeoSeries g) as [df|e]; quiet_step; [|done].
  rewrite draw_bind. destruct (geoseries_plot df); [|done].
  rewrite draw_bind. by destruct (ordinates _ _).
Qed.

Lemma call_plot_points_region_run (polygon : Polygon) (phenos : list json) :
  call_plot_points_region exec_module polygon phenos
  = Def643.plot_points_region exec_module polygon phenos.
Proof.
  unfold call_plot_points_region, global_name.
  replace (exec_module !! "plot_points_region") with (Some (Def 643))
    by (vm_compute; reflexivity).
  by quiet_step.
Qed.

Lemma points_and_series_frame (geometry : list Geometry) (phenos : list json)
    (xy : list json * list json) :
  for_each phenos append_point ([], []) = Return xy ->
  points_and_series (GeoDataFrame geometry) phenos = Return (xy, geometry).
Proof. intros Hloop. unfold points_and_series. by rewrite Hloop. Qed.

End TwoDefinitions.

(** C9.  The module defines [plot_points_region] twice, at lines 563 and 643.
    Once the module is loaded the name is bound to the definition at line
    643 and no name is bound to the one at line 563, so every call runs the
    second definition.  The two are not equivalent.  The first draws nothing
    and cannot return: it reads the global [px], which the module never
    binds.  They run the same statements up to that line, so what the first
    raises before it the second raises too, having drawn nothing either;
    past it, on a frame and pixels whose coordinates can be read, the first
    raises [NameError] where the second plots the frame, and the second
    returns once geopandas and matplotlib have drawn the frame and the
    pixels. *)
Theorem plot_points_region_is_shadowed :
  filter (fun st => st.1 = "plot_points_region") module_source
  = [("plot_points_region", Def 563); ("plot_points_region", Def 643)]
  /\ exec_module !! "plot_points_region" = Some (Def 643)
  /\ (forall name, exec_module !! name <> Some (Def 563))
  /\ (forall (L : PyLib) polygon phenos,
         call_plot_points_region exec_module polygon phenos
         = Def643.plot_points_region exec_module polygon phenos)
  /\ (forall (L : PyLib) polygon phenos,
         exists e,
           Def563.plot_points_region exec_module polygon phenos
           = ([], Raise e))
  /\ (forall (L : PyLib) polygon phenos e,
         Def563.plot_points_region exec_module polygon phenos = ([], Raise e) ->
         e <> NameError "px" ->
         Def643.plot_points_region exec_module polygon phenos = ([], Raise e))
  /\ (forall (L : PyLib) geometry phenos x y,
         for_each phenos append_point ([], []) = Return (x, y) ->
         Def563.plot_points_region exec_module (GeoDataFrame geometry) phenos
         = ([], Raise (NameError "px"))
         /\ head (Def643.plot_points_region exec_module (GeoDataFrame geometry)
                    phenos).1 = Some (GeoSeries_plot geometry)
         /\ (geoseries_plot geometry = Return tt ->
             forallb is_number (x ++ y) = true ->
             Def643.plot_points_region exec_module (GeoDataFrame geometry) phenos
             = ([GeoSeries_plot geometry; axes_scatter x y "red"; axes_plot],
                Return tt)))
  /\ (forall L : PyLib,
         exists polygon phenos,
           Def563.plot_points_region exec_module polygon phenos
           <> Def643.plot_points_region exec_module polygon phenos).
Proof.
  assert (forall (L : PyLib) geometry phenos x y,
            for_each phenos append_point ([], []) = Return (x, y) ->
            Def563.plot_points_region exec_module (GeoDataFrame geometry) phenos
            = ([], Raise (NameError "px"))
            /\ head (Def643.plot_points_region exec_module
                       (GeoDataFrame geometry) phenos).1
               = Some (GeoSeries_plot geometry)
            /\ (geoseries_plot geometry = Return tt ->
                forallb is_number (x ++ y) = true ->
                Def643.plot_points_region exec_module (GeoDataFrame geometry)
                  phenos
                = ([GeoSeries_plot geometry; axes_scatter x y "red"; axes_plot],
                   Return tt))) as Hframe.
  { intros L geometry phenos x y Hloop.
    rewrite Def563_run, Def643_run,
      (points_and_series_frame geometry phenos (x, y) Hloop). cbn [fst snd].
    split; [done|]. split.
    - destruct (geoseries_plot geometry); [|done].
      by destruct (ordinates _ _).
    - intros -> Hnum. by rewrite (ordinates_numbers _ _ Hnum). }
  split; [vm_compute; reflexivity|]. split; [vm_compute; reflexivity|].
  split; [|split; [|split; [|split; [|split]]]].
  - intros name Hname.
    assert (map_Forall (fun _ b => b <> Def 563) exec_module) as Hall
      by (apply map_Forall_to_list; vm_compute;
          repeat (constructor; [discriminate|]); constructor).
    by apply (Hall name _ Hname).
  - intros L. apply call_plot_points_region_run.
  - intros L polygon phenos. rewrite Def563_run.
    destruct (points_and_series polygon phenos); by eexists.
  - intros L polygon phenos e. rewrite Def563_run, Def643_run.
    destruct (points_and_series polygon phenos) as [[xy df]|e']; [|done].
    by intros [= <-].
  - exact Hframe.
  - intros L. exists (GeoDataFrame []), [].
    destruct (Hframe L [] [] [] [] eq_refl) as (-> & Hhead & _).
    intros Heq. rewrite <- Heq in Hhead. discriminate Hhead.
Qed.

Lemma plot_points_region_is_shadowed_witness :
  (@Def563.plot_points_region Sample.lib exec_module RegionExample.polygon
     RegionExample.phenos = ([], Raise (NameError "px"))
   /\ @Def643.plot_points_region Sample.lib exec_module RegionExample.polygon
        RegionExample.phenos
      = ([GeoSeries_plot [RegionExample.triangle];
          axes_scatter [JFloat (Q2Qc (-5595 # 100))]
            [JFloat (Q2Qc (-2920 # 100))] "red";
          axes_plot], Return tt))
  /\ @Def643.plot_points_region Sample.lib exec_module RegionExample.feature
       RegionExample.phenos = ([], Raise TypeError).
Proof.
  destruct plot_points_region_is_shadowed
    as (_ & _ & _ & _ & _ & Hbefore & Hframe & _).
  split.
  - destruct (Hframe Sample.lib [RegionExample.triangle] RegionExample.phenos
                [JFloat (Q2Qc (-5595 # 100))] [JFloat (Q2Qc (-2920 # 100))]
                eq_refl) as (Hfirst & _ & Hsecond).
    split; [exact Hfirst | by apply Hsecond].
  - apply (Hbefore Sample.lib RegionExample.feature RegionExample.phenos
             TypeError); [reflexivity | discriminate].
Defined.

(** * Further properties of the adapter *)

Section AdapterRuns.
Context `{PyLib}.

Lemma answer_run (field : string) (rq : Request) (srv : Server) :
  (send rq ≫= λ data, lift (Response_json data)
   ≫= λ data_json, lift (getitem data_json field)) srv
  = ([rq], answer field (srv rq)).
Proof.
  rewrite send_bind. unfold answer. destruct (srv rq) as [|data]; [done|].
  rewrite (lift_bind _ _ (fun data_json => getitem data_json field)); done.
Qed.

(** [get_phenometrics] in one step: the cube is read, then one request is
    sent and its reply unwrapped. *)
Lemma get_phenometrics_steps (url : string) (cube latitude longitude : json)
    (srv : Server) :
  get_phenometrics url cube latitude longitude srv
  = match read_cube cube with
    | Raise e => ([], Raise e)
    | Return fields =>
        let rq := phenometrics_request url fields latitude longitude in
        ([rq], answer "result" (srv rq))
    end.
Proof.
  unfold get_phenometrics, read_cube.
  destruct (getitem cube "collection") as [c|?]; [|done]. rewrite lift_return_bind.
  destruct (getitem cube "band") as [b|?]; [|done]. rewrite lift_return_bind.
  destruct (getitem cube "start_date") as [s|?]; [|done]. rewrite lift_return_bind.
  destruct (getitem cube "end_date") as [e|?]; [|done]. rewrite lift_return_bind.
  destruct (getitem cube "freq") as [f|?]; [|done]. rewrite lift_return_bind.
  cbn zeta. unfold requests_get. by rewrite answer_run.
Qed.

Lemma get_timeseries_region_steps (url : string) (cube geom : json)
    (srv : Server) :
  get_timeseries_region url cube geom srv
  = match read_cube cube with
    | Raise e => ([], Raise e)
    | Return fields =>
        let rq := region_request url "/timeseries" fields "geom" geom in
        ([rq], answer "result" (srv rq))
    end.
Proof.
  unfold get_timeseries_region, read_cube.
  destruct (getitem cube "collection") as [c|?]; [|done]. rewrite lift_return_bind.
  destruct (getitem cube "band") as [b|?]; [|done]. rewrite lift_return_bind.
  destruct (getitem cube "start_date") as [s|?]; [|done]. rewrite lift_return_bind.
  destruct (getitem cube "end_date") as [e|?]; [|done]. rewrite lift_return_bind.
  destruct (getitem cube "freq") as [f|?]; [|done]. rewrite lift_return_bind.
  cbn zeta. unfold requests_post. by rewrite answer_run.
Qed.

Lemma get_phenometrics_region_steps (url : string) (cube timeseries : json)
    (srv : Server) :
  get_phenometrics_region url cube timeseries srv
  = match read_cube cube with
    | Raise e => ([], Raise e)
    | Return fields =>
        let rq := region_request url "/phenometrics" fields "timeseries"
                    timeseries in
        ([rq], answer "result" (srv rq))
    end.
Proof.
  unfold get_phenometrics_region, read_cube.
  destruct (getitem cube "collection") as [c|?]; [|done]. rewrite lift_return_bind.
  destruct (getitem cube "band") as [b|?]; [|done]. rewrite lift_return_bind.
  destruct (getitem cube "start_date") as [s|?]; [|done]. rewrite lift_return_bind.
  destruct (getitem cube "end_date") as [e|?]; [|done]. rewrite lift_return_bind.
  destruct (getitem cube "freq") as [f|?]; [|done]. rewrite lift_return_bind.
  cbn zeta. unfold requests_post. by rewrite answer_run.
Qed.

End AdapterRuns.

Lemma read_cube_missing (m : gmap string json) (key : string) :
  List.find (fun k => bool_decide (m !! k = None)) cube_keys = Some key ->
  read_cube (JObj m) = Raise (KeyError key).
Proof.
  unfold read_cube, getitem, cube_keys. cbn [List.find].
  destruct (m !! "collection"); cbn; [|by intros [= <-]].
  destruct (m !! "band"); cbn; [|by intros [= <-]].
  destruct (m !! "start_date"); cbn; [|by intros [= <-]].
  destruct (m !! "end_date"); cbn; [|by intros [= <-]].
  destruct (m !! "freq"); cbn; [done|by intros [= <-]].
Qed.

Lemma read_cube_not_dict (cube : json) :
  (forall m, cube <> JObj m) -> read_cube cube = Raise TypeError.
Proof.
  intros Hcube. destruct cube; try done. by destruct (Hcube m).
Qed.

Section AdapterErrors.
Context `{PyLib}.

(** X1.  The cube is read before anything is sent.  When the cube is a dict
    that lacks one of collection, band, start_date, end_date, freq, the three
    operations that take a cube raise [KeyError] for the first missing key,
    in that order, and send no request; a cube that is not a dict gives
    [TypeError], again with no request. *)
Theorem missing_cube_key_stops_before_request (url : string)
    (latitude longitude geom timeseries : json) (srv : Server) :
  (forall (m : gmap string json) (key : string),
      List.find (fun k => bool_decide (m !! k = None)) cube_keys = Some key ->
      get_phenometrics url (JObj m) latitude longitude srv
      = ([], Raise (KeyError key))
      /\ get_timeseries_region url (JObj m) geom srv = ([], Raise (KeyError key))
      /\ get_phenometrics_region url (JObj m) timeseries srv
         = ([], Raise (KeyError key)))
  /\ (forall cube : json,
         (forall m, cube <> JObj m) ->
         get_phenometrics url cube latitude longitude srv = ([], Raise TypeError)
         /\ get_timeseries_region url cube geom srv = ([], Raise TypeError)
         /\ get_phenometrics_region url cube timeseries srv
            = ([], Raise TypeError)).
Proof.
  split.
  - intros m key Hkey.
    rewrite get_phenometrics_steps, get_timeseries_region_steps,
      get_phenometrics_region_steps, (read_cube_missing m key Hkey). done.
  - intros cube Hcube.
    rewrite get_phenometrics_steps, get_timeseries_region_steps,
      get_phenometrics_region_steps, (read_cube_not_dict cube Hcube). done.
Qed.

(** X2.  With a cube that has its five keys, [get_timeseries_region] sends
    one POST to the base URL followed by [/timeseries] whose JSON body has
    exactly the keys collection, band, start_date, end_date, freq, geom,
    holding the cube's entries and the geometry as given; and
    [get_phenometrics_region] does the same at [/phenometrics] with the key
    timeseries.  Each returns what the reply's [result] field holds. *)
Theorem region_operations_post_the_cube (url : string)
    (cube payload : json) (srv : Server) (c b s e f : json) :
  read_cube cube = Return (c, b, s, e, f) ->
  let posted (route key : string) (log : list Request) :=
    exists body : gmap string json,
      log = [{| req_method := POST; req_url := url +:+ route;
                req_params := []; req_json := Some (JObj body) |}]
      /\ dom body = {[ "collection"; "band"; "start_date"; "end_date"; "freq" ]}
                    ∪ {[ key ]}
      /\ body !! "collection" = Some c /\ body !! "band" = Some b
      /\ body !! "start_date" = Some s /\ body !! "end_date" = Some e
      /\ body !! "freq" = Some f /\ body !! key = Some payload in
  (posted "/timeseries" "geom" (get_timeseries_region url cube payload srv).1
   /\ (get_timeseries_region url cube payload srv).2
      = answer "result"
          (srv (region_request url "/timeseries" (c, b, s, e, f) "geom" payload)))
  /\ (posted "/phenometrics" "timeseries"
        (get_phenometrics_region url cube payload srv).1
      /\ (get_phenometrics_region url cube payload srv).2
         = answer "result"
             (srv (region_request url "/phenometrics" (c, b, s, e, f)
                     "timeseries" payload))).
Proof.
  intros Hcube posted.
  rewrite get_timeseries_region_steps, get_phenometrics_region_steps, Hcube.
  cbn [fst snd]. subst posted.
  split; (split; [|done]); eexists; (split; [reflexivity|]);
    (split; [rewrite dom_list_to_map_L; set_solver|]); repeat split; reflexivity.
Qed.

End AdapterErrors.

Lemma missing_cube_key_stops_before_request_witness :
  @get_phenometrics Sample.lib Example.wcpms_url BrokenCube.cube
    Example.latitude Example.longitude Example.service
  = ([], Raise (KeyError "band"))
  /\ get_timeseries_region Example.wcpms_url (JInt 5) BrokenCube.geom
       Example.service = ([], Raise TypeError).
Proof.
  destruct (@missing_cube_key_stops_before_request Sample.lib Example.wcpms_url
              Example.latitude Example.longitude BrokenCube.geom (JList [])
              Example.service) as [Hkey Htype].
  split.
  - apply (Hkey BrokenCube.cube_entries "band"). reflexivity.
  - apply (Htype (JInt 5)). discriminate.
Defined.

Lemma region_operations_post_the_cube_witness :
  (get_timeseries_region Example.wcpms_url Example.datacube BrokenCube.geom
     Example.service).2 = Return (JObj Example.pm)
  /\ exists body : gmap string json,
       (get_phenometrics_region Example.wcpms_url Example.datacube
          (JObj Example.pm) Example.service).1
       = [{| req_method := POST;
             req_url := Example.wcpms_url +:+ "/phenometrics";
             req_params := []; req_json := Some (JObj body) |}]
       /\ body !! "timeseries" = Some (JObj Example.pm).
Proof.
  split.
  - destruct (@region_operations_post_the_cube Example.wcpms_url
                Example.datacube BrokenCube.geom Example.service
                (JStr "S2-16D-2") (JStr "NDVI") (JStr "2021-01-01")
                (JStr "2021-12-31") (JStr "16D") eq_refl) as [[_ Hret] _].
    rewrite Hret. reflexivity.
  - destruct (@region_operations_post_the_cube Example.wcpms_url
                Example.datacube (JObj Example.pm) Example.service
                (JStr "S2-16D-2") (JStr "NDVI") (JStr "2021-01-01")
                (JStr "2021-12-31") (JStr "16D") eq_refl)
      as [_ [(body & Hlog & _ & _ & _ & _ & _ & _ & Hpayload) _]].
    exists body. split; assumption.
Defined.







Section AdapterExceptions.
Context `{PyLib}.




(** X5.  A reply whose body decodes to JSON but does not carry the expected
    field is not reported as a decode error: a JSON object without the field
    gives [KeyError] for that field ([result], [coverages], [description]),
    and a JSON value that is not an object (a list, a string, a number,
    null) gives [TypeError]. *)
Theorem body_without_field_raises_key_error (url : string)
    (cube latitude longitude geom timeseries : json) (srv : Server)
    (fields : json * json * json * json * json) (body : json) :
  read_cube cube = Return fields ->
  (forall rq, exists status,
      srv rq = Responded {| status_code := status; json_doc := Some body |}) ->
  let outcomes :=
    [ ((get_phenometrics url cube latitude longitude srv).2, "result");
      ((get_collections url srv).2, "coverages");
      ((get_description url srv).2, "description");
      ((get_timeseries_region url cube geom srv).2, "result");
      ((get_phenometrics_region url cube timeseries srv).2, "result") ] in
  (forall m, body = JObj m ->
             Forall (fun o => m !! o.2 = None -> o.1 = Raise (KeyError o.2))
               outcomes)
  /\ ((forall m, body <> JObj m) ->
      Forall (fun o => o.1 = Raise TypeError) outcomes).
Proof.
  intros Hcube Hsrv outcomes. subst outcomes.
  rewrite get_phenometrics_steps, get_collections_run, get_description_run,
    get_timeseries_region_steps, get_phenometrics_region_steps, Hcube.
  cbn [fst snd].
  destruct (Hsrv (phenometrics_request url fields latitude longitude)) as [? ->].
  destruct (Hsrv (list_collections_request url)) as [? ->].
  destruct (Hsrv (describe_request url)) as [? ->].
  destruct (Hsrv (region_request url "/timeseries" fields "geom" geom)) as [? ->].
  destruct (Hsrv (region_request url "/phenometrics" fields "timeseries"
                    timeseries)) as [? ->].
  unfold answer, Response_json. cbn [json_doc]. split.
  - intros m ->. repeat constructor; cbn; by intros ->.
  - intros Hbody. destruct body; try (by repeat constructor).
    by destruct (Hbody m).
Qed.

End AdapterExceptions.


Lemma body_without_field_raises_key_error_witness :
  (get_collections Example.wcpms_url BrokenCube.empty_reply).2
  = Raise (KeyError "coverages")
  /\ (get_collections Example.wcpms_url (json_server 200 (JList []))).2
     = Raise TypeError.
Proof.
  split.
  - destruct (@body_without_field_raises_key_error Sample.lib Example.wcpms_url
                Example.datacube Example.latitude Example.longitude
                BrokenCube.geom (JList []) BrokenCube.empty_reply _ (JObj ∅)
                eq_refl (fun _ => ex_intro _ 200%Z eq_refl)) as [Hkey _].
    specialize (Hkey ∅ eq_refl).
    apply Forall_cons in Hkey as [_ Hkey]. apply Forall_cons in Hkey as [Hkey _].
    by apply Hkey.
  - destruct (@body_without_field_raises_key_error Sample.lib Example.wcpms_url
                Example.datacube Example.latitude Example.longitude
                BrokenCube.geom (JList []) (json_server 200 (JList [])) _
                (JList []) eq_refl (fun _ => ex_intro _ 200%Z eq_refl))
      as [_ Htype].
    assert (forall m, JList [] <> JObj m) as Hlist by done.
    specialize (Htype Hlist).
    apply Forall_cons in Htype as [_ Htype].
    apply Forall_cons in Htype as [Htype _]. exact Htype.
Defined.

(** * Further properties of [get_description] *)

Section DescribeMore.
Context `{PyLib}.

(** X7.  When the reply is a JSON object whose [description] is a list,
    [get_description] returns that list exactly when every item is an object
    with the six keys and text under Code, Name, Description and Method; in
    particular an empty list is returned as it is.  Otherwise it raises. *)
Theorem get_description_returns_iff_items_complete (url : string)
    (srv : Server) (data : Response) (m : gmap string json)
    (items : list json) :
  srv (describe_request url) = Responded data ->
  json_doc data = Some (JObj m) ->
  m !! "description" = Some (JList items) ->
  ((get_description url srv).2 = Return (JList items)
   <-> Forall (fun item => complete_item item = true) items)
  /\ (forall v, (get_description url srv).2 = Return v -> v = JList items)
  /\ (items = [] -> (get_description url srv).2 = Return (JList [])).
Proof.
  intros Hsrv Hdoc Hd. rewrite get_description_run, Hsrv. cbn [snd].
  unfold Response_json. rewrite Hdoc. simpl. rewrite Hd. simpl.
  assert (Forall (fun item => complete_item item = true) items ->
          exists t, for_each items html_table_row html_table_header = Return t)
    as Hcomplete.
  { intros Hitems. apply for_each_returns.
    eapply Forall_impl; [exact Hitems|]. intros item Hitem.
    apply andb_prop in Hitem as [Htext Hkeys]. apply negb_true_iff in Hkeys.
    by apply html_table_row_returns. }
  split; [split|split].
  - destruct (for_each items html_table_row html_table_header) as [t|e] eqn:Ht;
      [|done].
    intros _. by eapply for_each_row_Return.
  - intros Hitems. destruct (Hcomplete Hitems) as [t ->]. done.
  - intros v.
    destruct (for_each items html_table_row html_table_header); [|done].
    simpl. congruence.
  - intros ->. done.
Qed.

End DescribeMore.

Lemma html_table_row_same_outcome (L1 L2 : PyLib) (t1 t2 : string)
    (item : json) :
  same_outcome (@html_table_row L1 t1 item) (@html_table_row L2 t2 item).
Proof.
  unfold html_table_row, getitem.
  destruct item as [| | | | |?|o]; try done.
  destruct (o !! "Code") as [[]|]; try done.
  destruct (o !! "Name") as [[]|]; try done.
  destruct (o !! "Description") as [[]|]; try done.
  destruct (o !! "Method") as [[]|]; try done.
  destruct (o !! "Value"); try done.
  destruct (o !! "Time"); done.
Qed.

Lemma for_each_row_same_outcome (L1 L2 : PyLib) (items : list json)
    (t1 t2 : string) :
  same_outcome (for_each items (@html_table_row L1) t1)
    (for_each items (@html_table_row L2) t2).
Proof.
  revert t1 t2. induction items as [|item items IH]; intros t1 t2; [done|].
  simpl. pose proof (html_table_row_same_outcome L1 L2 t1 t2 item) as Hitem.
  destruct (@html_table_row L1 t1 item), (@html_table_row L2 t2 item);
    try done. apply IH.
Qed.

(** X8.  The table [get_description] builds never reaches the caller, and
    neither does anything that depends on how values are printed: with two
    libraries that render [str(v)] differently, the requests and the outcome
    of [get_description] are the same. *)
Theorem get_description_does_not_depend_on_str (L1 L2 : PyLib) (url : string)
    (srv : Server) :
  @get_description L1 url srv = @get_description L2 url srv.
Proof.
  rewrite !get_description_run. f_equal.
  destruct (srv (describe_request url)) as [|data]; [done|].
  destruct (Response_json data) as [j|]; [|done]. simpl.
  destruct (getitem j "description") as [d|]; [|done]. simpl.
  destruct (iterate d) as [items|]; [|done]. simpl.
  pose proof (for_each_row_same_outcome L1 L2 items html_table_header
                html_table_header) as Hrows.
  destruct (for_each items (@html_table_row L1) html_table_header),
    (for_each items (@html_table_row L2) html_table_header); try done.
  simpl in Hrows. by subst.
Qed.

Lemma get_description_returns_iff_items_complete_witness :
  (@get_description Sample.lib Example.wcpms_url
     (DescribeExample.service [])).2 = Return (JList [])
  /\ ~ (@get_description Sample.lib Example.wcpms_url
          (DescribeExample.service [DescribeExample.broken])).2
       = Return (JList [DescribeExample.broken]).
Proof.
  split.
  - destruct (@get_description_returns_iff_items_complete Sample.lib
                Example.wcpms_url (DescribeExample.service []) _ _ []
                eq_refl eq_refl eq_refl) as (_ & _ & Hempty).
    by apply Hempty.
  - destruct (@get_description_returns_iff_items_complete Sample.lib
                Example.wcpms_url
                (DescribeExample.service [DescribeExample.broken]) _ _
                [DescribeExample.broken] eq_refl eq_refl eq_refl)
      as ([Hiff _] & _ & _).
    intros Hret. apply Hiff in Hret. apply Forall_cons in Hret as [Hitem _].
    vm_compute in Hitem. discriminate Hitem.
Defined.

(** * Further properties of the chart builders *)

Section BuilderErrors.
Context `{PyLib}.

(** X9.  None of the four chart builders checks the length of the series
    before smoothing it: with fewer than three values each of them raises
    [ValueError], whatever the cube and the record hold. *)
Theorem builders_raise_on_short_series (cube : json) (ds_phenos : PointPhenos)
    (region : RegionPhenos) (layout : Qc * Qc) (attr : list json) :
  ((length (values (timeseries ds_phenos)) < 3)%nat ->
   plot_phenometrics cube ds_phenos = Raise ValueError
   /\ plot_phenometrics_matplotlib cube ds_phenos layout attr = Raise ValueError
   /\ plot_phenometrics_seaborn cube ds_phenos layout attr = Raise ValueError)
  /\ ((length (region_timeseries region) < 3)%nat ->
      plot_advanced_phenometrics cube region = Raise ValueError).
Proof.
  split; intros Hshort.
  - unfold plot_phenometrics, plot_phenometrics_matplotlib,
      plot_phenometrics_seaborn.
    by rewrite (smooth_timeseries_short _ Hshort).
  - unfold plot_advanced_phenometrics.
    by rewrite (smooth_timeseries_short _ Hshort).
Qed.

End BuilderErrors.

Lemma builders_raise_on_short_series_witness :
  @plot_phenometrics Sample.lib Example.datacube SeriesExample.two_points
  = Raise ValueError
  /\ @plot_advanced_phenometrics Sample.lib Example.datacube
       SeriesExample.two_pixels = Raise ValueError.
Proof.
  destruct (@builders_raise_on_short_series Sample.lib Example.datacube
              SeriesExample.two_points SeriesExample.two_pixels
              ChartExample.layout ChartExample.attr) as [Hpoint Hregion].
  split.
  - apply Hpoint. simpl. lia.
  - apply Hregion. simpl. lia.
Defined.

Section PointChart.
Context `{PyLib}.

(** X10.  [plot_phenometrics] returns exactly when the series has at least
    three values (so that smoothing returns), the cube's band is text, the
    record holds text under sos_t, pos_t, eos_t, vos_t and some value under
    sos_v, pos_v, eos_v, vos_v, and the date of pos_t parses to a day from
    which 5 days can be subtracted and added.  The dates of sos_t, eos_t and
    vos_t are used as text and need not parse.  The figure is then the nine
    layers LIOS, band, Smooth band, LOS, AOS, SOS, POS, EOS, VOS. *)
Theorem plot_phenometrics_returns_iff (cube : json) (ds_phenos : PointPhenos)
    (fig : Figure) :
  let phen := phenometrics ds_phenos in
  let ts := timeseries ds_phenos in
  plot_phenometrics cube ds_phenos = Return fig
  <-> exists (band st pt et vt : string) (sv pv ev vv : json)
             (y_new : list Qc) (d : Z),
        ((3 <= length (values ts))%nat
         /\ smooth_timeseries (values ts) "savitsky" 3 1 = Return y_new)
        /\ getitem cube "band" = Return (JStr band)
        /\ (getitem phen "sos_t" = Return (JStr st)
            /\ getitem phen "pos_t" = Return (JStr pt)
            /\ getitem phen "eos_t" = Return (JStr et)
            /\ getitem phen "vos_t" = Return (JStr vt))
        /\ (getitem phen "sos_v" = Return sv /\ getitem phen "pos_v" = Return pv
            /\ getitem phen "eos_v" = Return ev
            /\ getitem phen "vos_v" = Return vv)
        /\ (strptime_ymd (date_part pt) = Return d /\ within_range d 5)
        /\ fig = point_chart band (timeline ts) (values ts) y_new
                   (date_part st) (date_part pt) (date_part et) (date_part vt)
                   sv pv ev vv.
Proof.
  intros phen ts. subst phen ts. split.
  - intros Hfig. pose proof Hfig as Hrun.
    unfold plot_phenometrics in Hrun. returned Hrun. clear Hrun.
    match goal with
    | Hs : smooth_timeseries _ _ _ _ = Return _ |- _ =>
        pose proof (smooth_timeseries_Return _ _ Hs) as [Hlong _];
        rename Hs into Hy
    end.
    match goal with
    | Hm : add_days ?d (-5) = Return _, Hp : add_days ?d' 5 = Return _,
      Hd : day_date _ "pos_t" = Return ?d,
      Hd' : day_date _ "pos_t" = Return ?d' |- _ =>
        assert (d' = d) as -> by congruence;
        pose proof (add_days_Return_within d 5 _ _ ltac:(lia) Hm Hp) as Hrange;
        apply day_date_Return in Hd as (pt & Hpt & Hparse)
    end.
    repeat match goal with
      | Hm : marker_trace _ _ _ _ _ = Return _ |- _ =>
          apply marker_trace_fields in Hm as (? & ? & ? & ?)
      | Hs : series_traces _ _ _ _ = Return _ |- _ =>
          apply series_traces_band in Hs as (band & Hband)
      end.
    match goal with
    | Hst : getitem _ "sos_t" = Return (JStr ?st),
      Het : getitem _ "eos_t" = Return (JStr ?et),
      Hvt : getitem _ "vos_t" = Return (JStr ?vt),
      Hsv : getitem _ "sos_v" = Return ?sv,
      Hpv : getitem _ "pos_v" = Return ?pv,
      Hev : getitem _ "eos_v" = Return ?ev,
      Hvv : getitem _ "vos_v" = Return ?vv |- _ =>
        exists band, st, pt, et, vt, sv, pv, ev, vv;
        pose proof (plot_phenometrics_computes cube ds_phenos band st pt et vt
                      sv pv ev vv _ _ Hy Hband Hst Hpt Het Hvt Hsv Hpv Hev Hvv
                      Hparse Hrange) as Hchart
    end.
    eexists _, _. repeat split; try eassumption; try apply Hrange. congruence.
  - intros (band & st & pt & et & vt & sv & pv & ev & vv & y_new & d
            & [_ Hy] & Hband & (Hst & Hpt & Het & Hvt) & (Hsv & Hpv & Hev & Hvv)
            & (Hd & Hrange) & ->).
    by apply (plot_phenometrics_computes cube ds_phenos band st pt et vt
                sv pv ev vv y_new d).
Qed.

End PointChart.

Section RegionChart.
Context `{PyLib}.

(** X11.  [plot_advanced_phenometrics] returns exactly when the series has at
    least three values, the cube's band is text, the record holds the eight
    entries with text timestamps, and the dates of pos_t, sos_t and eos_t
    parse to days that leave room for 5, 16 and 16 days on either side.  The
    figure has no LOS segment, and it cuts the timeline and the raw series
    down to their first 21 points while the smoothed series keeps all its
    values: past 21 points the smoothed layer has more values than dates. *)
Theorem plot_advanced_phenometrics_returns_iff (cube : json)
    (ds_phenos : RegionPhenos) (fig : Figure) :
  let phen := region_phenometrics ds_phenos in
  let ts := region_timeseries ds_phenos in
  plot_advanced_phenometrics cube ds_phenos = Return fig
  <-> exists (band st pt et vt : string) (sv pv ev vv : json)
             (y_new : list Qc) (d sos_time eos_time : Z),
        ((3 <= length ts)%nat
         /\ smooth_timeseries ts "savitsky" 3 1 = Return y_new
         /\ length y_new = length ts)
        /\ getitem cube "band" = Return (JStr band)
        /\ (getitem phen "sos_t" = Return (JStr st)
            /\ getitem phen "pos_t" = Return (JStr pt)
            /\ getitem phen "eos_t" = Return (JStr et)
            /\ getitem phen "vos_t" = Return (JStr vt))
        /\ (getitem phen "sos_v" = Return sv /\ getitem phen "pos_v" = Return pv
            /\ getitem phen "eos_v" = Return ev
            /\ getitem phen "vos_v" = Return vv)
        /\ (strptime_ymd (date_part pt) = Return d /\ within_range d 5)
        /\ (strptime_ymd (date_part st) = Return sos_time
            /\ within_range sos_time 16)
        /\ (strptime_ymd (date_part et) = Return eos_time
            /\ within_range eos_time 16)
        /\ fig = region_chart band (region_timeline ds_phenos) ts y_new
                   (date_part st) (date_part pt) (date_part et) (date_part vt)
                   sv pv ev vv sos_time eos_time.
Proof.
  intros phen ts. subst phen ts. split.
  - intros Hfig. pose proof Hfig as Hrun.
    unfold plot_advanced_phenometrics in Hrun. returned Hrun. clear Hrun.
    match goal with
    | Hs : smooth_timeseries _ _ _ _ = Return _ |- _ =>
        pose proof (smooth_timeseries_Return _ _ Hs) as [Hlong Hlen];
        rename Hs into Hy
    end.
    match goal with
    | Hm : add_days ?d (-5) = Return _, Hp : add_days ?d' 5 = Return _,
      Hd : day_date _ "pos_t" = Return ?d,
      Hd' : day_date _ "pos_t" = Return ?d' |- _ =>
        assert (d' = d) as -> by congruence;
        pose proof (add_days_Return_within d 5 _ _ ltac:(lia) Hm Hp) as Hrange;
        apply day_date_Return in Hd as (pt & Hpt & Hparse)
    end.
    match goal with
    | Hm : add_days ?s (-16) = Return _, Hp : add_days ?s 16 = Return _,
      Hm' : add_days ?e (-16) = Return _, Hp' : add_days ?e 16 = Return _,
      Hs : day_date _ "sos_t" = Return ?s,
      He : day_date _ "eos_t" = Return ?e |- _ =>
        pose proof (add_days_Return_within s 16 _ _ ltac:(lia) Hm Hp) as Hsr;
        pose proof (add_days_Return_within e 16 _ _ ltac:(lia) Hm' Hp') as Her;
        apply day_date_Return in Hs as (st & Hst & Hsparse);
        apply day_date_Return in He as (et & Het & Heparse)
    end.
    repeat match goal with
      | Hm : marker_trace _ _ _ _ _ = Return _ |- _ =>
          apply marker_trace_fields in Hm as (? & ? & ? & ?)
      | Hs : series_traces _ _ _ _ = Return _ |- _ =>
          apply series_traces_band in Hs as (band & Hband)
      end.
    match goal with
    | Hvt : getitem _ "vos_t" = Return (JStr ?vt),
      Hsv : getitem _ "sos_v" = Return ?sv,
      Hpv : getitem _ "pos_v" = Return ?pv,
      Hev : getitem _ "eos_v" = Return ?ev,
      Hvv : getitem _ "vos_v" = Return ?vv |- _ =>
        exists band, st, pt, et, vt, sv, pv, ev, vv;
        pose proof (plot_advanced_phenometrics_computes cube ds_phenos band
                      st pt et vt sv pv ev vv _ _ _ _ Hy Hband Hst Hpt Het Hvt
                      Hsv Hpv Hev Hvv Hparse Hrange Hsparse Hsr Heparse Her)
          as Hchart
    end.
    eexists _, _, _, _.
    split; [split; [exact Hlong | split; [exact Hy | exact Hlen]]|].
    split; [exact Hband|]. split; [done|]. split; [done|].
    split; [done|]. split; [done|]. split; [done|]. congruence.
  - intros (band & st & pt & et & vt & sv & pv & ev & vv & y_new & d & s & e
            & (_ & Hy & _) & Hband & (Hst & Hpt & Het & Hvt)
            & (Hsv & Hpv & Hev & Hvv) & (Hd & Hrange) & (Hs & Hsr) & (He & Her)
            & ->).
    by apply (plot_advanced_phenometrics_computes cube ds_phenos band st pt et
                vt sv pv ev vv y_new d s e).
Qed.

End RegionChart.

Section MatplotlibChart.
Context `{PyLib}.

(** X12.  [plot_phenometrics_matplotlib] and [plot_phenometrics_seaborn]
    ask the same of their input: a series of at least three values, a
    timeline whose entries parse and that is as long as the series, a record
    with the four values and with dates under sos_t, pos_t, eos_t and vos_t
    that parse, a cube with a band, a [layout] the library makes a figure
    of, and at least two entries in [attr].  Neither returns without these,
    so with the default, empty [attr] neither returns at all; and with
    these, a band that is text and numbers for the four values both
    return.  They draw the same nine layers, except that
    seaborn draws the AOS segment from the axis up.  matplotlib never
    returns when one of the four values is [None]: it refuses a marker
    there. *)
Theorem matplotlib_and_seaborn_charts (cube : json)
    (ds_phenos : PointPhenos) (layout : Qc * Qc) (attr : list json)
    (fig : Figure) :
  let ts := timeseries ds_phenos in
  let accepted (band : json) (dates : list Z) (s : Season) (y_new : list Qc) :=
    ((3 <= length (values ts))%nat
     /\ smooth_timeseries (values ts) "savitsky" 3 1 = Return y_new)
    /\ timeline_dates (timeline ts) = Return dates
    /\ read_season (phenometrics ds_phenos) = Return s
    /\ getitem cube "band" = Return band
    /\ length (timeline ts) = length (values ts)
    /\ plt_figure layout = Return tt
    /\ (2 <= length attr)%nat in
  (plot_phenometrics_matplotlib cube ds_phenos layout attr = Return fig ->
   exists band dates s y_new,
     accepted band dates s y_new
     /\ Forall (fun v => v <> JNull) (season_values s)
     /\ fig = matplotlib_chart band dates (values ts) y_new s)
  /\ (plot_phenometrics_seaborn cube ds_phenos layout attr = Return fig ->
      exists band dates s y_new,
        accepted band dates s y_new
        /\ fig = seaborn_chart band dates (values ts) y_new s)
  /\ (forall (band : string) dates s y_new,
         accepted (JStr band) dates s y_new ->
         forallb is_number (season_values s) = true ->
         plot_phenometrics_matplotlib cube ds_phenos layout attr
         = Return (matplotlib_chart (JStr band) dates (values ts) y_new s)
         /\ plot_phenometrics_seaborn cube ds_phenos layout attr
            = Return (seaborn_chart (JStr band) dates (values ts) y_new s))
  /\ (attr = [] ->
      plot_phenometrics_matplotlib cube ds_phenos layout attr <> Return fig
      /\ plot_phenometrics_seaborn cube ds_phenos layout attr <> Return fig).
Proof.
  intros ts accepted. subst ts accepted. cbn beta.
  split; [|split; [|split]].
  - intros Hfig.
    apply plot_phenometrics_matplotlib_Return in Hfig
      as (band & dates & s & y_new & (Hy & Hd & Hs & Hb)
          & (Hlen & Hfigure & Hattr) & Hnone & ->).
    exists band, dates, s, y_new.
    pose proof (smooth_timeseries_Return _ _ Hy) as [Hlong _]. done.
  - intros Hfig.
    apply plot_phenometrics_seaborn_Return in Hfig
      as (band & dates & s & y_new & (Hy & Hd & Hs & Hb)
          & (Hlen & Hfigure & Hattr) & ->).
    exists band, dates, s, y_new.
    pose proof (smooth_timeseries_Return _ _ Hy) as [Hlong _]. done.
  - intros band dates s y_new ([_ Hy] & Hd & Hs & Hb & Hlen & Hfigure & Hattr)
      Hnum.
    by apply matplotlib_and_seaborn_compute.
  - intros ->. split; intros Hfig.
    + apply plot_phenometrics_matplotlib_Return in Hfig
        as (? & ? & ? & ? & _ & (_ & _ & Hattr) & _). simpl in Hattr. lia.
    + apply plot_phenometrics_seaborn_Return in Hfig
        as (? & ? & ? & ? & _ & (_ & _ & Hattr) & _). simpl in Hattr. lia.
Qed.

End MatplotlibChart.

(** * Further properties: regions, cubes and query strings *)

Lemma for_each_append_point (phenos : list json) (x0 y0 x y : list json) :
  for_each phenos append_point (x0, y0) = Return (x, y) ->
  exists xs ys,
    x = x0 ++ xs /\ y = y0 ++ ys
    /\ Forall2 (fun p c => coordinate 0 p = Return c) phenos xs
    /\ Forall2 (fun p c => coordinate 1 p = Return c) phenos ys.
Proof.
  revert x0 y0. induction phenos as [|p phenos IH]; intros x0 y0; simpl.
  - intros [= <- <-]. exists [], []. by rewrite !app_nil_r.
  - intros Hloop. apply bind_Return in Hloop as ([x1 y1] & Hp & Hloop).
    unfold append_point in Hp.
    apply bind_Return in Hp as (pt & Hpt & Hp).
    apply bind_Return in Hp as (px & Hpx & Hp).
    apply bind_Return in Hp as (pt' & Hpt' & Hp).
    apply bind_Return in Hp as (py & Hpy & Hp).
    cbn in Hp. injection Hp as <- <-.
    apply IH in Hloop as (xs & ys & -> & -> & Hxs & Hys).
    exists (px :: xs), (py :: ys). rewrite <- !app_assoc.
    repeat split; try done; constructor; try done; unfold coordinate.
    + by rewrite Hpt.
    + by rewrite Hpt'.
Qed.

Lemma append_point_raises (p : json) (xy : list json * list json) :
  (exists e, coordinate 0 p = Raise e) \/ (exists e, coordinate 1 p = Raise e) ->
  exists e, append_point xy p = Raise e.
Proof.
  unfold coordinate, append_point. intros Hp.
  destruct (getitem p "point") as [pt|e]; [|by exists e]. simpl in *.
  destruct (getindex pt 0) as [px|e]; [|by exists e]. simpl.
  destruct (getindex pt 1) as [py|e]; [|by exists e].
  destruct Hp as [[e He]|[e He]]; discriminate He.
Qed.

Lemma for_each_append_point_computes (phenos : list json)
    (x0 y0 xs ys : list json) :
  Forall2 (fun p c => coordinate 0 p = Return c) phenos xs ->
  Forall2 (fun p c => coordinate 1 p = Return c) phenos ys ->
  for_each phenos append_point (x0, y0) = Return (x0 ++ xs, y0 ++ ys).
Proof.
  intros Hxs. revert x0 y0 ys.
  induction Hxs as [|p x phenos xs Hx _ IH]; intros x0 y0 ys Hys.
  - apply Forall2_nil_inv_l in Hys as ->. by rewrite !app_nil_r.
  - apply Forall2_cons_inv_l in Hys as (y & ys' & Hy & Hys & ->).
    simpl. unfold append_point. unfold coordinate in Hx, Hy.
    destruct (getitem p "point") as [point|]; [|done]. simpl in *.
    rewrite Hx, Hy. simpl. rewrite (IH _ _ _ Hys), <- !app_assoc. done.
Qed.

Section RegionPoints.
Context `{PyLib}.

(** X13.  When the call [plot_points_region(polygon, phenos)] returns, it
    has made three drawing calls: it has plotted the geometries of the
    polygon and scattered, in red, one point per pixel in the order of
    [phenos], the first coordinates of the pixels' [point] as x and the
    second as y.  A pixel without a [point], or with a [point] of fewer
    than two coordinates, makes the call raise before anything is drawn.
    On a frame that geopandas draws, with numbers for the coordinates of
    every pixel, the call does return. *)
Theorem plot_points_region_scatters_every_pixel (polygon : Polygon)
    (phenos : list json) :
  (forall drawings,
      call_plot_points_region exec_module polygon phenos
      = (drawings, Return tt) ->
      exists geometry df xs ys,
        polygon_geometry polygon = Return geometry
        /\ GeoSeries geometry = Return df
        /\ drawings = [GeoSeries_plot df; axes_scatter xs ys "red"; axes_plot]
        /\ Forall2 (fun p c => coordinate 0 p = Return c) phenos xs
        /\ Forall2 (fun p c => coordinate 1 p = Return c) phenos ys
        /\ length xs = length phenos /\ length ys = length phenos)
  /\ (forall p,
         p ∈ phenos ->
         (exists e, coordinate 0 p = Raise e)
         \/ (exists e, coordinate 1 p = Raise e) ->
         exists e,
           call_plot_points_region exec_module polygon phenos = ([], Raise e))
  /\ (forall geometry xs ys,
         polygon = GeoDataFrame geometry ->
         Forall2 (fun p c => coordinate 0 p = Return c) phenos xs ->
         Forall2 (fun p c => coordinate 1 p = Return c) phenos ys ->
         geoseries_plot geometry = Return tt ->
         forallb is_number (xs ++ ys) = true ->
         call_plot_points_region exec_module polygon phenos
         = ([GeoSeries_plot geometry; axes_scatter xs ys "red"; axes_plot],
            Return tt)).
Proof.
  rewrite call_plot_points_region_run, Def643_run. unfold points_and_series.
  split; [|split].
  - intros drawings Hdraw.
    destruct (for_each phenos append_point ([], [])) as [[x y]|] eqn:Hloop;
      [|done].
    simpl in Hdraw.
    destruct (polygon_geometry polygon) as [geometry|] eqn:Hgeometry; [|done].
    simpl in Hdraw. destruct (GeoSeries geometry) as [df|] eqn:Hdf; [|done].
    simpl in Hdraw. destruct (geoseries_plot df); [|done].
    destruct (ordinates _ _); [|done]. injection Hdraw as <-.
    apply for_each_append_point in Hloop as (xs & ys & -> & -> & Hxs & Hys).
    exists geometry, df, xs, ys. repeat split; try done.
    + symmetry. by eapply Forall2_length.
    + symmetry. by eapply Forall2_length.
  - intros p Hp Hbad.
    destruct (for_each_raises append_point phenos p Hp
                (fun xy => append_point_raises p xy Hbad) ([], []))
      as [e ->].
    by exists e.
  - intros geometry xs ys -> Hxs Hys Hplot Hnum.
    rewrite (for_each_append_point_computes phenos [] [] xs ys Hxs Hys).
    cbn. by rewrite Hplot, (ordinates_numbers _ _ Hnum).
Qed.

End RegionPoints.

Section CubeQuery.
Context `{PyLib}.

(** X15.  A cube built by [cube_query] is always accepted: it has exactly
    the five keys, and [get_phenometrics], [get_timeseries_region] and
    [get_phenometrics_region] read it without error and send their one
    request carrying the five arguments, each under its own key although
    [cube_query] takes them in another order (band last). *)
Theorem cube_query_is_accepted (url : string)
    (collection start_date end_date freq band : json)
    (latitude longitude geom timeseries : json) (srv : Server) :
  let cube := cube_query collection start_date end_date freq band in
  let fields := (collection, band, start_date, end_date, freq) in
  (exists entries : gmap string json,
      cube = JObj entries
      /\ dom entries = list_to_set cube_keys)
  /\ read_cube cube = Return fields
  /\ (get_phenometrics url cube latitude longitude srv).1
     = [phenometrics_request url fields latitude longitude]
  /\ (get_timeseries_region url cube geom srv).1
     = [region_request url "/timeseries" fields "geom" geom]
  /\ (get_phenometrics_region url cube timeseries srv).1
     = [region_request url "/phenometrics" fields "timeseries" timeseries].
Proof.
  intros cube fields.
  assert (read_cube cube = Return fields) as Hcube by reflexivity.
  split; [|split; [done|]].
  - eexists. split; [reflexivity|]. rewrite dom_list_to_map_L. reflexivity.
  - by rewrite get_phenometrics_steps, get_timeseries_region_steps,
      get_phenometrics_region_steps, Hcube.
Qed.

Lemma all_chars_app (P : ascii -> bool) (a b : string) :
  all_chars P (a +:+ b) = all_chars P a && all_chars P b.
Proof.
  induction a as [|c a IH]; simpl; [done|]. by rewrite IH, andb_assoc.
Qed.

Lemma quote_byte_url_safe (c : ascii) : all_chars url_safe (quote_byte c) = true.
Proof. destruct c as [[] [] [] [] [] [] [] []]; vm_compute; reflexivity. Qed.

Lemma quote_plus_url_safe (s : string) : all_chars url_safe (quote_plus s) = true.
Proof.
  induction s as [|c s IH]; simpl; [done|].
  by rewrite all_chars_app, quote_byte_url_safe, IH.
Qed.

Lemma urlencode_url_safe (query : list (string * json)) :
  all_chars url_safe (urlencode query) = true.
Proof.
  unfold urlencode. induction query as [|kv [|kv' query] IH]; [done| |].
  - simpl. by rewrite !all_chars_app, !quote_plus_url_safe.
  - change (all_chars url_safe
              ((quote_plus kv.1 +:+ "=" +:+ quote_plus (str kv.2)) +:+ "&" +:+
               join "&" ((λ kv, quote_plus kv.1 +:+ "=" +:+ quote_plus (str kv.2))
                           <$> kv' :: query)) = true).
    rewrite !all_chars_app, !quote_plus_url_safe, IH. reflexivity.
Qed.

(** X16.  Whatever text the cube, the latitude and the longitude hold, the
    query string [get_phenometrics] sends is made of unreserved characters
    (letters, digits, [_ . - ~]) and of [+ % & =] only: no space, no [#],
    no [?], no [/] and no byte above 127 reaches the URL unescaped. *)
Theorem get_phenometrics_query_is_url_safe (url : string)
    (cube latitude longitude : json) (srv : Server) (rq : Request) :
  rq ∈ (get_phenometrics url cube latitude longitude srv).1 ->
  exists qs, req_url rq = url +:+ "/phenometrics?" +:+ qs
             /\ all_chars url_safe qs = true.
Proof.
  rewrite get_phenometrics_steps.
  destruct (read_cube cube) as [[[[[c b] s] e] f]|]; cbn [fst].
  - intros ->%list_elem_of_singleton. eexists. split; [reflexivity|].
    apply urlencode_url_safe.
  - by intros ?%elem_of_nil.
Qed.

End CubeQuery.

Lemma plot_phenometrics_returns_iff_witness :
  exists y_new,
    @plot_phenometrics Sample.lib Example.datacube ChartExample.point
    = Return (point_chart "NDVI" (timeline ChartExample.series)
                (values ChartExample.series) y_new "2021-01-02" "2021-04-01"
                "2021-07-13" "2021-12-20" (JFloat (Q2Qc 7649))
                (JFloat (Q2Qc 9000)) (JFloat (Q2Qc 5489))
                (JFloat (Q2Qc (481733 # 100)))).
Proof.
  eexists.
  apply (@plot_phenometrics_returns_iff Sample.lib Example.datacube
           ChartExample.point).
  exists "NDVI", "2021-01-02", "2021-04-01", "2021-07-13", "2021-12-20",
    (JFloat (Q2Qc 7649)), (JFloat (Q2Qc 9000)), (JFloat (Q2Qc 5489)),
    (JFloat (Q2Qc (481733 # 100))).
  eexists _, 737881%Z.
  split; [split; [simpl; lia | vm_compute; reflexivity]|].
  split; [reflexivity|]. split; [done|]. split; [done|].
  split; [split; [reflexivity | split; vm_compute; discriminate]|].
  reflexivity.
Defined.

Lemma plot_advanced_phenometrics_returns_iff_witness :
  exists fig,
    @plot_advanced_phenometrics Sample.lib Example.datacube ChartExample.pixel
    = Return fig
    /\ length fig = 10%nat.
Proof.
  eexists. split; [vm_compute; reflexivity|].
  match goal with
  | |- length ?fig = _ =>
      destruct (proj1 (@plot_advanced_phenometrics_returns_iff Sample.lib
                         Example.datacube ChartExample.pixel fig))
        as (? & ? & ? & ? & ? & ? & ? & ? & ? & ? & ? & ? & ? & _ & _ & _ & _
            & _ & _ & _ & Hfig)
  end.
  - vm_compute. reflexivity.
  - rewrite Hfig. reflexivity.
Defined.

Lemma matplotlib_and_seaborn_charts_witness :
  (exists fig,
      @plot_phenometrics_matplotlib Sample.lib Example.datacube
        ChartExample.point ChartExample.layout ChartExample.attr = Return fig
      /\ length fig = 9%nat)
  /\ (exists fig,
         @plot_phenometrics_seaborn Sample.lib Example.datacube
           ChartExample.point ChartExample.layout ChartExample.attr = Return fig
         /\ length fig = 9%nat)
  /\ (forall fig,
         @plot_phenometrics_seaborn Sample.lib Example.datacube
           ChartExample.point ChartExample.layout [] <> Return fig)
  /\ (forall fig,
         @plot_phenometrics_matplotlib Sample.lib Example.datacube
           ChartExample.gap ChartExample.layout ChartExample.attr
         <> Return fig).
Proof.
  assert ((exists fig,
             @plot_phenometrics_matplotlib Sample.lib Example.datacube
               ChartExample.point ChartExample.layout ChartExample.attr
             = Return fig /\ length fig = 9%nat)
          /\ (exists fig,
                 @plot_phenometrics_seaborn Sample.lib Example.datacube
                   ChartExample.point ChartExample.layout ChartExample.attr
                 = Return fig /\ length fig = 9%nat)) as [Hm Hsns].
  { destruct (@matplotlib_and_seaborn_charts Sample.lib Example.datacube
                ChartExample.point ChartExample.layout ChartExample.attr [])
      as (_ & _ & Hboth & _).
    edestruct Hboth as [Hm Hsns].
    - split; [split; [simpl; lia | vm_compute; reflexivity]|].
      split; [vm_compute; reflexivity|]. split; [vm_compute; reflexivity|].
      split; [reflexivity|]. split; [reflexivity|].
      split; [reflexivity | simpl; lia].
    - reflexivity.
    - split; eexists; (split; [eassumption | reflexivity]). }
  split; [exact Hm|]. split; [exact Hsns|]. split.
  - intros fig.
    destruct (@matplotlib_and_seaborn_charts Sample.lib Example.datacube
                ChartExample.point ChartExample.layout [] fig)
      as (_ & _ & _ & Hdefault).
    by apply Hdefault.
  - intros fig Hfig.
    destruct (@matplotlib_and_seaborn_charts Sample.lib Example.datacube
                ChartExample.gap ChartExample.layout ChartExample.attr fig)
      as (Hmatplotlib & _).
    destruct (Hmatplotlib Hfig)
      as (band & dates & s & y_new & (_ & _ & Hs & _) & Hvalues & _).
    vm_compute in Hs. injection Hs as <-.
    apply Forall_cons in Hvalues as [Hsos _]. by apply Hsos.
Defined.

Lemma plot_points_region_scatters_every_pixel_witness :
  @call_plot_points_region Sample.lib exec_module RegionExample.polygon
    RegionExample.phenos
  = ([GeoSeries_plot [RegionExample.triangle];
      axes_scatter [JFloat (Q2Qc (-5595 # 100))]
        [JFloat (Q2Qc (-2920 # 100))] "red";
      axes_plot], Return tt).
Proof.
  destruct (@plot_points_region_scatters_every_pixel Sample.lib
              RegionExample.polygon RegionExample.phenos) as (_ & _ & Hdraw).
  apply (Hdraw [RegionExample.triangle]);
    [reflexivity | | | reflexivity | reflexivity]; repeat constructor.
Defined.

Lemma get_phenometrics_query_is_url_safe_witness :
  exists qs,
    Example.wcpms_url +:+ "/phenometrics?" +:+ Example.query_string
    = Example.wcpms_url +:+ "/phenometrics?" +:+ qs
    /\ all_chars url_safe qs = true.
Proof.
  apply (@get_phenometrics_query_is_url_safe Sample.lib Example.wcpms_url
           Example.datacube Example.latitude Example.longitude Example.service
           {| req_method := GET;
              req_url := Example.wcpms_url +:+ "/phenometrics?"
                         +:+ Example.query_string;
              req_params := []; req_json := None |}).
  vm_compute. apply list_elem_of_here.
Defined.
